(** * Stellar-Dis-Frontend: record normalization, CSV aggregation and role checks

    A shallow embedding of the helpers of the front end that carry real
    invariants:

    - [helpers/userRoleText] (role catalogue, permission queries) and the
      role-change check of [apiQueries/useUpdateUserRole];
    - [helpers/formatDisbursements] and the payment formatter (normalization
      of raw API records, status-transition tables);
    - [helpers/csvTotalAmount] (decimal aggregation over CSV text), together
      with a model of the part of the bignumber.js library it calls;
    - [helpers/walletValidate] (address, name, asset code and issuer checks)
      and the components [ShowForRoles] and [ShowForPermission] that gate
      content on the role helpers;
    - [helpers/performance] (the timer that measures the role mutation).

    What the engine decides is a parameter: the time value of a date
    string, the order [Array.prototype.sort] gives an array, what the timer
    reads.

    JavaScript strings are modelled by [string]; each [ascii] stands for one
    UTF-16 code unit below 256.  Functions that log or throw live in the
    monad [Eff], a writer over log entries with an exceptional completion. *)

From Stdlib Require Import ZArith NArith QArith List String Ascii Bool Lia Permutation Sorted.
From Stdlib Require Import DecimalString.
Import ListNotations.

Local Open Scope string_scope.
Local Open Scope list_scope.
Local Open Scope Z_scope.

(* ===================================================================== *)
(** ** JavaScript primitives used by the helpers *)
(* ===================================================================== *)

Module JS.

(** White space of [String.prototype.trim] and of the regular expression
    class [\s], restricted to code units below 256: TAB, LF, VT, FF, CR,
    SPACE and NBSP. *)
Definition isWhiteSpace (c : ascii) : bool :=
  let n := nat_of_ascii c in
  (Nat.eqb n 9 || Nat.eqb n 10 || Nat.eqb n 11 || Nat.eqb n 12
   || Nat.eqb n 13 || Nat.eqb n 32 || Nat.eqb n 160)%bool.

Fixpoint trimStart (s : string) : string :=
  match s with
  | EmptyString => EmptyString
  | String c r => if isWhiteSpace c then trimStart r else s
  end.

Fixpoint trimEnd (s : string) : string :=
  match s with
  | EmptyString => EmptyString
  | String c r =>
      match trimEnd r with
      | EmptyString => if isWhiteSpace c then EmptyString else String c EmptyString
      | r' => String c r'
      end
  end.

(** [s.trim()] *)
Definition trim (s : string) : string := trimEnd (trimStart s).

(** [s.split(sep)] for a separator of one character. *)
Fixpoint split (sep : ascii) (s : string) : list string :=
  match s with
  | EmptyString => [EmptyString]
  | String c r =>
      if Ascii.eqb c sep then EmptyString :: split sep r
      else match split sep r with
           | x :: xs => String c x :: xs
           | [] => [String c EmptyString]
           end
  end.

(** [arr.indexOf(x)] on an array of strings: first index, or -1. *)
Fixpoint indexOf (arr : list string) (x : string) : Z :=
  match arr with
  | [] => -1
  | y :: ys =>
      if String.eqb y x then 0
      else let i := indexOf ys x in if i <? 0 then -1 else i + 1
  end.

(** [arr.includes(x)] on an array of strings. *)
Definition includes (arr : list string) (x : string) : bool :=
  existsb (fun y => String.eqb y x) arr.

(** [arr[i]]: [None] stands for [undefined]. *)
Definition at_index {A : Type} (arr : list A) (i : Z) : option A :=
  if i <? 0 then None else nth_error arr (Z.to_nat i).

(** Truthiness of an optional string: [undefined], [null] and the empty
    string are falsy. *)
Definition truthy (o : option string) : bool :=
  match o with
  | Some s => negb (String.eqb s "")
  | None => false
  end.

(** [a || b] on optional strings and [a || 0] on optional numbers. *)
Definition orString (o : option string) (d : string) : string :=
  match o with
  | Some s => if String.eqb s "" then d else s
  | None => d
  end.

Definition orZero (o : option Z) : Z :=
  match o with
  | Some n => if n =? 0 then 0 else n
  | None => 0
  end.

Definition orZeroQ (o : option Q) : Q :=
  match o with
  | Some q => if Qeq_bool q 0 then 0%Q else q
  | None => 0%Q
  end.

(** [s.includes(sub)] on strings. *)
Fixpoint isPrefix (p s : string) : bool :=
  match p, s with
  | EmptyString, _ => true
  | String a p', String b s' => Ascii.eqb a b && isPrefix p' s'
  | String _ _, EmptyString => false
  end.

Fixpoint stringIncludes (s sub : string) : bool :=
  isPrefix sub s
  || match s with
     | EmptyString => false
     | String _ r => stringIncludes r sub
     end.

(** ASCII case mapping of [toLowerCase] and [toUpperCase]. *)
Definition lowerChar (c : ascii) : ascii :=
  let n := nat_of_ascii c in
  if (Nat.leb 65 n && Nat.leb n 90)%bool then ascii_of_nat (n + 32) else c.

Definition upperChar (c : ascii) : ascii :=
  let n := nat_of_ascii c in
  if (Nat.leb 97 n && Nat.leb n 122)%bool then ascii_of_nat (n - 32) else c.

Fixpoint mapString (f : ascii -> ascii) (s : string) : string :=
  match s with
  | EmptyString => EmptyString
  | String c r => String (f c) (mapString f r)
  end.

Definition toLowerCase := mapString lowerChar.
Definition toUpperCase := mapString upperChar.

(** [arr.join(sep)] *)
Fixpoint join (sep : string) (arr : list string) : string :=
  match arr with
  | [] => EmptyString
  | [x] => x
  | x :: rest => (x ++ sep ++ join sep rest)%string
  end.

(** [s.includes(c)] for a string [c] of one character. *)
Fixpoint hasChar (c : ascii) (s : string) : bool :=
  match s with
  | EmptyString => false
  | String d r => (Ascii.eqb d c || hasChar c r)%bool
  end.

(** Every character of a string is in a class. *)
Fixpoint allChars (f : ascii -> bool) (s : string) : bool :=
  match s with
  | EmptyString => true
  | String c r => (f c && allChars f r)%bool
  end.

(** Some character of a string is in a class. *)
Fixpoint someChar (f : ascii -> bool) (s : string) : bool :=
  match s with
  | EmptyString => false
  | String c r => (f c || someChar f r)%bool
  end.

(** *** Numbers that hold an integer

    A number is a double.  A double holds an integer of up to 53
    significant bits exactly; the sum of two integers is rounded to the
    nearest integer a double holds, to the even significand on a tie, and
    is an infinity from [2^1024] on. *)
Definition roundToDouble (z : Z) : Z :=
  let a := Z.abs z in
  if a <? 2 ^ 53 then z
  else
    let unit := 2 ^ (Z.log2 a - 52) in
    let q := a / unit in
    let r := a mod unit in
    let q' := if 2 * r <? unit then q
              else if unit <? 2 * r then q + 1
              else if Z.even q then q else q + 1 in
    Z.sgn z * (q' * unit).

Inductive Number :=
| Int (z : Z)
| Infinite (negative : bool)
| NotANumber.

Definition ofSum (z : Z) : Number :=
  let r := roundToDouble z in
  if 2 ^ 1024 <=? Z.abs r then Infinite (r <? 0) else Int r.

(** [x + y] *)
Definition add (x y : Number) : Number :=
  match x, y with
  | NotANumber, _ | _, NotANumber => NotANumber
  | Infinite a, Infinite b => if Bool.eqb a b then Infinite a else NotANumber
  | Infinite a, Int _ => Infinite a
  | Int _, Infinite b => Infinite b
  | Int a, Int b => ofSum (a + b)
  end.

(** [x === y] on numbers *)
Definition strictEq (x y : Number) : bool :=
  match x, y with
  | Int a, Int b => a =? b
  | Infinite a, Infinite b => Bool.eqb a b
  | _, _ => false
  end.

End JS.

(* ===================================================================== *)
(** ** helpers/logger.ts and the effect monad *)
(* ===================================================================== *)

Module Logger.

Inductive LogLevel := DEBUG | INFO | WARN | ERROR.

(** A log entry of [Logger.log].  The wall-clock [timestamp] and the free
    form [data] payload are not kept: no helper reads them back. *)
Record LogEntry := mkLog {
  level : LogLevel;
  message : string;
  context : string
}.

End Logger.
Import Logger.

(** A thrown JavaScript error object. *)
Record JsError := mkError { errName : string; errMessage : string }.

(** [new Error(msg)] *)
Definition Error (msg : string) : JsError := mkError "Error" msg.
(** The [TypeError] the engine raises on a call of a non-function. *)
Definition TypeError (msg : string) : JsError := mkError "TypeError" msg.

Inductive Completion (A : Type) : Type :=
| Normal (a : A)
| Thrown (e : JsError).
Arguments Normal {A} a.
Arguments Thrown {A} e.

(** A computation that may log and may throw: its completion and the log
    entries it emitted, oldest first. *)
Definition Eff (A : Type) : Type := (Completion A * list LogEntry)%type.

Definition completion {A} (m : Eff A) : Completion A := fst m.
Definition logged {A} (m : Eff A) : list LogEntry := snd m.

Definition ret {A} (a : A) : Eff A := (Normal a, []).
Definition throw {A} (e : JsError) : Eff A := (Thrown e, []).

Definition bind {A B} (m : Eff A) (k : A -> Eff B) : Eff B :=
  match m with
  | (Normal a, l) => let (r, l') := k a in (r, l ++ l')
  | (Thrown e, l) => (Thrown e, l)
  end.

(** [try { m } catch (error) { h error }] *)
Definition tryCatch {A} (m : Eff A) (h : JsError -> Eff A) : Eff A :=
  match m with
  | (Thrown e, l) => let (r, l') := h e in (r, l ++ l')
  | ok => ok
  end.

Declare Scope eff_scope.
Delimit Scope eff_scope with eff.
Notation "x <- m ;; k" := (bind m (fun x => k))
  (at level 61, m at next level, right associativity) : eff_scope.
Notation "m ;;; k" := (bind m (fun _ => k))
  (at level 61, right associativity) : eff_scope.
Local Open Scope eff_scope.

(** [logger.debug/info/warn/error(message, data, context)].  [Logger.log]
    only formats and prints, so none of them throws. *)
Definition logger_log (lvl : LogLevel) (msg ctx : string) : Eff unit :=
  (Normal tt, [mkLog lvl msg ctx]).
Definition logger_info := logger_log INFO.
Definition logger_warn := logger_log WARN.
Definition logger_error := logger_log ERROR.

(** [if (c) { m }] *)
Definition when (c : bool) (m : Eff unit) : Eff unit :=
  if c then m else ret tt.

(** [arr.map(f)] for a callback that may log and throw: the elements are
    visited in order and the first exception ends the loop. *)
Fixpoint mapM {A B} (f : A -> Eff B) (arr : list A) : Eff (list B) :=
  match arr with
  | [] => ret []
  | x :: rest => y <- f x ;; ys <- mapM f rest ;; ret (y :: ys)
  end.

Definition logger_debug := logger_log DEBUG.

(** The object [{ isValid, errors }] several validators return. *)
Module Validation.

Record ValidationResult := mkResult {
  isValid : bool;
  errors : list string
}.

(** [{ isValid: errors.length === 0, errors }] *)
Definition ofErrors (errs : list string) : ValidationResult :=
  mkResult (Nat.eqb (List.length errs) 0) errs.

(** [if (c) errors.push(msg)] *)
Definition pushIf (c : bool) (msg : string) (errs : list string) : list string :=
  if c then errs ++ [msg] else errs.

End Validation.

(* ===================================================================== *)
(** ** helpers/performance.ts: the timer around an operation *)
(* ===================================================================== *)

Module Performance.

(** What [endTimer] finds for a name.  [NotStarted]: [marks.get(name)] is
    falsy, because the mark was never set, was deleted by an overlapping
    measurement of the same name, or is 0.  [Elapsed d]: the number
    [performance.now() - startTime], in milliseconds. *)
Inductive Reading :=
| NotStarted
| Elapsed (duration : Q).

Section Monitor.

Variable reading : Reading.

(** [duration.toFixed(2)] of the engine. *)
Variable toFixed2 : Q -> string.

(** [endTimer(name, metadata)].  The metric it records is read by none of
    the helpers modelled here. *)
Definition endTimer (name : string) : Eff Q :=
  match reading with
  | NotStarted =>
      logger_warn ("Timer '" ++ name ++ "' was not started") "Performance" ;;;
      ret 0%Q
  | Elapsed duration =>
      when (negb (Qle_bool duration 1000))
        (logger_warn ("Slow operation detected: " ++ name ++ " took "
                      ++ toFixed2 duration ++ "ms") "Performance") ;;;
      ret duration
  end.

(** [measureAsync(name, fn, metadata)] *)
Definition measureAsync {T : Type} (name : string) (fn : Eff T) : Eff T :=
  tryCatch
    (result <- fn ;;
     endTimer name ;;;
     ret result)
    (fun error => endTimer name ;;; throw error).

End Monitor.

End Performance.

(* ===================================================================== *)
(** ** helpers/userRoleText.ts: the role catalogue *)
(* ===================================================================== *)

Module UserRoleText.

(** A value passed where [UserRole | null | undefined] is expected.  The
    type [UserRole] is a union of string literals, erased at run time, so
    any string can arrive. *)
Inductive RoleValue :=
| RoleUndefined
| RoleNull
| RoleString (s : string).

Record RoleInfo := mkRoleInfo {
  displayName : string;
  description : string;
  permissions : list string;
  roleLevel : Z  (* [level]: higher number = more permissions *)
}.

Definition defaultRole : RoleInfo :=
  mkRoleInfo "Unknown" "Unknown role with no permissions" [] 0.

Definition ownerInfo : RoleInfo :=
  mkRoleInfo "Owner" "Full system access with all permissions"
    [ "manage_users"; "manage_roles"; "manage_disbursements";
      "manage_payments"; "manage_wallets"; "manage_assets";
      "view_analytics"; "manage_settings"; "manage_api_keys";
      "manage_organization" ]
    100.

Definition businessInfo : RoleInfo :=
  mkRoleInfo "Business User"
    "Business operations with limited administrative access"
    [ "manage_disbursements"; "manage_payments"; "view_receivers";
      "view_analytics"; "manage_api_keys"; "view_settings" ]
    75.

Definition developerInfo : RoleInfo :=
  mkRoleInfo "Developer" "Technical access for development and integration"
    [ "manage_api_keys"; "view_disbursements"; "view_payments";
      "view_analytics"; "manage_integrations"; "view_settings" ]
    60.

Definition financialControllerInfo : RoleInfo :=
  mkRoleInfo "Financial Controller"
    "Financial oversight and control permissions"
    [ "view_disbursements"; "view_payments"; "view_receivers";
      "view_analytics"; "approve_payments"; "view_financial_reports";
      "manage_payment_limits" ]
    80.

(** [role === lit] of the [switch]: strict equality with a string literal. *)
Definition roleIs (role : RoleValue) (lit : string) : bool :=
  match role with
  | RoleString s => String.eqb s lit
  | _ => false
  end.

Definition getRoleInfo (role : RoleValue) : Eff RoleInfo :=
  tryCatch
    (if roleIs role "owner" then ret ownerInfo
     else if roleIs role "business" then ret businessInfo
     else if roleIs role "developer" then ret developerInfo
     else if roleIs role "financial_controller" then ret financialControllerInfo
     else logger_warn "Unknown user role encountered" "UserRole" ;;;
          ret defaultRole)
    (fun _ => logger_error "Error getting role info" "UserRole" ;;;
              ret defaultRole).

Definition hasPermission (role : RoleValue) (permission : string) : Eff bool :=
  tryCatch
    (roleInfo <- getRoleInfo role ;;
     ret (JS.includes (permissions roleInfo) permission))
    (fun _ => logger_error "Error checking permission" "UserRole" ;;;
              ret false).

(** [permissions.some(p => roleInfo.permissions.includes(p))] *)
Definition hasAnyPermission (role : RoleValue) (perms : list string) : Eff bool :=
  tryCatch
    (roleInfo <- getRoleInfo role ;;
     ret (existsb (fun p => JS.includes (permissions roleInfo) p) perms))
    (fun _ => logger_error "Error checking permissions" "UserRole" ;;;
              ret false).

(** [permissions.every(p => roleInfo.permissions.includes(p))] *)
Definition hasAllPermissions (role : RoleValue) (perms : list string) : Eff bool :=
  tryCatch
    (roleInfo <- getRoleInfo role ;;
     ret (forallb (fun p => JS.includes (permissions roleInfo) p) perms))
    (fun _ => logger_error "Error checking all permissions" "UserRole" ;;;
              ret false).

Definition compareRoleLevels (role1 role2 : RoleValue) : Eff Z :=
  tryCatch
    (info1 <- getRoleInfo role1 ;;
     info2 <- getRoleInfo role2 ;;
     ret (roleLevel info1 - roleLevel info2))
    (fun _ => logger_error "Error comparing role levels" "UserRole" ;;;
              ret 0).

(** [role || "Unknown"] *)
Definition roleOrUnknown (role : RoleValue) : string :=
  match role with
  | RoleString s => if String.eqb s "" then "Unknown" else s
  | _ => "Unknown"
  end.

Definition userRoleText (role : RoleValue) : Eff string :=
  tryCatch
    (if roleIs role "owner" then ret "Owner"
     else if roleIs role "business" then ret "Business user"
     else if roleIs role "developer" then ret "Developer"
     else if roleIs role "financial_controller" then ret "Financial controller"
     else logger_warn "Unknown user role encountered" "UserRole" ;;;
          ret (roleOrUnknown role))
    (fun _ => logger_error "Error getting user role text" "UserRole" ;;;
              ret "Unknown").

Definition availableRoles : list string :=
  [ "owner"; "business"; "developer"; "financial_controller" ].

(** [roles.map(role => ({ role, info: getRoleInfo(role) }))] *)
Definition getAvailableRoles : Eff (list (string * RoleInfo)) :=
  mapM (fun role => info <- getRoleInfo (RoleString role) ;; ret (role, info))
       availableRoles.

End UserRoleText.

(* ===================================================================== *)
(** ** apiQueries/useUpdateUserRole.ts: the role-change check *)
(* ===================================================================== *)

Module UpdateUserRole.
Import UserRoleText.

(** The object [{ isValid, reason? }]. *)
Record RoleChangeCheck := mkCheck {
  isValid : bool;
  reason : option string
}.

Definition reasonNoManageRoles : string :=
  "Insufficient permissions to manage user roles".
Definition reasonHigherLevel : string :=
  "Cannot assign a role with higher permissions than your own".
Definition reasonOwnerOnly : string :=
  "Only existing owners can assign owner role".

Definition validateRoleChangePermission
    (currentUserRole newRole : RoleValue) : Eff RoleChangeCheck :=
  tryCatch
    (currentRoleInfo <- getRoleInfo currentUserRole ;;
     newRoleInfo <- getRoleInfo newRole ;;
     if negb (JS.includes (permissions currentRoleInfo) "manage_roles") then
       ret (mkCheck false (Some reasonNoManageRoles))
     else if roleLevel currentRoleInfo <? roleLevel newRoleInfo then
       ret (mkCheck false (Some reasonHigherLevel))
     else if (roleIs newRole "owner" && negb (roleIs currentUserRole "owner"))%bool then
       ret (mkCheck false (Some reasonOwnerOnly))
     else ret (mkCheck true None))
    (fun _ =>
       logger_error "Error validating role change permission" "UserRoleUpdate" ;;;
       ret (mkCheck false (Some "Error validating role change permissions"))).

(** Whether a denial reason speaks of rank: it names the rank, the level,
    or a role that is higher than one's own. *)
Definition mentionsRank (r : string) : bool :=
  let l := JS.toLowerCase r in
  (JS.stringIncludes l "rank" || JS.stringIncludes l "level"
   || JS.stringIncludes l "higher")%bool.

Definition validRoles : list string :=
  [ "owner"; "business"; "developer"; "financial_controller" ].

(** [!role || typeof role !== 'string'] *)
Definition roleFalsy (role : RoleValue) : bool :=
  match role with
  | RoleString s => String.eqb s ""
  | _ => true
  end.

(** [`${role}`] for a role that is a string. *)
Definition roleText (role : RoleValue) : string :=
  match role with
  | RoleString s => s
  | RoleNull => "null"
  | RoleUndefined => "undefined"
  end.

(** Nothing in the [try] block throws, so its [catch], which would add
    one more error, is never entered. *)
Definition validateRole (role : RoleValue) : Eff Validation.ValidationResult :=
  tryCatch
    (if roleFalsy role then
       ret (Validation.mkResult false ["Role is required and must be a string"])
     else
       let errors :=
         Validation.pushIf (negb (JS.includes validRoles (roleText role)))
           ("Invalid role: " ++ roleText role ++ ". Valid roles are: "
            ++ JS.join ", " validRoles)
           [] in
       ret (Validation.ofErrors errors))
    (fun _ =>
       logger_error "Error validating role" "UserRoleUpdate" ;;;
       ret (Validation.mkResult false ["Unexpected error during role validation"])).

(** The request [fetchApi] receives: the URL, the method, and the two
    fields of the JSON body. *)
Record Request := mkRequest {
  url : string;
  method : string;
  user_id : string;
  roles : list RoleValue
}.

Section Mutation.

Context {Response : Type}.

(** [constants/envVariables], [helpers/fetchApi] and the query client are
    not among the sources. *)
Variable API_URL : string.
Variable fetchApi : Request -> Eff Response.
Variable invalidateQueries : list string -> Eff unit.

(** The callback that [mutationFn] hands to [measureAsync]. *)
Definition updateUserRole (userId : string) (role currentUserRole : RoleValue)
  : Eff Response :=
  when (negb (roleFalsy currentUserRole))
    (canChangeRole <- validateRoleChangePermission currentUserRole role ;;
     when (negb (isValid canChangeRole))
       (throw (Error (match reason canChangeRole with
                      | Some r => r
                      | None => EmptyString
                      end)))) ;;;
  roleValidation <- validateRole role ;;
  when (negb (Validation.isValid roleValidation))
    (throw (Error ("Invalid role: "
                   ++ JS.join ", " (Validation.errors roleValidation)))) ;;;
  logger_info "Updating user role" "UserRoleUpdate" ;;;
  result <- fetchApi {| url := API_URL ++ "/users/roles";
                        method := "PATCH";
                        user_id := userId;
                        roles := [role] |} ;;
  invalidateQueries ["users"] ;;;
  invalidateQueries ["profile"] ;;;
  logger_info "User role updated successfully" "UserRoleUpdate" ;;;
  ret result.

(** What the timer reads when the callback has settled, and the engine's
    [toFixed]. *)
Variable reading : Performance.Reading.
Variable toFixed2 : Q -> string.

(** [mutationFn]: the callback, measured. *)
Definition mutationFn (userId : string) (role currentUserRole : RoleValue)
  : Eff Response :=
  Performance.measureAsync reading toFixed2 "update-user-role"
    (updateUserRole userId role currentUserRole).

End Mutation.

End UpdateUserRole.

(* ===================================================================== *)
(** ** Status-transition tables *)
(* ===================================================================== *)

Module StatusTransitions.

(** Property names every object literal inherits from [Object.prototype].
    Reading one of them from a transition table yields an inherited
    function or object, which is truthy and has no [includes] method. *)
Definition objectPrototypeKeys : list string :=
  [ "constructor"; "__proto__"; "hasOwnProperty"; "isPrototypeOf";
    "propertyIsEnumerable"; "toLocaleString"; "toString"; "valueOf";
    "__defineGetter__"; "__defineSetter__"; "__lookupGetter__";
    "__lookupSetter__" ].

Fixpoint ownProperty (table : list (string * list string)) (key : string)
  : option (list string) :=
  match table with
  | [] => None
  | (k, v) :: rest => if String.eqb k key then Some v else ownProperty rest key
  end.

(** [(table[currentStatus] || []).includes(newStatus)] *)
Definition transitionAllowed (table : list (string * list string))
    (currentStatus newStatus : string) : Completion bool :=
  match ownProperty table currentStatus with
  | Some allowedTransitions => Normal (JS.includes allowedTransitions newStatus)
  | None =>
      if JS.includes objectPrototypeKeys currentStatus
      then Thrown (TypeError "allowedTransitions.includes is not a function")
      else Normal (JS.includes [] newStatus)
  end.

(** helpers/formatDisbursements.ts *)
Definition disbursementTransitions : list (string * list string) :=
  [ ("draft", ["pending"; "canceled"]);
    ("pending", ["processing"; "canceled"]);
    ("processing", ["completed"; "failed"; "canceled"]);
    ("completed", []);
    ("failed", ["retry"; "canceled"]);
    ("canceled", []);
    ("retry", ["processing"; "failed"; "canceled"]) ].

Definition validateDisbursementStatusTransition
    (currentStatus newStatus : string) : Completion bool :=
  transitionAllowed disbursementTransitions currentStatus newStatus.

(** The payment formatter. *)
Definition paymentTransitions : list (string * list string) :=
  [ ("pending", ["processing"; "failed"; "canceled"]);
    ("processing", ["completed"; "failed"]);
    ("completed", []);
    ("failed", ["retry"; "canceled"]);
    ("canceled", []);
    ("retry", ["processing"; "failed"; "canceled"]) ].

Definition validatePaymentStatusTransition
    (currentStatus newStatus : string) : Completion bool :=
  transitionAllowed paymentTransitions currentStatus newStatus.

End StatusTransitions.

(* ===================================================================== *)
(** ** Status display tables *)
(* ===================================================================== *)

Module StatusInfo.
Import StatusTransitions.

Record Info := mkInfo {
  label : string;
  color : string;
  description : string
}.

(** What [statusInfo[status] || fallback] evaluates to: an entry of the
    table, the fallback object, or a member inherited from
    [Object.prototype], which is truthy and so wins over the fallback. *)
Inductive Lookup :=
| Entry (info : Info)
| Inherited (key : string).

Fixpoint ownEntry (table : list (string * Info)) (key : string) : option Info :=
  match table with
  | [] => None
  | (k, v) :: rest => if String.eqb k key then Some v else ownEntry rest key
  end.

Definition lookupOr (table : list (string * Info)) (status unknown : string) : Lookup :=
  match ownEntry table status with
  | Some info => Entry info
  | None =>
      if JS.includes objectPrototypeKeys status then Inherited status
      else Entry (mkInfo status "neutral" unknown)
  end.

(** helpers/formatDisbursements.ts *)
Definition disbursementStatusInfo : list (string * Info) :=
  [ ("draft", mkInfo "Draft" "neutral" "Disbursement is in draft mode");
    ("pending", mkInfo "Pending" "warning" "Disbursement is pending approval");
    ("processing", mkInfo "Processing" "info" "Disbursement is being processed");
    ("completed", mkInfo "Completed" "success" "Disbursement has been completed");
    ("failed", mkInfo "Failed" "error" "Disbursement processing failed");
    ("canceled", mkInfo "Canceled" "neutral" "Disbursement was canceled");
    ("retry", mkInfo "Retry" "warning" "Disbursement will be retried") ].

Definition getDisbursementStatusInfo (status : string) : Lookup :=
  lookupOr disbursementStatusInfo status "Unknown disbursement status".

(** The payment formatter. *)
Definition paymentStatusInfo : list (string * Info) :=
  [ ("pending", mkInfo "Pending" "warning" "Payment is queued for processing");
    ("processing", mkInfo "Processing" "info" "Payment is being processed");
    ("completed", mkInfo "Completed" "success" "Payment has been successfully sent");
    ("failed", mkInfo "Failed" "error" "Payment processing failed");
    ("canceled", mkInfo "Canceled" "neutral" "Payment was canceled");
    ("retry", mkInfo "Retry" "warning" "Payment will be retried") ].

Definition getPaymentStatusInfo (status : string) : Lookup :=
  lookupOr paymentStatusInfo status "Unknown payment status".

End StatusInfo.

(* ===================================================================== *)
(** ** Status history shared by the record formatters *)
(* ===================================================================== *)

Module StatusHistory.

(** [Array.prototype.sort] of the engine, on an array that holds no
    [undefined] element.  The comparator returns a number; [None] stands
    for [NaN]. *)
Definition Sort : Type :=
  forall A : Type, (A -> A -> option Z) -> list A -> list A.


Section Sorting.

Context {A : Type}.

Variable compareFn : A -> A -> option Z.

(** One sort that conforms, for the examples: a stable insertion sort.
    [insert] places an element that came earlier in the array in front of
    the sorted remainder, behind exactly those elements the comparator puts
    strictly before it. *)
Fixpoint insert (x : A) (sorted : list A) : list A :=
  match sorted with
  | [] => [x]
  | y :: rest =>
      match compareFn x y with
      | Some v => if 0 <? v then y :: insert x rest else x :: sorted
      | None => x :: sorted
      end
  end.

Definition sort (arr : list A) : list A := fold_right insert [] arr.

End Sorting.

(** [new Date(b).getTime() - new Date(a).getTime()], given the time value
    [Date_getTime] the engine assigns to a timestamp string: an integer
    number of milliseconds, or [NaN] for an invalid date.  The difference
    is a number, so it is rounded when it has more than 53 bits. *)
Definition newestFirst (Date_getTime : string -> option Z)
    (a b : option string) : option Z :=
  match a, b with
  | Some ta, Some tb =>
      match Date_getTime tb, Date_getTime ta with
      | Some vb, Some va => Some (JS.roundToDouble (vb - va))
      | _, _ => None
      end
  | _, _ => None
  end.

End StatusHistory.

(* ===================================================================== *)
(** ** helpers/formatDisbursements.ts *)
(* ===================================================================== *)

Module FormatDisbursements.

(** The raw record.  [ApiDisbursement] is declared in the [types] module,
    which is not among the sources; its fields are typed from their use in
    [formatDisbursement].  [None] stands for a field that is [undefined]
    or [null].  Counts hold the integers a number can hold (those
    [JS.roundToDouble] leaves as they are); amounts hold rationals. *)
Module Api.

Record ApiUserName := mkUserName {
  first_name : option string;
  last_name : option string
}.

Record ApiAsset := mkAsset { asset_id : option string; asset_code : option string }.
Record ApiWallet := mkWallet { wallet_id : option string; wallet_name : option string }.

Record ApiStatusHistory := mkHistory {
  history_status : option string;
  history_timestamp : option string;
  history_user_id : option string
}.

Record ApiDisbursement := mkDisbursement {
  id : option string;
  name : option string;
  created_at : option string;
  created_by : option ApiUserName;
  started_by : option ApiUserName;
  total_payments : option Z;
  total_payments_sent : option Z;
  total_payments_failed : option Z;
  total_payments_canceled : option Z;
  total_payments_remaining : option Z;
  total_amount : option Q;
  amount_disbursed : option Q;
  average_amount : option Q;
  status : option string;
  registration_contact_type : option string;
  asset : option ApiAsset;
  wallet : option ApiWallet;
  verification_field : option string;
  file_name : option string;
  status_history : option (list ApiStatusHistory);
  receiver_registration_message_template : option string
}.

End Api.
Import Api.

Record DisbursementStats := mkStats {
  paymentsSuccessfulCount : Z;
  paymentsFailedCount : Z;
  paymentsCanceledCount : Z;
  paymentsRemainingCount : Z;
  paymentsTotalCount : Z;
  totalAmount : Q;
  disbursedAmount : Q;
  averagePaymentAmount : Q
}.

Record StatusHistoryEntry := mkEntry {
  entryStatus : option string;
  entryTimestamp : option string;
  entryUserId : option string
}.

Record Disbursement := mkModel {
  id : option string;
  name : option string;
  createdAt : option string;
  createdBy : option string;
  startedBy : option string;
  stats : DisbursementStats;
  status : option string;
  registrationContactType : option string;
  asset : option string * option string;   (* [{ id, code }] *)
  wallet : option string * option string;  (* [{ id, name }] *)
  verificationField : option string;
  fileName : option string;
  statusHistory : list StatusHistoryEntry;
  receiverRegistrationMessageTemplate : option string
}.

Definition ctx : string := "DisbursementFormat".

(** [!name || name.trim() === ''] *)
Definition nameMissing (n : option string) : bool :=
  match n with
  | Some s => (String.eqb s "" || String.eqb (JS.trim s) "")%bool
  | None => true
  end.

(** [x?.field] *)
Definition opt {A B} (o : option A) (f : A -> option B) : option B :=
  match o with
  | Some a => f a
  | None => None
  end.

(** [u?.first_name && u?.last_name ? `${first} ${last}` : undefined] *)
Definition fullName (u : option ApiUserName) : option string :=
  match opt u first_name, opt u last_name with
  | Some f, Some l =>
      if (negb (String.eqb f "") && negb (String.eqb l ""))%bool
      then Some (f ++ " " ++ l)%string else None
  | _, _ => None
  end.

Section WithEngine.

(** [new Date(s).getTime()] of the engine: [None] for an invalid date. *)
Variable Date_getTime : string -> option Z.

(** [Array.prototype.sort] of the engine. *)
Variable Array_sort : StatusHistory.Sort.

Definition formatStatusHistory (h : option (list ApiStatusHistory))
  : list StatusHistoryEntry :=
  match h with
  | Some entries =>
      let kept := filter (fun e => (JS.truthy (history_timestamp e)
                                    && JS.truthy (history_status e))%bool) entries in
      let sorted := Array_sort ApiStatusHistory
                      (fun a b => StatusHistory.newestFirst Date_getTime
                                    (history_timestamp a) (history_timestamp b))
                      kept in
      map (fun e => mkEntry (history_status e) (history_timestamp e)
                            (history_user_id e)) sorted
  | None => []
  end.

(** The statements of the [try] block. *)
Definition formatDisbursement_body (disbursement : ApiDisbursement) : Eff Disbursement :=
  when (negb (JS.truthy (Api.id disbursement)))
    (logger_warn "Disbursement missing ID" ctx ;;;
     throw (Error "Disbursement ID is required")) ;;;
  when (nameMissing (Api.name disbursement))
    (logger_warn "Disbursement missing name" ctx ;;;
     throw (Error "Disbursement name is required")) ;;;
  when (negb (JS.truthy (opt (Api.asset disbursement) asset_id))
        || negb (JS.truthy (opt (Api.asset disbursement) asset_code)))%bool
    (logger_warn "Disbursement missing asset information" ctx ;;;
     throw (Error "Disbursement asset information is required")) ;;;
  when (negb (JS.truthy (opt (Api.wallet disbursement) wallet_id))
        || negb (JS.truthy (opt (Api.wallet disbursement) wallet_name)))%bool
    (logger_warn "Disbursement missing wallet information" ctx ;;;
     throw (Error "Disbursement wallet information is required")) ;;;
  let totalPayments := JS.orZero (total_payments disbursement) in
  let successfulPayments := JS.orZero (total_payments_sent disbursement) in
  let failedPayments := JS.orZero (total_payments_failed disbursement) in
  let canceledPayments := JS.orZero (total_payments_canceled disbursement) in
  let remainingPayments := JS.orZero (total_payments_remaining disbursement) in
  let calculatedTotal :=
    JS.add (JS.add (JS.add (JS.Int successfulPayments) (JS.Int failedPayments))
                   (JS.Int canceledPayments))
           (JS.Int remainingPayments) in
  when (negb (JS.strictEq (JS.Int totalPayments) calculatedTotal))
    (logger_warn "Disbursement payment statistics mismatch" ctx) ;;;
  let totalAmount := JS.orZeroQ (total_amount disbursement) in
  let disbursedAmount := JS.orZeroQ (amount_disbursed disbursement) in
  let averageAmount := JS.orZeroQ (average_amount disbursement) in
  when (negb (Qle_bool totalAmount 0) && negb (Qle_bool disbursedAmount totalAmount))%bool
    (logger_warn "Disbursed amount exceeds total amount" ctx) ;;;
  let statusHistory := formatStatusHistory (status_history disbursement) in
  let createdBy := fullName (created_by disbursement) in
  let startedBy := fullName (started_by disbursement) in
  logger_info "Disbursement formatted successfully" ctx ;;;
  ret {| id := Api.id disbursement;
         name := Api.name disbursement;
         createdAt := created_at disbursement;
         createdBy := createdBy;
         startedBy := startedBy;
         stats := {| paymentsSuccessfulCount := successfulPayments;
                     paymentsFailedCount := failedPayments;
                     paymentsCanceledCount := canceledPayments;
                     paymentsRemainingCount := remainingPayments;
                     paymentsTotalCount := totalPayments;
                     totalAmount := totalAmount;
                     disbursedAmount := disbursedAmount;
                     averagePaymentAmount := averageAmount |};
         status := Api.status disbursement;
         registrationContactType := registration_contact_type disbursement;
         asset := (opt (Api.asset disbursement) asset_id,
                   opt (Api.asset disbursement) asset_code);
         wallet := (opt (Api.wallet disbursement) wallet_id,
                    opt (Api.wallet disbursement) wallet_name);
         verificationField := verification_field disbursement;
         fileName := file_name disbursement;
         statusHistory := statusHistory;
         receiverRegistrationMessageTemplate :=
           receiver_registration_message_template disbursement |}.

Definition formatDisbursement (disbursement : ApiDisbursement) : Eff Disbursement :=
  tryCatch (formatDisbursement_body disbursement)
    (fun error => logger_error "Failed to format disbursement" ctx ;;;
                  throw error).

End WithEngine.

(** The raw record has an id, a non-blank name, asset id and code, and
    wallet id and name. *)
Definition hasRequiredFields (d : ApiDisbursement) : bool :=
  (JS.truthy (Api.id d) && negb (nameMissing (Api.name d))
   && JS.truthy (opt (Api.asset d) asset_id)
   && JS.truthy (opt (Api.asset d) asset_code)
   && JS.truthy (opt (Api.wallet d) wallet_id)
   && JS.truthy (opt (Api.wallet d) wallet_name))%bool.

(** [formatDisbursements]: the records are formatted in order; the count of
    statuses it logs is built on a fresh object and cannot throw. *)
Definition formatDisbursements (Date_getTime : string -> option Z)
    (Array_sort : StatusHistory.Sort)
    (disbursements : list ApiDisbursement) : Eff (list Disbursement) :=
  tryCatch
    (formattedDisbursements <-
       mapM (formatDisbursement Date_getTime Array_sort) disbursements ;;
     logger_info "Disbursements formatted successfully" ctx ;;;
     ret formattedDisbursements)
    (fun error => logger_error "Failed to format disbursements" ctx ;;;
                  throw error).

End FormatDisbursements.

(* ===================================================================== *)
(** ** The payment formatter (formatPaymentDetails) *)
(* ===================================================================== *)

Module FormatPaymentDetails.

(** The raw record; [ApiPayment] is declared in the [types] module, which
    is not among the sources, and is typed here from its use. *)
Module Api.

Record ApiPaymentAsset := mkAsset { asset_code : option string }.

Record ApiPaymentDisbursement := mkDisbursement {
  disbursement_id : option string;
  disbursement_name : option string
}.

Record ApiReceiver := mkReceiver { receiver_id : option string }.

Record ApiReceiverWallet := mkReceiverWallet {
  receiver_wallet_id : option string;
  receiver : option ApiReceiver
}.

Record ApiStatusHistory := mkHistory {
  history_status : option string;
  history_timestamp : option string;
  history_status_message : option string
}.

Record ApiPayment := mkPayment {
  id : option string;
  created_at : option string;
  amount : option Q;
  asset : option ApiPaymentAsset;
  disbursement : option ApiPaymentDisbursement;
  receiver_wallet : option ApiReceiverWallet;
  stellar_transaction_id : option string;
  stellar_address : option string;
  external_payment_id : option string;
  circle_transfer_request_id : option string;
  status : option string;
  status_history : option (list ApiStatusHistory)
}.

End Api.
Import Api.

Record StatusHistoryEntry := mkEntry {
  updatedAt : option string;
  message : string;
  entryStatus : option string
}.

Record PaymentDetails := mkDetails {
  id : option string;
  createdAt : option string;
  disbursementName : string;
  disbursementId : string;
  receiverId : option string;
  receiverWalletId : option string;
  transactionId : option string;
  senderAddress : option string;
  totalAmount : option Q;
  assetCode : option string;
  externalPaymentId : option string;
  circleTransferRequestId : option string;
  status : option string;
  statusHistory : list StatusHistoryEntry
}.

Definition ctx : string := "PaymentFormat".

Definition opt {A B} (o : option A) (f : A -> option B) : option B :=
  match o with
  | Some a => f a
  | None => None
  end.

(** [!payment.amount || payment.amount <= 0] *)
Definition amountInvalid (a : option Q) : bool :=
  match a with
  | Some q => (Qeq_bool q 0 || Qle_bool q 0)%bool
  | None => true
  end.

Definition errIdRequired : JsError := Error "Payment ID is required".
Definition errAmount : JsError := Error "Payment amount must be greater than 0".
Definition errAssetCode : JsError := Error "Payment asset code is required".

Section WithEngine.

Variable Date_getTime : string -> option Z.
Variable Array_sort : StatusHistory.Sort.

Definition formatStatusHistory (h : option (list ApiStatusHistory))
  : list StatusHistoryEntry :=
  match h with
  | Some entries =>
      let kept := filter (fun e => (JS.truthy (history_timestamp e)
                                    && JS.truthy (history_status e))%bool) entries in
      let sorted := Array_sort ApiStatusHistory
                      (fun a b => StatusHistory.newestFirst Date_getTime
                                    (history_timestamp a) (history_timestamp b))
                      kept in
      map (fun e => mkEntry (history_timestamp e)
                            (JS.orString (history_status_message e) "Status updated")
                            (history_status e)) sorted
  | None => []
  end.

(** The statements of the [try] block. *)
Definition formatPaymentDetails_body (payment : ApiPayment) : Eff PaymentDetails :=
  when (negb (JS.truthy (Api.id payment)))
    (logger_warn "Payment missing ID" ctx ;;; throw errIdRequired) ;;;
  when (amountInvalid (amount payment))
    (logger_warn "Invalid payment amount" ctx ;;; throw errAmount) ;;;
  when (negb (JS.truthy (opt (asset payment) asset_code)))
    (logger_warn "Payment missing asset code" ctx ;;; throw errAssetCode) ;;;
  let statusHistory := formatStatusHistory (status_history payment) in
  let disbursementName :=
    JS.orString (opt (disbursement payment) disbursement_name) "Direct Payment" in
  let disbursementId :=
    JS.orString (opt (disbursement payment) disbursement_id) "" in
  logger_info "Payment details formatted successfully" ctx ;;;
  ret {| id := Api.id payment;
         createdAt := created_at payment;
         disbursementName := disbursementName;
         disbursementId := disbursementId;
         receiverId := opt (opt (receiver_wallet payment) receiver) receiver_id;
         receiverWalletId := opt (receiver_wallet payment) receiver_wallet_id;
         transactionId := stellar_transaction_id payment;
         senderAddress := stellar_address payment;
         totalAmount := amount payment;
         assetCode := opt (asset payment) asset_code;
         externalPaymentId := external_payment_id payment;
         circleTransferRequestId := circle_transfer_request_id payment;
         status := Api.status payment;
         statusHistory := statusHistory |}.

Definition formatPaymentDetails (payment : ApiPayment) : Eff PaymentDetails :=
  tryCatch (formatPaymentDetails_body payment)
    (fun error => logger_error "Failed to format payment details" ctx ;;;
                  throw error).

End WithEngine.

End FormatPaymentDetails.

(* ===================================================================== *)
(** ** bignumber.js, as far as the CSV helpers use it *)
(* ===================================================================== *)

(** The library is imported, not part of the repository; this module models
    its documented behaviour under the default configuration
    ([DECIMAL_PLACES] 20, [ROUNDING_MODE] half-up, exponent range 1e9,
    [DEBUG] off).  A value is [NaN], a signed infinity, or a signed finite
    decimal [c * 10^e]; the library keeps no trailing zero in a coefficient,
    which makes the representation of a number unique. *)

Module BigNumber.

Inductive t :=
| NaN
| Infinity (negative : bool)
| Finite (negative : bool) (c : N) (e : Z).

Definition MAX_EXP : Z := 1000000000.
Definition MIN_EXP : Z := -1000000000.
Definition DECIMAL_PLACES : Z := 20.

(** Remove trailing zeros of a coefficient, raising the exponent. *)
Fixpoint stripZeros (fuel : nat) (c : N) (e : Z) : N * Z :=
  match fuel with
  | O => (c, e)
  | S f => if (c mod 10 =? 0)%N then stripZeros f (c / 10)%N (e + 1) else (c, e)
  end.

(** Number of decimal digits of a coefficient. *)
Fixpoint countDigits (fuel : nat) (c : N) : Z :=
  match fuel with
  | O => 0
  | S f => if (c =? 0)%N then 0 else 1 + countDigits f (c / 10)%N
  end.

(** Enough iterations for both loops: a coefficient has no more decimal
    digits than binary ones. *)
Definition fuelFor (c : N) : nat := S (N.to_nat (N.log2 c)).

Definition digits (c : N) : Z := countDigits (fuelFor c) c.

(** Exponent of the leading digit of [c * 10^e]: the library's [x.e]. *)
Definition leadExponent (c : N) (e : Z) : Z := e + digits c - 1.

(** The tail of the constructor and the library's [normalise]: drop
    trailing zeros, then overflow to infinity or underflow to zero. *)
Definition normalise (neg : bool) (c : N) (e : Z) : t :=
  if (c =? 0)%N then Finite neg 0 0
  else
    let (c', e') := stripZeros (fuelFor c) c e in
    let lead := leadExponent c' e' in
    if MAX_EXP <? lead then Infinity neg
    else if lead <? MIN_EXP then Finite neg 0 0
    else Finite neg c' e'.

(** [BigNumber(n)] for a non-negative integer number [n]. *)
Definition ofN (n : N) : t := normalise false n 0.

(** *** Parsing a string *)

Definition isDigit (c : ascii) : bool :=
  let n := nat_of_ascii c in (Nat.leb 48 n && Nat.leb n 57)%bool.

(** [\w] *)
Definition isWordChar (c : ascii) : bool :=
  let n := nat_of_ascii c in
  (isDigit c || (Nat.leb 65 n && Nat.leb n 90) || (Nat.leb 97 n && Nat.leb n 122)
   || Nat.eqb n 95)%bool.

Definition digitValue (c : ascii) : N := N.of_nat (nat_of_ascii c - 48).

(** The longest prefix of decimal digits, and the rest. *)
Fixpoint takeDigits (s : string) : string * string :=
  match s with
  | EmptyString => (EmptyString, EmptyString)
  | String c r =>
      if isDigit c then let (d, rest) := takeDigits r in (String c d, rest)
      else (EmptyString, s)
  end.

Fixpoint digitsToN (acc : N) (s : string) : N :=
  match s with
  | EmptyString => acc
  | String c r => digitsToN (10 * acc + digitValue c)%N r
  end.

Definition stripMinus (s : string) : bool * string :=
  match s with
  | String "-"%char r => (true, r)
  | _ => (false, s)
  end.

Record Literal := mkLiteral {
  litNegative : bool;
  litInteger : string;
  litFraction : string;
  litExponent : Z
}.

(** [(?:e[+-]?\d+)?$] *)
Definition parseExponent (s : string) : option Z :=
  match s with
  | EmptyString => Some 0
  | String c r =>
      if (Ascii.eqb c "e" || Ascii.eqb c "E")%bool then
        let '(neg, r') :=
          match r with
          | String "-"%char r1 => (true, r1)
          | String "+"%char r1 => (false, r1)
          | _ => (false, r)
          end in
        let (d, rest) := takeDigits r' in
        if String.eqb d "" then None
        else if String.eqb rest "" then
          Some (if neg then - Z.of_N (digitsToN 0 d) else Z.of_N (digitsToN 0 d))
        else None
      else None
  end.

(** The library's [isNumeric] pattern: an optional minus; then digits with
    an optional dot and optional further digits, or a dot and digits; then
    an optional exponent ([e] or [E], optional sign, digits); then the end
    of the string. *)
Definition parseDecimal (s : string) : option Literal :=
  let (neg, s0) := stripMinus s in
  let (ip, r1) := takeDigits s0 in
  match r1 with
  | String "."%char r2 =>
      let (fp, r3) := takeDigits r2 in
      if (String.eqb ip "" && String.eqb fp "")%bool then None
      else option_map (mkLiteral neg ip fp) (parseExponent r3)
  | _ =>
      if String.eqb ip "" then None
      else option_map (mkLiteral neg ip EmptyString) (parseExponent r1)
  end.

Definition ofLiteral (l : Literal) : t :=
  normalise (litNegative l)
    (digitsToN 0 (litInteger l ++ litFraction l))
    (litExponent l - Z.of_nat (String.length (litFraction l))).

(** [str.replace(/^\s*\+(?=[\w.])|^\s+|\s+$/g, '')] *)
Definition stripWhitespaceOrPlus (str : string) : string :=
  let s1 := JS.trimStart str in
  let s2 :=
    match s1 with
    | String "+"%char (String c _ as rest) =>
        if (isWordChar c || Ascii.eqb c ".")%bool then rest else s1
    | _ => s1
    end in
  JS.trimEnd s2.

(** [/^-?(Infinity|NaN)$/] and the sign it receives. *)
Definition infinityOrNaN (s : string) : option t :=
  if String.eqb s "Infinity" then Some (Infinity false)
  else if String.eqb s "-Infinity" then Some (Infinity true)
  else if (String.eqb s "NaN" || String.eqb s "-NaN")%bool then Some NaN
  else None.

Fixpoint allWordOrDot (s : string) : bool :=
  match s with
  | EmptyString => true
  | String c r => ((isWordChar c || Ascii.eqb c ".") && allWordOrDot r)%bool
  end.

Definition baseOfLetter (c : ascii) : option N :=
  if (Ascii.eqb c "x" || Ascii.eqb c "X")%bool then Some 16%N
  else if (Ascii.eqb c "b" || Ascii.eqb c "B")%bool then Some 2%N
  else if (Ascii.eqb c "o" || Ascii.eqb c "O")%bool then Some 8%N
  else None.

(** [/^(-?)0([xbo])(?=\w[\w.]*$)/i]: the sign, the base and what follows. *)
Definition basePrefix (s : string) : option (bool * N * string) :=
  let (neg, s0) := stripMinus s in
  match s0 with
  | String "0"%char (String p (String c r as rest)) =>
      match baseOfLetter p with
      | Some b =>
          if (isWordChar c && allWordOrDot r)%bool then Some (neg, b, rest) else None
      | None => None
      end
  | _ => None
  end.

(** Index of a character in the library's [ALPHABET]
    ["0123456789abcdefghijklmnopqrstuvwxyz$_"]. *)
Definition alphabetIndex (c : ascii) : option N :=
  let n := nat_of_ascii c in
  if isDigit c then Some (N.of_nat (n - 48))
  else if (Nat.leb 97 n && Nat.leb n 122)%bool then Some (N.of_nat (n - 87))
  else if Nat.eqb n 36 then Some 36%N
  else if Nat.eqb n 95 then Some 37%N
  else None.

Definition inAlphabet (base : N) (c : ascii) : bool :=
  match alphabetIndex c with
  | Some i => (i <? base)%N
  | None => false
  end.

Inductive Scan := ScanOk | ScanBadDot | ScanBadChar.

(** The validity loop of the constructor for a given base: a dot is accepted
    once, and not as the first character. *)
Fixpoint scanDigits (base : N) (first dotSeen : bool) (s : string) : Scan :=
  match s with
  | EmptyString => ScanOk
  | String c r =>
      if inAlphabet base c then scanDigits base false dotSeen r
      else if Ascii.eqb c "." then
        if (first || dotSeen)%bool then ScanBadDot else scanDigits base false true r
      else ScanBadChar
  end.

(** The loop with its single change of case: ['FF'] is read as ['ff']. *)
Definition checkDigits (base : N) (str : string) : option string :=
  match scanDigits base true false str with
  | ScanOk => Some str
  | ScanBadDot => None
  | ScanBadChar =>
      let retry (s : string) :=
        match scanDigits base true false s with
        | ScanOk => Some s
        | _ => None
        end in
      if String.eqb str (JS.toUpperCase str) then retry (JS.toLowerCase str)
      else if String.eqb str (JS.toLowerCase str) then retry (JS.toUpperCase str)
      else None
  end.

(** Value of the digits of a base, the dot skipped, and the number of
    digits behind the dot. *)
Fixpoint baseDigitsToN (base acc : N) (s : string) : N :=
  match s with
  | EmptyString => acc
  | String c r =>
      match alphabetIndex c with
      | Some i => baseDigitsToN base (base * acc + i)%N r
      | None => baseDigitsToN base acc r
      end
  end.

Fixpoint fractionLength (s : string) : N :=
  match s with
  | EmptyString => 0
  | String c r => if Ascii.eqb c "." then N.of_nat (String.length r) else fractionLength r
  end.

(** Quotient [num / den] rounded half-up to an integer. *)
Definition divHalfUp (num den : N) : N := ((2 * num + den) / (2 * den))%N.

(** [convertBase(str, base, 10, sign)]: exact for integers, rounded to
    [DECIMAL_PLACES] for a number with a fraction. *)
Definition convertBase (neg : bool) (base : N) (str : string) : t :=
  let n := baseDigitsToN base 0 str in
  let f := fractionLength str in
  if (f =? 0)%N then normalise neg n 0
  else normalise neg (divHalfUp (n * 10 ^ Z.to_N DECIMAL_PLACES) (base ^ f))
                 (- DECIMAL_PLACES).

(** [/^([^.]+)\.$/] to ['$1'], then [/^\.([^.]+)$/] to ['0.$1']. *)
Fixpoint noDot (s : string) : bool :=
  match s with
  | EmptyString => true
  | String c r => (negb (Ascii.eqb c ".") && noDot r)%bool
  end.

Fixpoint dropLastDot (s : string) : option string :=
  match s with
  | EmptyString => None
  | String c EmptyString => if Ascii.eqb c "." then Some EmptyString else None
  | String c r => option_map (String c) (dropLastDot r)
  end.

Definition dotAfter (s : string) : string :=
  match dropLastDot s with
  | Some s' => if (negb (String.eqb s' "") && noDot s')%bool then s' else s
  | None => s
  end.

Definition dotBefore (s : string) : string :=
  match s with
  | String "."%char r =>
      if (negb (String.eqb r "") && noDot r)%bool then ("0." ++ r)%string else s
  | _ => s
  end.

(** The library's [parseNumeric], for a string that is not a decimal
    literal (or not a number of the given base); [again] is the
    constructor it calls on the cleaned string. *)
Definition parseNumeric (again : string -> option N -> t)
    (str : string) (b : option N) : t :=
  let s := stripWhitespaceOrPlus str in
  match infinityOrNaN s with
  | Some v => v
  | None =>
      let '(s1, base1) :=
        match basePrefix s with
        | Some (neg, pb, rest) =>
            let same := match b with
                        | Some bb => (bb =? pb)%N
                        | None => true
                        end in
            ((if same then (if neg then String "-" rest else rest) else s), Some pb)
        | None => (s, None)
        end in
      let '(s2, base2) :=
        match b with
        | Some bb => (dotBefore (dotAfter s1), Some bb)
        | None => (s1, base1)
        end in
      if String.eqb str s2 then NaN else again s2 base2
  end.

(** [new BigNumber(v, b)] for a string [v]. *)
Fixpoint construct (fuel : nat) (v : string) (b : option N) : t :=
  match fuel with
  | O => NaN
  | S f =>
      match b with
      | None =>
          match parseDecimal v with
          | Some l => ofLiteral l
          | None => parseNumeric (construct f) v None
          end
      | Some base =>
          let (neg, str) := stripMinus v in
          match checkDigits base str with
          | Some str' => convertBase neg base str'
          | None => parseNumeric (construct f) v (Some base)
          end
      end
  end.

(** [new BigNumber(v)].  Every nested call works on a string that has lost
    a prefix, a sign of plus, white space or a dot, so the length of [v]
    bounds their number. *)
Definition ofString (v : string) : t := construct (String.length v + 4) v None.

(** *** Queries *)

(** [x.isNaN()] *)
Definition isNaN (x : t) : bool :=
  match x with NaN => true | _ => false end.

(** [x.isNegative()]: the sign, also of a zero. *)
Definition isNegative (x : t) : bool :=
  match x with
  | NaN => false
  | Infinity neg => neg
  | Finite neg _ _ => neg
  end.

(** [x.isZero()] *)
Definition isZero (x : t) : bool :=
  match x with
  | Finite _ c _ => (c =? 0)%N
  | _ => false
  end.

(** [x.decimalPlaces()]: [None] stands for [null]. *)
Definition decimalPlaces (x : t) : option Z :=
  match x with
  | Finite _ _ e => Some (if e <? 0 then - e else 0)
  | _ => None
  end.

(** *** Arithmetic *)

Definition pow10 (k : Z) : N := (10 ^ Z.to_N k)%N.

(** [x.plus(y)]: exact. *)
Definition plus (x y : t) : t :=
  match x, y with
  | NaN, _ | _, NaN => NaN
  | Infinity a, Infinity b => if Bool.eqb a b then Infinity a else NaN
  | Infinity a, Finite _ _ _ => Infinity a
  | Finite _ _ _, Infinity b => Infinity b
  | Finite a c1 e1, Finite b c2 e2 =>
      let k := Z.min e1 e2 in
      let m1 := (c1 * pow10 (e1 - k))%N in
      let m2 := (c2 * pow10 (e2 - k))%N in
      if Bool.eqb a b then normalise a (m1 + m2) k
      else
        match (m1 ?= m2)%N with
        | Eq => Finite false 0 0
        | Gt => normalise a (m1 - m2) k
        | Lt => normalise b (m2 - m1) k
        end
  end.

(** [x.dividedBy(y)]: rounded half-up to [DECIMAL_PLACES]. *)
Definition dividedBy (x y : t) : t :=
  match x, y with
  | NaN, _ | _, NaN => NaN
  | Infinity _, Infinity _ => NaN
  | Infinity a, Finite b _ _ => Infinity (xorb a b)
  | Finite a _ _, Infinity b => Finite (xorb a b) 0 0
  | Finite a c1 e1, Finite b c2 e2 =>
      if (c2 =? 0)%N then (if (c1 =? 0)%N then NaN else Infinity (xorb a b))
      else
        let k := e1 - e2 + DECIMAL_PLACES in
        normalise (xorb a b)
          (divHalfUp (c1 * pow10 k) (c2 * pow10 (- k)))
          (- DECIMAL_PLACES)
  end.

(** The library's [compare]: [None] if either is [NaN]; zeros of either
    sign are equal. *)
Definition compareMagnitude (c1 : N) (e1 : Z) (c2 : N) (e2 : Z) : comparison :=
  let k := Z.min e1 e2 in
  ((c1 * pow10 (e1 - k)) ?= (c2 * pow10 (e2 - k)))%N.

Definition compare (x y : t) : option comparison :=
  match x, y with
  | NaN, _ | _, NaN => None
  | Infinity a, Infinity b =>
      Some (if Bool.eqb a b then Eq else if a then Lt else Gt)
  | Infinity a, Finite _ _ _ => Some (if a then Lt else Gt)
  | Finite _ _ _, Infinity b => Some (if b then Gt else Lt)
  | Finite a c1 e1, Finite b c2 e2 =>
      if ((c1 =? 0) && (c2 =? 0))%N then Some Eq
      else if (c1 =? 0)%N then Some (if b then Gt else Lt)
      else if (c2 =? 0)%N then Some (if a then Lt else Gt)
      else if negb (Bool.eqb a b) then Some (if a then Lt else Gt)
      else
        let m := compareMagnitude c1 e1 c2 e2 in
        Some (if a then CompOpp m else m)
  end.

(** The sign [x.s] as the library's [maxOrMin] tests it. *)
Definition signIs (x : t) (negative : bool) : bool :=
  match x with
  | NaN => false
  | Infinity a => Bool.eqb a negative
  | Finite a _ _ => Bool.eqb a negative
  end.

(** The library's [maxOrMin(args, n)]: [want] is the result of
    [compare(x, y)] on which [y] replaces [x]. *)
Definition maxOrMin (want : comparison) (args : list t) : t :=
  match args with
  | [] => NaN
  | first :: rest =>
      fold_left
        (fun x y =>
           if isNaN y then y
           else match compare x y with
                | Some k =>
                    if match k, want with
                       | Lt, Lt | Gt, Gt => true
                       | _, _ => false
                       end
                    then y
                    else if match k with Eq => true | _ => false end
                            && signIs x (match want with Lt => true | _ => false end)
                    then y
                    else x
                | None => x
                end)
        rest first
  end.

(** [BigNumber.maximum(...args)] and [BigNumber.minimum(...args)] *)
Definition maximum (args : list t) : t := maxOrMin Lt args.
Definition minimum (args : list t) : t := maxOrMin Gt args.

(** *** Well-formed values *)

(** A value as the library builds it: no trailing zero in the coefficient,
    zero has exponent 0, and the leading exponent is in range. *)
Definition wf (x : t) : Prop :=
  match x with
  | Finite _ c e =>
      (c = 0%N /\ e = 0)
      \/ (c <> 0%N /\ (c mod 10 <> 0)%N
          /\ MIN_EXP <= leadExponent c e <= MAX_EXP)
  | _ => True
  end.

(** A value the CSV helpers add to a total: a well-formed number that is
    neither [NaN] nor negative. *)
Definition accepted (x : t) : Prop :=
  wf x /\ isNaN x = false /\ isNegative x = false.

(** *** Denotation of the accepted values *)

(** The value of [c * 10^e] in units of [10^K], for [K <= e]. *)
Definition scaled (K : Z) (c : N) (e : Z) : Z := Z.of_N c * 10 ^ (e - K).

(** The first value that overflows and the first that does not underflow,
    in the same units. *)
Definition hi (K : Z) : Z := 10 ^ (MAX_EXP + 1 - K).
Definition lo (K : Z) : Z := 10 ^ (MIN_EXP - K).

(** The scaled value of an accepted number; [None] is infinity. *)
Definition sem (K : Z) (x : t) : option Z :=
  match x with
  | Finite _ c e => Some (scaled K c e)
  | _ => None
  end.

(** The unit [10^K] is fine enough for [x]. *)
Definition fits (K : Z) (x : t) : Prop :=
  match x with
  | Finite _ _ e => K <= e
  | _ => True
  end.

(** Sum of two scaled values, infinity absorbing. *)
Definition addo (a b : option Z) : option Z :=
  match a, b with
  | Some u, Some v => Some (u + v)
  | _, _ => None
  end.

(** Overflow of a scaled value to infinity. *)
Definition clamp (K : Z) (o : option Z) : option Z :=
  match o with
  | Some v => if hi K <=? v then None else Some v
  | None => None
  end.

(** The exponent of a finite value. *)
Definition expOf (x : t) : Z :=
  match x with
  | Finite _ _ e => e
  | _ => 0
  end.

End BigNumber.

(* ===================================================================== *)
(** ** helpers/csvTotalAmount.ts *)
(* ===================================================================== *)

Module CsvTotalAmount.

Definition ctx : string := "CSVProcessing".

Definition LF : ascii := "010"%char.

(** [csv.split("\n").filter(line => line.trim() !== '')] *)
Definition nonBlankLines (csv : string) : list string :=
  filter (fun line => negb (String.eqb (JS.trim line) "")) (JS.split LF csv).

(** [line.split(",").map(col => col.trim())] *)
Definition columnsOf (line : string) : list string :=
  map JS.trim (JS.split "," line).

(** Decimal notation of a row number. *)
Definition numberToString (n : nat) : string :=
  NilEmpty.string_of_uint (Nat.to_uint n).

(** *** csvTotalAmount *)

(** The variables the row loop updates. *)
Record Totals := mkTotals {
  accTotalAmount : BigNumber.t;
  accValidRows : Z;
  accInvalidRows : Z;
  accErrors : list string
}.

(** [invalidRows++; errors.push(`Row ${index + 2}: ${what}`); return] *)
Definition rejectRow (acc : Totals) (index : nat) (what : string) : Totals :=
  {| accTotalAmount := accTotalAmount acc;
     accValidRows := accValidRows acc;
     accInvalidRows := accInvalidRows acc + 1;
     accErrors := accErrors acc
                  ++ [("Row " ++ numberToString (index + 2) ++ ": " ++ what)%string] |}.

(** [amount.decimalPlaces() > decimalPlaces]; [null] compares as 0. *)
Definition exceedsDecimalPlaces (amount : BigNumber.t) (decimalPlaces : Z) : bool :=
  match BigNumber.decimalPlaces amount with
  | Some dp => decimalPlaces <? dp
  | None => decimalPlaces <? 0
  end.

(** The callback of [rows.forEach].  Nothing in it throws (the constructor
    of the library yields [NaN] on a malformed string), so the [catch] of
    the callback is never entered. *)
Definition processRow (amountIndex decimalPlaces : Z)
    (acc : Totals) (line : string) (index : nat) : Eff Totals :=
  if String.eqb (JS.trim line) "" then ret acc
  else
    let values := columnsOf line in
    match JS.at_index values amountIndex with
    | None => ret (rejectRow acc index "Empty amount value")
    | Some amountValue =>
        if String.eqb amountValue "" then
          ret (rejectRow acc index "Empty amount value")
        else
          let amount := BigNumber.ofString amountValue in
          if BigNumber.isNaN amount then
            ret (rejectRow acc index ("Invalid amount format: " ++ amountValue))
          else if BigNumber.isNegative amount then
            ret (rejectRow acc index ("Negative amount: " ++ amountValue))
          else
            when (exceedsDecimalPlaces amount decimalPlaces)
              (logger_warn "Amount exceeds decimal places limit" ctx) ;;;
            ret {| accTotalAmount := BigNumber.plus (accTotalAmount acc) amount;
                   accValidRows := accValidRows acc + 1;
                   accInvalidRows := accInvalidRows acc;
                   accErrors := accErrors acc |}
    end.

(** [rows.forEach((line, index) => ...)] from a given index on. *)
Fixpoint forEachRow (amountIndex decimalPlaces : Z)
    (rows : list string) (index : nat) (acc : Totals) : Eff Totals :=
  match rows with
  | [] => ret acc
  | line :: rest =>
      acc' <- processRow amountIndex decimalPlaces acc line index ;;
      forEachRow amountIndex decimalPlaces rest (S index) acc'
  end.

Definition initialTotals : Totals :=
  {| accTotalAmount := BigNumber.ofN 0;
     accValidRows := 0;
     accInvalidRows := 0;
     accErrors := [] |}.

(** How the promise settles. *)
Inductive Settled (A : Type) : Type :=
| Resolved (a : A)
| Rejected (e : JsError).
Arguments Resolved {A} a.
Arguments Rejected {A} e.

(** What the [FileReader] reports for a file: [onload] with its [result]
    ([None] for [null]), or [onerror]. *)
Inductive ReaderEvent :=
| Loaded (result : option string)
| Failed (error : JsError).

Record File := mkFile { fileName : string; readAsText : ReaderEvent }.

(** The [reader.onload] handler. *)
Definition onload (result : option string) (columnName : string) (decimalPlaces : Z)
  : Eff (Settled (option BigNumber.t)) :=
  tryCatch
    (match result with
     | None | Some EmptyString =>
         logger_warn "CSV file is empty" ctx ;;; ret (Resolved None)
     | Some csvRows =>
         let lines := nonBlankLines csvRows in
         if Z.of_nat (List.length lines) <? 2 then
           logger_warn "CSV file has insufficient data" ctx ;;; ret (Resolved None)
         else
           match lines with
           | [] => ret (Resolved None)
           | header :: rows =>
               let columns := columnsOf header in
               let amountIndex := JS.indexOf columns columnName in
               if amountIndex =? -1 then
                 logger_warn "Amount column not found in CSV" ctx ;;;
                 ret (Resolved None)
               else
                 acc <- forEachRow amountIndex decimalPlaces rows 0 initialTotals ;;
                 logger_info "CSV total amount calculated successfully" ctx ;;;
                 when (0 <? accInvalidRows acc)
                   (logger_warn "CSV processing completed with errors" ctx) ;;;
                 ret (Resolved (Some (accTotalAmount acc)))
           end
     end)
    (fun error => logger_error "Failed to process CSV file" ctx ;;;
                  ret (Rejected error)).

Definition defaultColumnName : string := "amount".
Definition defaultDecimalPlaces : Z := 7.

Definition csvTotalAmount (csvFile : option File)
    (columnName : string) (decimalPlaces : Z)
  : Eff (Settled (option BigNumber.t)) :=
  match csvFile with
  | None => ret (Resolved None)
  | Some file =>
      match readAsText file with
      | Loaded result => onload result columnName decimalPlaces
      | Failed error =>
          logger_error "Failed to read CSV file" ctx ;;; ret (Rejected error)
      end
  end.

(** *** getCSVStatistics *)

Record CSVStatistics := mkStatistics {
  rowCount : Z;
  totalAmount : BigNumber.t;
  averageAmount : BigNumber.t;
  minAmount : BigNumber.t;
  maxAmount : BigNumber.t;
  validRows : Z;
  invalidRows : Z
}.

(** The callback of [rows.forEach]: the state is the array [amounts] and
    the counter [invalidRows]. *)
Definition collectRow (amountIndex : Z)
    (state : list BigNumber.t * Z) (line : string) : list BigNumber.t * Z :=
  let (amounts, invalidRows) := state in
  if String.eqb (JS.trim line) "" then state
  else
    match JS.at_index (columnsOf line) amountIndex with
    | Some amountValue =>
        if negb (String.eqb amountValue "") then
          let amount := BigNumber.ofString amountValue in
          if (negb (BigNumber.isNaN amount) && negb (BigNumber.isNegative amount))%bool
          then (amounts ++ [amount], invalidRows)
          else (amounts, invalidRows + 1)
        else (amounts, invalidRows + 1)
    | None => (amounts, invalidRows + 1)
    end.

Definition emptyStatistics (rowCount invalidRows : Z) : CSVStatistics :=
  {| rowCount := rowCount;
     totalAmount := BigNumber.ofN 0;
     averageAmount := BigNumber.ofN 0;
     minAmount := BigNumber.ofN 0;
     maxAmount := BigNumber.ofN 0;
     validRows := 0;
     invalidRows := invalidRows |}.

Definition getCSVStatistics (csvContent amountColumn : string) : CSVStatistics :=
  let lines := nonBlankLines csvContent in
  if Z.of_nat (List.length lines) <? 2 then emptyStatistics 0 0
  else
    match lines with
    | [] => emptyStatistics 0 0
    | header :: rows =>
        let columns := columnsOf header in
        let amountIndex := JS.indexOf columns amountColumn in
        if amountIndex =? -1 then
          emptyStatistics (Z.of_nat (List.length rows)) (Z.of_nat (List.length rows))
        else
          let (amounts, invalidRows) :=
            fold_left (collectRow amountIndex) rows ([], 0) in
          if Z.of_nat (List.length amounts) =? 0 then
            emptyStatistics (Z.of_nat (List.length rows)) invalidRows
          else
            let totalAmount :=
              fold_left (fun sum amount => BigNumber.plus sum amount)
                        amounts (BigNumber.ofN 0) in
            let averageAmount :=
              BigNumber.dividedBy totalAmount
                (BigNumber.ofN (N.of_nat (List.length amounts))) in
            let minAmount := BigNumber.minimum amounts in
            let maxAmount := BigNumber.maximum amounts in
            {| rowCount := Z.of_nat (List.length rows);
               totalAmount := totalAmount;
               averageAmount := averageAmount;
               minAmount := minAmount;
               maxAmount := maxAmount;
               validRows := Z.of_nat (List.length amounts);
               invalidRows := invalidRows |}
    end.

(** *** validateCSVStructure *)

Record CSVStructure := mkStructure {
  isValid : bool;
  missingColumns : list string;
  availableColumns : list string
}.

Definition validateCSVStructure (csvContent : string) (requiredColumns : list string)
  : CSVStructure :=
  let lines := nonBlankLines csvContent in
  match lines with
  | [] => {| isValid := false;
             missingColumns := requiredColumns;
             availableColumns := [] |}
  | header :: _ =>
      let columns := columnsOf header in
      let missingColumns :=
        filter (fun col => negb (JS.includes columns col)) requiredColumns in
      {| isValid := Nat.eqb (List.length missingColumns) 0;
         missingColumns := missingColumns;
         availableColumns := columns |}
  end.

End CsvTotalAmount.

(* ===================================================================== *)
(** ** helpers/walletValidate.ts *)
(* ===================================================================== *)

Module WalletValidate.
Import Validation.

Definition ctx : string := "WalletValidation".

Definition WALLET_ADDRESS_PREFIX : string := "G".
Definition WALLET_ADDRESS_LENGTH : nat := 56.

Definition inRange (lo hi : nat) (c : ascii) : bool :=
  (Nat.leb lo (nat_of_ascii c) && Nat.leb (nat_of_ascii c) hi)%bool.

(** The class [A-Z2-7]. *)
Definition isBase32Char (c : ascii) : bool :=
  (inRange 65 90 c || inRange 50 55 c)%bool.

(** [WALLET_ADDRESS_REGEX.test(address)]: a [G] and 55 characters of the
    class, then the end of the string. *)
Definition WALLET_ADDRESS_REGEX (address : string) : bool :=
  match address with
  | String c rest =>
      (Ascii.eqb c "G" && Nat.eqb (String.length rest) 55
       && JS.allChars isBase32Char rest)%bool
  | EmptyString => false
  end.

Definition isValidWalletAddress (address : string) : Eff bool :=
  tryCatch
    (if String.eqb address "" then ret false
     else if negb (JS.isPrefix WALLET_ADDRESS_PREFIX address) then
       logger_debug "Wallet address does not start with G" ctx ;;; ret false
     else if negb (Nat.eqb (String.length address) WALLET_ADDRESS_LENGTH) then
       logger_debug "Wallet address has incorrect length" ctx ;;; ret false
     else if negb (WALLET_ADDRESS_REGEX address) then
       logger_debug "Wallet address does not match Stellar format" ctx ;;; ret false
     else ret true)
    (fun _ => logger_error "Error validating wallet address" ctx ;;; ret false).

Definition numberToString (n : nat) : string :=
  NilEmpty.string_of_uint (Nat.to_uint n).

(** The checks of [validateWalletAddress] on a non-empty address, in the
    order in which they push their errors. *)
Definition walletAddressErrors (address : string) : list string :=
  let errors := [] in
  let errors :=
    pushIf (negb (JS.isPrefix WALLET_ADDRESS_PREFIX address))
      "Address must start with 'G'" errors in
  let errors :=
    pushIf (negb (Nat.eqb (String.length address) WALLET_ADDRESS_LENGTH))
      ("Address must be exactly 56 characters long (got "
       ++ numberToString (String.length address) ++ ")") errors in
  let errors :=
    pushIf (negb (WALLET_ADDRESS_REGEX address))
      "Address contains invalid characters or format" errors in
  let errors :=
    pushIf (JS.hasChar "0" address || JS.hasChar "1" address
            || JS.hasChar "8" address || JS.hasChar "9" address)
      "Address contains invalid characters (0, 1, 8, 9 are not allowed in Stellar addresses)"
      errors in
  let errors :=
    pushIf (JS.hasChar "O" address || JS.hasChar "I" address)
      "Address contains invalid characters (O, I are not allowed in Stellar addresses)"
      errors in
  errors.

Definition unexpected (what : string) : JsError -> Eff ValidationResult :=
  fun _ => logger_error what ctx ;;;
           ret (mkResult false ["Unexpected error during validation"]).

Definition validateWalletAddress (address : string) : Eff ValidationResult :=
  tryCatch
    (if String.eqb address "" then
       ret (mkResult false ["Address is required and must be a string"])
     else ret (ofErrors (walletAddressErrors address)))
    (unexpected "Error during wallet address validation").

(** The class of [invalidChars]: the angle brackets, the colon, the double
    quote, the slash, the backslash, the bar, the question mark and the
    star. *)
Definition isInvalidNameChar (c : ascii) : bool :=
  let n := nat_of_ascii c in
  (Nat.eqb n 60 || Nat.eqb n 62 || Nat.eqb n 58 || Nat.eqb n 34 || Nat.eqb n 47
   || Nat.eqb n 92 || Nat.eqb n 124 || Nat.eqb n 63 || Nat.eqb n 42)%bool.

Definition walletNameErrors (name : string) : list string :=
  let trimmedName := JS.trim name in
  let errors := [] in
  let errors :=
    pushIf (Nat.eqb (String.length trimmedName) 0)
      "Wallet name cannot be empty" errors in
  let errors :=
    pushIf (Nat.ltb (String.length trimmedName) 2)
      "Wallet name must be at least 2 characters long" errors in
  let errors :=
    pushIf (Nat.ltb 50 (String.length trimmedName))
      "Wallet name cannot exceed 50 characters" errors in
  let errors :=
    pushIf (JS.someChar isInvalidNameChar trimmedName)
      "Wallet name contains invalid characters" errors in
  errors.

Definition validateWalletName (name : string) : Eff ValidationResult :=
  tryCatch
    (if String.eqb name "" then
       ret (mkResult false ["Wallet name is required and must be a string"])
     else ret (ofErrors (walletNameErrors name)))
    (unexpected "Error during wallet name validation").

(** The class [A-Z0-9\-_] of [validChars]. *)
Definition isAssetCodeChar (c : ascii) : bool :=
  (inRange 65 90 c || inRange 48 57 c
   || Nat.eqb (nat_of_ascii c) 45 || Nat.eqb (nat_of_ascii c) 95)%bool.

(** [validChars.test(s)]: one character of the class or more, and nothing
    else. *)
Definition validChars (s : string) : bool :=
  (negb (String.eqb s "") && JS.allChars isAssetCodeChar s)%bool.

Definition reservedCodes : list string := [ "XLM"; "NATIVE" ].

(** [toUpperCase] is modelled on the letters a to z; no other character
    below 256 maps to a letter of a reserved code. *)
Definition assetCodeErrors (assetCode : string) : list string :=
  let trimmedCode := JS.trim assetCode in
  let errors := [] in
  let errors :=
    pushIf (Nat.eqb (String.length trimmedCode) 0)
      "Asset code cannot be empty" errors in
  let errors :=
    pushIf (Nat.ltb 12 (String.length trimmedCode))
      "Asset code cannot exceed 12 characters" errors in
  let errors :=
    pushIf (negb (validChars trimmedCode))
      "Asset code contains invalid characters (only uppercase letters, numbers, hyphens, and underscores allowed)"
      errors in
  let errors :=
    pushIf (JS.includes reservedCodes (JS.toUpperCase trimmedCode))
      ("Asset code '" ++ trimmedCode ++ "' is reserved") errors in
  errors.

Definition validateAssetCode (assetCode : string) : Eff ValidationResult :=
  tryCatch
    (if String.eqb assetCode "" then
       ret (mkResult false ["Asset code is required and must be a string"])
     else ret (ofErrors (assetCodeErrors assetCode)))
    (unexpected "Error during asset code validation").

Definition validateAssetIssuer (issuer : string) : Eff ValidationResult :=
  tryCatch
    (if String.eqb issuer "" then
       ret (mkResult false ["Asset issuer is required and must be a string"])
     else
       walletValidation <- validateWalletAddress issuer ;;
       let errors :=
         if negb (isValid walletValidation)
         then map (fun error => ("Issuer: " ++ error)%string) (errors walletValidation)
         else [] in
       ret (ofErrors errors))
    (unexpected "Error during asset issuer validation").

End WalletValidate.

(* ===================================================================== *)
(** ** The components that gate content on roles and permissions *)
(* ===================================================================== *)

Module ShowForRoles.
Import UserRoleText.

(** What a component returns: its children or its fallback. *)
Inductive Rendered := Children | Fallback.

(** [ShowForRoles], given what the hook [useIsUserRoleAccepted] returned
    for [acceptedRoles]. *)
Definition ShowForRoles (isRoleAccepted : bool) (userRole : RoleValue)
    (requiredPermission : option string)
    (requiredPermissions : option (list string))
    (logAccess : bool) : Eff Rendered :=
  hasRequiredPermission <-
    (match requiredPermission with
     | Some p => if String.eqb p "" then ret true else hasPermission userRole p
     | None => ret true
     end) ;;
  hasRequiredPermissions <-
    (match requiredPermissions with
     | Some ps => hasAnyPermission userRole ps
     | None => ret true
     end) ;;
  let shouldShow :=
    (isRoleAccepted && hasRequiredPermission && hasRequiredPermissions)%bool in
  when logAccess (logger_debug "Role-based access check" "ShowForRoles") ;;;
  when (negb shouldShow
        && (JS.truthy requiredPermission
            || match requiredPermissions with Some _ => true | None => false end))%bool
    (logger_warn "Access denied due to insufficient permissions" "AccessControl") ;;;
  ret (if shouldShow then Children else Fallback).

(** Truthiness of the role the hook returns. *)
Definition roleTruthy (role : RoleValue) : bool :=
  match role with
  | RoleString s => negb (String.eqb s "")
  | _ => false
  end.

(** [ShowForPermission].  Its constant [hasPermission] shadows the imported
    function of that name inside the component, so the call in the
    initializer reads the constant before it is initialized. *)
Definition ShowForPermission (userRole : RoleValue) (permission : string)
    (logAccess : bool) : Eff Rendered :=
  hasPermission <-
    (if roleTruthy userRole
     then throw (mkError "ReferenceError"
                   "Cannot access 'hasPermission' before initialization")
     else ret false) ;;
  when logAccess (logger_debug "Permission-based access check" "ShowForPermission") ;;;
  when (negb hasPermission)
    (logger_warn "Access denied due to missing permission" "AccessControl") ;;;
  ret (if hasPermission then Children else Fallback).

End ShowForRoles.

(* ===================================================================== *)
(** ** Vocabulary of the statements *)
(* ===================================================================== *)

Module Vocabulary.
Import CsvTotalAmount.

(** Lines joined by the line terminator. *)
Fixpoint joinLines (lines : list string) : string :=
  match lines with
  | [] => EmptyString
  | [l] => l
  | l :: rest => (l ++ String LF (joinLines rest))%string
  end.

(** The CSV text of the aggregation example. *)
Definition exampleCsv : string :=
  joinLines [ "amount,note"; "10.1234567,a"; "-5,b"; "abc,c"; ",d"; "20.5,e" ].

(** The amounts a row contributes to [amounts] in [getCSVStatistics]: one
    or none. *)
Definition rowAmounts (amountIndex : Z) (line : string) : list BigNumber.t :=
  fst (collectRow amountIndex ([], 0) line).

(** By how much a row raises [invalidRows] in [getCSVStatistics]. *)
Definition rowInvalid (amountIndex : Z) (line : string) : Z :=
  snd (collectRow amountIndex ([], 0) line).

(** The header of a CSV text lacks a column: no cell of the first
    non-blank line, split at commas and trimmed, is the name. *)
Definition headerLacks (csv columnName : string) : Prop :=
  match nonBlankLines csv with
  | header :: _ => JS.includes (columnsOf header) columnName = false
  | [] => True
  end.

(** The cell of the amount column is one a row is rejected for: there is
    none, it is empty, it is not a number, or it carries a minus sign. *)
Definition cellRejected (cell : option string) : Prop :=
  match cell with
  | None => True
  | Some value =>
      value = ""
      \/ BigNumber.ofString value = BigNumber.NaN
      \/ BigNumber.isNegative (BigNumber.ofString value) = true
  end.

(** Number of data rows of a CSV text. *)
Definition dataRowCount (csv : string) : Z :=
  Z.of_nat (List.length (tl (nonBlankLines csv))).

(** A payment amount that is absent, or at most 0. *)
Definition absentOrNonPositive (a : option Q) : Prop :=
  match a with
  | Some q => (q <= 0)%Q
  | None => True
  end.

(** A count of the returned statistics repeats the field of the raw
    record; a field the record omits reads as 0. *)
Definition echoes (field : option Z) (stat : Z) : Prop :=
  match field with
  | Some n => stat = n
  | None => stat = 0
  end.

Definition statsEchoInput (d : FormatDisbursements.Api.ApiDisbursement)
    (s : FormatDisbursements.DisbursementStats) : Prop :=
  echoes (FormatDisbursements.Api.total_payments_sent d)
         (FormatDisbursements.paymentsSuccessfulCount s)
  /\ echoes (FormatDisbursements.Api.total_payments_failed d)
            (FormatDisbursements.paymentsFailedCount s)
  /\ echoes (FormatDisbursements.Api.total_payments_canceled d)
            (FormatDisbursements.paymentsCanceledCount s)
  /\ echoes (FormatDisbursements.Api.total_payments_remaining d)
            (FormatDisbursements.paymentsRemainingCount s)
  /\ echoes (FormatDisbursements.Api.total_payments d)
            (FormatDisbursements.paymentsTotalCount s).

(** The four status counts of the raw record sum to its total. *)
Definition countsConsistent (d : FormatDisbursements.Api.ApiDisbursement) : Prop :=
  JS.orZero (FormatDisbursements.Api.total_payments d)
  = JS.orZero (FormatDisbursements.Api.total_payments_sent d)
    + JS.orZero (FormatDisbursements.Api.total_payments_failed d)
    + JS.orZero (FormatDisbursements.Api.total_payments_canceled d)
    + JS.orZero (FormatDisbursements.Api.total_payments_remaining d).

(** The four status counts of the returned statistics sum to the total. *)
Definition countsAddUp (s : FormatDisbursements.DisbursementStats) : Prop :=
  FormatDisbursements.paymentsTotalCount s
  = FormatDisbursements.paymentsSuccessfulCount s
    + FormatDisbursements.paymentsFailedCount s
    + FormatDisbursements.paymentsCanceledCount s
    + FormatDisbursements.paymentsRemainingCount s.

Definition mismatchWarning : Logger.LogEntry :=
  Logger.mkLog Logger.WARN "Disbursement payment statistics mismatch"
               FormatDisbursements.ctx.

(** A count small enough for sums of four to be exact: below [2^51] in
    magnitude. *)
Definition safeCount (field : option Z) : Prop :=
  Z.abs (JS.orZero field) < 2 ^ 51.

Definition safeCounts (d : FormatDisbursements.Api.ApiDisbursement) : Prop :=
  safeCount (FormatDisbursements.Api.total_payments_sent d)
  /\ safeCount (FormatDisbursements.Api.total_payments_failed d)
  /\ safeCount (FormatDisbursements.Api.total_payments_canceled d)
  /\ safeCount (FormatDisbursements.Api.total_payments_remaining d).

(** A line of a CSV text: it holds no line terminator and is not blank. *)
Fixpoint noLineBreak (s : string) : bool :=
  match s with
  | EmptyString => true
  | String c r => (negb (Ascii.eqb c LF) && noLineBreak r)%bool
  end.

Definition isRow (s : string) : bool :=
  (noLineBreak s && negb (String.eqb (JS.trim s) ""))%bool.

(** A raw disbursement whose four status counts sum to 10. *)
Definition exampleDisbursement (total : Z) : FormatDisbursements.Api.ApiDisbursement :=
  FormatDisbursements.Api.mkDisbursement
    (Some "d-1") (Some "March payroll") (Some "2024-03-01T00:00:00Z")
    None None
    (Some total) (Some 3) (Some 2) (Some 1) (Some 4)
    (Some (100 # 1)%Q) (Some (30 # 1)%Q) (Some (10 # 1)%Q)
    (Some "processing") None
    (Some (FormatDisbursements.Api.mkAsset (Some "a-1") (Some "USDC")))
    (Some (FormatDisbursements.Api.mkWallet (Some "w-1") (Some "Vibrant")))
    None None None None.

(** The name is absent or blank. *)
Definition nameBlank (n : option string) : bool :=
  match n with
  | Some s => String.eqb (JS.trim s) ""
  | None => true
  end.

(** An object is there and two of its fields hold text. *)
Definition bothPresent {A : Type} (o : option A) (f g : A -> option string) : bool :=
  match o with
  | Some a => (JS.truthy (f a) && JS.truthy (g a))%bool
  | None => false
  end.

(** The message for the first required field a raw disbursement lacks, in
    the order id, name, asset, wallet. *)
Definition firstMissing (d : FormatDisbursements.Api.ApiDisbursement)
  : option string :=
  if negb (JS.truthy (FormatDisbursements.Api.id d)) then
    Some "Disbursement ID is required"
  else if nameBlank (FormatDisbursements.Api.name d) then
    Some "Disbursement name is required"
  else if negb (bothPresent (FormatDisbursements.Api.asset d)
                  FormatDisbursements.Api.asset_id
                  FormatDisbursements.Api.asset_code) then
    Some "Disbursement asset information is required"
  else if negb (bothPresent (FormatDisbursements.Api.wallet d)
                  FormatDisbursements.Api.wallet_id
                  FormatDisbursements.Api.wallet_name) then
    Some "Disbursement wallet information is required"
  else None.

(** A raw disbursement with [2^53] payments in all, of which [2^53] were
    sent and one failed. *)
Definition largeDisbursement : FormatDisbursements.Api.ApiDisbursement :=
  FormatDisbursements.Api.mkDisbursement
    (Some "d-2") (Some "Large batch") None None None
    (Some (2 ^ 53)) (Some (2 ^ 53)) (Some 1) None None
    None None None
    (Some "processing") None
    (Some (FormatDisbursements.Api.mkAsset (Some "a-1") (Some "USDC")))
    (Some (FormatDisbursements.Api.mkWallet (Some "w-1") (Some "Vibrant")))
    None None None None.

(** A raw payment with the given id and amount, otherwise complete. *)
Definition examplePayment (id : option string) (amount : option Q)
  : FormatPaymentDetails.Api.ApiPayment :=
  FormatPaymentDetails.Api.mkPayment
    id (Some "2024-03-01T00:00:00Z") amount
    (Some (FormatPaymentDetails.Api.mkAsset (Some "USDC")))
    None None None None None None (Some "pending") None.

(** The role is one of the four roles of the catalogue. *)
Definition isKnownRole (role : UserRoleText.RoleValue) : bool :=
  (UserRoleText.roleIs role "owner" || UserRoleText.roleIs role "business"
   || UserRoleText.roleIs role "developer"
   || UserRoleText.roleIs role "financial_controller")%bool.

(** The two checks [updateUserRole] makes before it sends its request: the
    acting role is omitted or is [owner], and the new role is one of the
    catalogue. *)
Definition requestAllowed (currentUserRole role : UserRoleText.RoleValue) : bool :=
  ((UpdateUserRole.roleFalsy currentUserRole
    || UserRoleText.roleIs currentUserRole "owner")
   && isKnownRole role)%bool.

(** What the timer of [measureAsync] adds to the log: one warning when it
    finds no start mark, one when the operation took more than 1000
    milliseconds, and nothing otherwise. *)
Definition timerAdds (reading : Performance.Reading) (toFixed2 : Q -> string)
    (name : string) (entries : list LogEntry) : Prop :=
  match reading with
  | Performance.NotStarted =>
      entries = [mkLog WARN ("Timer '" ++ name ++ "' was not started") "Performance"]
  | Performance.Elapsed duration =>
      ((duration <= 1000)%Q -> entries = [])
      /\ ((1000 < duration)%Q ->
          entries = [mkLog WARN ("Slow operation detected: " ++ name ++ " took "
                                 ++ toFixed2 duration ++ "ms") "Performance"])
  end.

(** The first state of a transition table: [draft] for a disbursement,
    [pending] for a payment. *)
Definition initialState (table : list (string * list string)) : string :=
  match table with
  | (k, _) :: _ => k
  | [] => EmptyString
  end.

(** Every edge of a transition table leaves its state, arrives at a state
    of the table, and does not arrive at the first one. *)
Definition tableWellFormed (table : list (string * list string)) : bool :=
  forallb
    (fun entry =>
       forallb
         (fun target =>
            (negb (String.eqb target (fst entry))
             && JS.includes (map fst table) target
             && negb (String.eqb target (initialState table)))%bool)
         (snd entry))
    table.



(** A field that holds text: a string that is not empty. *)
Definition holdsText (field : option string) : Prop :=
  exists text, field = Some text /\ text <> "".

(** A raw payment with an id, an amount above 0 and an asset code. *)
Definition paymentIsValid (p : FormatPaymentDetails.Api.ApiPayment) : Prop :=
  holdsText (FormatPaymentDetails.Api.id p)
  /\ (exists q, FormatPaymentDetails.Api.amount p = Some q /\ (0 < q)%Q)
  /\ (exists a, FormatPaymentDetails.Api.asset p = Some a
                /\ holdsText (FormatPaymentDetails.Api.asset_code a)).



(** The amounts of the data rows that [getCSVStatistics] accepts, in the
    order of the rows. *)
Definition acceptedAmounts (csv columnName : string) : list BigNumber.t :=
  match nonBlankLines csv with
  | header :: rows =>
      flat_map (rowAmounts (JS.indexOf (columnsOf header) columnName)) rows
  | [] => []
  end.

(** [x] is at most [y] in the order of [compare]. *)
Definition atMost (x y : BigNumber.t) : Prop :=
  BigNumber.compare x y = Some Lt \/ BigNumber.compare x y = Some Eq.

(** The warning of [csvTotalAmount] for an amount with too many decimal
    places, and its closing warning when rows were rejected. *)
Definition precisionWarning : LogEntry :=
  mkLog WARN "Amount exceeds decimal places limit" CsvTotalAmount.ctx.
Definition errorsWarning : LogEntry :=
  mkLog WARN "CSV processing completed with errors" CsvTotalAmount.ctx.

(** The non-blank lines of what the reader loaded. *)
Definition loadedLines (result : option string) : list string :=
  match result with
  | Some text => nonBlankLines text
  | None => []
  end.

End Vocabulary.

(* ===================================================================== *)
(** * Properties *)
(* ===================================================================== *)

Import UserRoleText UpdateUserRole StatusTransitions.

(** ** Role catalogue and role changes *)

(** [getRoleInfo] returns normally on every input; an input outside the
    four roles yields the sentinel. *)
Lemma getRoleInfo_normal (role : RoleValue) :
  exists info l, getRoleInfo role = (Normal info, l).
Proof.
  unfold getRoleInfo.
  destruct (roleIs role "owner"); [do 2 eexists; reflexivity|].
  destruct (roleIs role "business"); [do 2 eexists; reflexivity|].
  destruct (roleIs role "developer"); [do 2 eexists; reflexivity|].
  destruct (roleIs role "financial_controller"); do 2 eexists; reflexivity.
Qed.

Lemma getRoleInfo_absent (role : RoleValue) :
  role = RoleUndefined \/ role = RoleNull ->
  completion (getRoleInfo role) = Normal defaultRole.
Proof. intros [-> | ->]; reflexivity. Qed.

Lemma getRoleInfo_unknown (s : string) :
  ~ In s ["owner"; "business"; "developer"; "financial_controller"] ->
  completion (getRoleInfo (RoleString s)) = Normal defaultRole.
Proof.
  intros H. unfold getRoleInfo. cbn [roleIs].
  repeat match goal with
         | |- context [String.eqb s ?lit] =>
             destruct (String.eqb_spec s lit) as [-> | _];
             [exfalso; apply H; cbn; auto 6|]
         end.
  reflexivity.
Qed.

(** C9. For every role input (undefined, null, a known or an unknown role
    string), [hasAllPermissions(role, [])] is true and
    [hasAnyPermission(role, [])] is false. *)
Theorem empty_permission_list (role : RoleValue) :
  completion (hasAllPermissions role []) = Normal true
  /\ completion (hasAnyPermission role []) = Normal false.
Proof.
  unfold hasAllPermissions, hasAnyPermission.
  destruct (getRoleInfo_normal role) as (info & l & ->).
  split; reflexivity.
Qed.

(** C1, as the code has it.  [validateRoleChangePermission("business",
    "owner")] is denied because the business role lacks [manage_roles], with
    the reason of that check; owner to owner and owner to business are
    allowed. *)
Theorem role_change_examples :
  completion (validateRoleChangePermission (RoleString "business") (RoleString "owner"))
    = Normal (mkCheck false (Some "Insufficient permissions to manage user roles"))
  /\ completion (validateRoleChangePermission (RoleString "owner") (RoleString "owner"))
    = Normal (mkCheck true None)
  /\ completion (validateRoleChangePermission (RoleString "owner") (RoleString "business"))
    = Normal (mkCheck true None).
Proof. repeat split; reflexivity. Qed.

(** C1, as stated, fails: the reason given to a business user who assigns
    the owner role does not mention rank. *)
Lemma role_change_reason_not_rank :
  ~ (exists r,
        completion (validateRoleChangePermission
                      (RoleString "business") (RoleString "owner"))
        = Normal (mkCheck false (Some r))
        /\ mentionsRank r = true).
Proof.
  intros (r & H & Hr).
  cbv in H. injection H as <-.
  vm_compute in Hr. discriminate.
Qed.

(** The reason of the level comparison is one that mentions rank, so the
    predicate is not empty. *)
Lemma level_reason_mentions_rank : mentionsRank reasonHigherLevel = true.
Proof. reflexivity. Qed.

(** Only a role with [manage_roles] passes the first check, whatever the
    target role. *)
Lemma role_change_needs_manage_roles (current new : RoleValue) info l :
  getRoleInfo current = (Normal info, l) ->
  JS.includes (permissions info) "manage_roles" = false ->
  completion (validateRoleChangePermission current new)
  = Normal (mkCheck false (Some reasonNoManageRoles)).
Proof.
  intros Hc Hp. unfold validateRoleChangePermission. rewrite Hc.
  destruct (getRoleInfo_normal new) as (info' & l' & ->).
  cbn. rewrite Hp. reflexivity.
Qed.

(** ** Status transitions *)

(** C8. From the terminal state [completed] no transition is allowed,
    whatever the next status, in the disbursement machine and in the
    payment machine. *)
Theorem completed_is_terminal (next : string) :
  validateDisbursementStatusTransition "completed" next = Normal false
  /\ validatePaymentStatusTransition "completed" next = Normal false.
Proof. split; reflexivity. Qed.

Example completed_to_processing :
  validateDisbursementStatusTransition "completed" "processing" = Normal false
  /\ validatePaymentStatusTransition "completed" "processing" = Normal false.
Proof. split; reflexivity. Qed.

(** A legal edge of each machine, for contrast. *)
Example processing_to_completed :
  validateDisbursementStatusTransition "processing" "completed" = Normal true
  /\ validatePaymentStatusTransition "processing" "completed" = Normal true.
Proof. split; reflexivity. Qed.

(** ** Normalization of a disbursement *)

Import Vocabulary.

Lemma orZero_echoes (field : option Z) : echoes field (JS.orZero field).
Proof.
  destruct field as [n|]; cbn; [|reflexivity].
  destruct (Z.eqb_spec n 0); congruence.
Qed.

Lemma when_false (m : Eff unit) : when false m = ret tt.
Proof. reflexivity. Qed.

Lemma bind_ret_unit {B} (k : unit -> Eff B) : bind (ret tt) k = k tt.
Proof. unfold bind, ret. destruct (k tt). reflexivity. Qed.

(** A sum that has fewer than 54 bits is exact. *)
Lemma roundToDouble_small (z : Z) : Z.abs z < 2 ^ 53 -> JS.roundToDouble z = z.
Proof.
  intros H. unfold JS.roundToDouble. cbv zeta.
  destruct (Z.ltb_spec (Z.abs z) (2 ^ 53)); [reflexivity | lia].
Qed.

Lemma add_exact (a b : Z) :
  Z.abs (a + b) < 2 ^ 53 -> JS.add (JS.Int a) (JS.Int b) = JS.Int (a + b).
Proof.
  intros H. cbn [JS.add]. unfold JS.ofSum. cbv zeta.
  rewrite (roundToDouble_small _ H).
  assert (Hp : 2 ^ 53 <= 2 ^ 1024) by (apply Z.pow_le_mono_r; lia).
  destruct (Z.leb_spec (2 ^ 1024) (Z.abs (a + b))) as [Hover|]; [|reflexivity].
  exfalso. generalize dependent (2 ^ 1024). generalize dependent (2 ^ 53).
  intros. lia.
Qed.

Lemma sum_of_safe_counts (d : FormatDisbursements.Api.ApiDisbursement) :
  safeCounts d ->
  JS.add (JS.add (JS.add
            (JS.Int (JS.orZero (FormatDisbursements.Api.total_payments_sent d)))
            (JS.Int (JS.orZero (FormatDisbursements.Api.total_payments_failed d))))
            (JS.Int (JS.orZero (FormatDisbursements.Api.total_payments_canceled d))))
         (JS.Int (JS.orZero (FormatDisbursements.Api.total_payments_remaining d)))
  = JS.Int (JS.orZero (FormatDisbursements.Api.total_payments_sent d)
            + JS.orZero (FormatDisbursements.Api.total_payments_failed d)
            + JS.orZero (FormatDisbursements.Api.total_payments_canceled d)
            + JS.orZero (FormatDisbursements.Api.total_payments_remaining d)).
Proof.
  unfold safeCounts, safeCount. intros (H1 & H2 & H3 & H4).
  assert (E51 : 2 ^ 51 = 2251799813685248) by reflexivity.
  assert (E53 : 2 ^ 53 = 9007199254740992) by reflexivity.
  rewrite E51 in H1, H2, H3, H4.
  rewrite !add_exact; [reflexivity | rewrite E53; lia ..].
Qed.

(** C2, as the code has it.  A raw disbursement with an id, a non-blank
    name, asset id and code, and wallet id and name is normalized without
    an exception; the five counts of the returned statistics are those of
    the input, so they add up exactly when the input is consistent; no
    entry of the log is an error; and when the four status counts are
    below [2^51] in magnitude, the log holds the mismatch warning exactly
    when the counts do not sum to the total. *)
Theorem formatDisbursement_echoes_counts
    (Date_getTime : string -> option Z) (Array_sort : StatusHistory.Sort)
    (d : FormatDisbursements.Api.ApiDisbursement) :
  FormatDisbursements.hasRequiredFields d = true ->
  exists m,
    completion (FormatDisbursements.formatDisbursement Date_getTime Array_sort d)
    = Normal m
    /\ statsEchoInput d (FormatDisbursements.stats m)
    /\ (countsConsistent d <-> countsAddUp (FormatDisbursements.stats m))
    /\ (safeCounts d ->
        (In mismatchWarning
            (logged (FormatDisbursements.formatDisbursement Date_getTime Array_sort d))
         <-> ~ countsConsistent d))
    /\ Forall (fun entry => Logger.level entry = Logger.WARN
                            \/ Logger.level entry = Logger.INFO)
              (logged (FormatDisbursements.formatDisbursement Date_getTime Array_sort d)).
Proof.
  unfold FormatDisbursements.hasRequiredFields.
  intros H.
  repeat (apply andb_prop in H; destruct H as [H ?]).
  pose proof (sum_of_safe_counts d) as Hsum.
  unfold FormatDisbursements.formatDisbursement,
         FormatDisbursements.formatDisbursement_body.
  repeat match goal with
         | E : negb ?b = true |- _ => apply negb_true_iff in E; rewrite E; clear E
         | E : ?b = true |- _ => rewrite E; clear E
         end.
  cbn [negb orb]. rewrite !when_false, !bind_ret_unit.
  unfold countsConsistent, mismatchWarning.
  set (total := JS.orZero (FormatDisbursements.Api.total_payments d)).
  set (sum := JS.orZero _ + JS.orZero _ + JS.orZero _ + JS.orZero _) in *.
  set (calculatedTotal := JS.add _ _) in *.
  destruct (JS.strictEq (JS.Int total) calculatedTotal) eqn:Heq;
    cbn [negb]; rewrite ?when_false, ?bind_ret_unit;
    match goal with
    | |- context [when (?a && ?b)%bool _] => destruct (a && b)%bool
    end;
    cbn; eexists; (split; [reflexivity|]);
    (split; [repeat split; apply orZero_echoes|]);
    (split; [unfold countsAddUp; cbn; fold total; fold sum; reflexivity|]);
    (split; [|repeat (apply Forall_cons; [cbn; auto|]); apply Forall_nil]);
    intros Hsafe; rewrite (Hsum Hsafe) in Heq; cbn [JS.strictEq] in Heq.
  - apply Z.eqb_eq in Heq.
    split; [intros [E | [E | []]]; discriminate | intros F; contradiction].
  - apply Z.eqb_eq in Heq.
    split; [intros [E | []]; discriminate | intros F; contradiction].
  - apply Z.eqb_neq in Heq.
    split; [intros _; exact Heq | intros _; left; reflexivity].
  - apply Z.eqb_neq in Heq.
    split; [intros _; exact Heq | intros _; left; reflexivity].
Qed.

Lemma formatDisbursement_echoes_counts_witness :
  FormatDisbursements.hasRequiredFields (exampleDisbursement 11) = true
  /\ exists m,
      completion (FormatDisbursements.formatDisbursement (fun _ => None)
                    (@StatusHistory.sort) (exampleDisbursement 11)) = Normal m
      /\ statsEchoInput (exampleDisbursement 11) (FormatDisbursements.stats m)
      /\ (countsConsistent (exampleDisbursement 11)
          <-> countsAddUp (FormatDisbursements.stats m))
      /\ (safeCounts (exampleDisbursement 11) ->
          (In mismatchWarning
             (logged (FormatDisbursements.formatDisbursement (fun _ => None)
                        (@StatusHistory.sort) (exampleDisbursement 11)))
           <-> ~ countsConsistent (exampleDisbursement 11)))
      /\ Forall (fun entry => Logger.level entry = Logger.WARN
                              \/ Logger.level entry = Logger.INFO)
                (logged (FormatDisbursements.formatDisbursement (fun _ => None)
                           (@StatusHistory.sort) (exampleDisbursement 11))).
Proof.
  split; [reflexivity|].
  apply (formatDisbursement_echoes_counts (fun _ => None) (@StatusHistory.sort)
           (exampleDisbursement 11)).
  reflexivity.
Defined.

(** C2, as stated, fails: counts are numbers, and a sum of numbers is
    rounded from [2^53] on.  With [2^53] payments in all, [2^53] sent and
    one failed, the counts do not sum to the total, and no warning is
    logged. *)
Lemma large_counts_mismatch_unnoticed :
  FormatDisbursements.hasRequiredFields largeDisbursement = true
  /\ ~ countsConsistent largeDisbursement
  /\ ~ In mismatchWarning
         (logged (FormatDisbursements.formatDisbursement (fun _ => None)
                    (@StatusHistory.sort) largeDisbursement)).
Proof.
  split; [reflexivity|]. split.
  - unfold countsConsistent. vm_compute. discriminate.
  - intros H. vm_compute in H. destruct H as [H | []]. discriminate H.
Qed.

(** The same record with consistent counts and with a total that is one too
    high: the two results differ in the total they repeat and in one
    warning. *)
Example mismatch_only_warns :
  forall total,
    total = 10 \/ total = 11 ->
    exists m,
      FormatDisbursements.formatDisbursement (fun _ => None) (@StatusHistory.sort)
        (exampleDisbursement total)
      = (Normal m,
         (if total =? 10 then [] else [mismatchWarning])
         ++ [Logger.mkLog Logger.INFO "Disbursement formatted successfully"
                          FormatDisbursements.ctx])
      /\ FormatDisbursements.stats m
         = FormatDisbursements.mkStats 3 2 1 4 total (100 # 1) (30 # 1) (10 # 1)
      /\ FormatDisbursements.name m = Some "March payroll".
Proof.
  intros total [-> | ->]; eexists; repeat split.
Qed.

(** ** Normalization of a payment *)

Lemma absentOrNonPositive_invalid (a : option Q) :
  absentOrNonPositive a -> FormatPaymentDetails.amountInvalid a = true.
Proof.
  destruct a as [q|]; cbn; [|reflexivity].
  intros H. apply Qle_bool_iff in H. rewrite H. apply orb_true_r.
Qed.

(** C4, as the code has it.  A raw payment whose amount is absent or at
    most 0 is never normalized: [formatPaymentDetails] throws.  With an id
    the error is the one of the amount check; without an id the earlier id
    check throws first. *)
Theorem formatPaymentDetails_rejects_amount
    (Date_getTime : string -> option Z) (Array_sort : StatusHistory.Sort)
    (p : FormatPaymentDetails.Api.ApiPayment) :
  absentOrNonPositive (FormatPaymentDetails.Api.amount p) ->
  (exists e,
      completion (FormatPaymentDetails.formatPaymentDetails Date_getTime Array_sort p)
      = Thrown e)
  /\ (JS.truthy (FormatPaymentDetails.Api.id p) = true ->
      completion (FormatPaymentDetails.formatPaymentDetails Date_getTime Array_sort p)
      = Thrown (Error "Payment amount must be greater than 0"))
  /\ (JS.truthy (FormatPaymentDetails.Api.id p) = false ->
      completion (FormatPaymentDetails.formatPaymentDetails Date_getTime Array_sort p)
      = Thrown (Error "Payment ID is required")).
Proof.
  intros H. apply absentOrNonPositive_invalid in H.
  unfold FormatPaymentDetails.formatPaymentDetails,
         FormatPaymentDetails.formatPaymentDetails_body.
  rewrite H.
  destruct (JS.truthy (FormatPaymentDetails.Api.id p)); cbn.
  - repeat split; eauto; discriminate.
  - repeat split; eauto; discriminate.
Qed.

Lemma formatPaymentDetails_rejects_amount_witness :
  absentOrNonPositive (FormatPaymentDetails.Api.amount
                         (examplePayment (Some "p-1") (Some (-(5 # 1))%Q)))
  /\ completion (FormatPaymentDetails.formatPaymentDetails (fun _ => None)
                   (@StatusHistory.sort)
                   (examplePayment (Some "p-1") (Some (-(5 # 1))%Q)))
     = Thrown (Error "Payment amount must be greater than 0").
Proof.
  assert (H : absentOrNonPositive
                (FormatPaymentDetails.Api.amount
                   (examplePayment (Some "p-1") (Some (-(5 # 1))%Q))))
    by (cbn; discriminate).
  split; [exact H|].
  apply (formatPaymentDetails_rejects_amount (fun _ => None) (@StatusHistory.sort)
           (examplePayment (Some "p-1") (Some (-(5 # 1))%Q)) H).
  reflexivity.
Defined.

(** C4, as stated, fails: a raw payment without an id and with amount 0 does
    not fail with the error of the amount check. *)
Lemma payment_without_id_fails_on_id :
  absentOrNonPositive (FormatPaymentDetails.Api.amount (examplePayment None (Some 0%Q)))
  /\ completion (FormatPaymentDetails.formatPaymentDetails (fun _ => None)
                   (@StatusHistory.sort)
                   (examplePayment None (Some 0%Q)))
     <> Thrown FormatPaymentDetails.errAmount.
Proof.
  split; [cbn; discriminate|].
  cbv. discriminate.
Qed.

(** With an id and a positive amount the same record is normalized. *)
Example payment_with_positive_amount :
  exists m,
    completion (FormatPaymentDetails.formatPaymentDetails (fun _ => None)
                  (@StatusHistory.sort)
                  (examplePayment (Some "p-1") (Some (5 # 1)%Q)))
    = Normal m
    /\ FormatPaymentDetails.totalAmount m = Some (5 # 1)%Q
    /\ FormatPaymentDetails.disbursementName m = "Direct Payment".
Proof. eexists. repeat split. Qed.

(** ** CSV aggregation: the example and the missing column *)

Import CsvTotalAmount.

(** C3. The example text, aggregated over column [amount]: two valid rows,
    three invalid ones, total 30.6234567, minimum 10.1234567, maximum 20.5
    and average 15.31172835; [csvTotalAmount] with 7 decimal places
    resolves with the same total. *)
Theorem example_statistics :
  getCSVStatistics exampleCsv "amount"
  = {| rowCount := 5;
       totalAmount := BigNumber.ofString "30.6234567";
       averageAmount := BigNumber.ofString "15.31172835";
       minAmount := BigNumber.ofString "10.1234567";
       maxAmount := BigNumber.ofString "20.5";
       validRows := 2;
       invalidRows := 3 |}
  /\ BigNumber.ofString "30.6234567" = BigNumber.Finite false 306234567 (-7)
  /\ BigNumber.ofString "15.31172835" = BigNumber.Finite false 1531172835 (-8)
  /\ (forall name,
         completion (csvTotalAmount (Some (mkFile name (Loaded (Some exampleCsv))))
                                    "amount" 7)
         = Normal (Resolved (Some (BigNumber.ofString "30.6234567")))).
Proof. repeat split; vm_compute; reflexivity. Qed.

(** The three rejected rows of the example, with the reasons recorded by
    [csvTotalAmount]. *)
Example example_row_errors :
  match nonBlankLines exampleCsv with
  | _ :: rows =>
      option_map accErrors
        (match completion (forEachRow 0 7 rows 0 initialTotals) with
         | Normal acc => Some acc
         | Thrown _ => None
         end)
      = Some [ "Row 3: Negative amount: -5";
               "Row 4: Invalid amount format: abc";
               "Row 5: Empty amount value" ]
  | [] => False
  end.
Proof. vm_compute. reflexivity. Qed.

Lemma indexOf_not_included (arr : list string) (x : string) :
  JS.includes arr x = false -> JS.indexOf arr x = -1.
Proof.
  induction arr as [|y ys IH]; cbn; [reflexivity|].
  destruct (String.eqb y x); cbn; [discriminate|].
  intros H. rewrite (IH H). reflexivity.
Qed.

(** C5. When the header lacks the requested column, [getCSVStatistics]
    returns the zero aggregate and counts every data row as invalid, and
    [csvTotalAmount] resolves (with [null]) instead of rejecting. *)
Theorem missing_column_zero_aggregate (csv columnName : string) :
  headerLacks csv columnName ->
  getCSVStatistics csv columnName
  = {| rowCount := dataRowCount csv;
       totalAmount := BigNumber.Finite false 0 0;
       averageAmount := BigNumber.Finite false 0 0;
       minAmount := BigNumber.Finite false 0 0;
       maxAmount := BigNumber.Finite false 0 0;
       validRows := 0;
       invalidRows := dataRowCount csv |}
  /\ (forall name decimalPlaces,
         completion (csvTotalAmount (Some (mkFile name (Loaded (Some csv))))
                                    columnName decimalPlaces)
         = Normal (Resolved None)).
Proof.
  unfold headerLacks, dataRowCount, getCSVStatistics, csvTotalAmount, onload.
  cbn [readAsText].
  destruct (nonBlankLines csv) as [|header rows] eqn:Hlines; intros H.
  - split; [reflexivity|]. intros name dp. destruct csv; reflexivity.
  - apply indexOf_not_included in H.
    split.
    + destruct rows as [|r rows']; [reflexivity|].
      replace (Z.of_nat (List.length (header :: r :: rows')) <? 2) with false
        by (symmetry; apply Z.ltb_ge; cbn [List.length]; lia).
      rewrite H. reflexivity.
    + intros name dp. destruct csv as [|ch csv0]; [reflexivity|].
      cbv beta iota zeta.
      destruct (Z.of_nat (List.length (header :: rows)) <? 2); [reflexivity|].
      rewrite H. reflexivity.
Qed.

Lemma missing_column_zero_aggregate_witness :
  headerLacks exampleCsv "value"
  /\ invalidRows (getCSVStatistics exampleCsv "value") = 5
  /\ totalAmount (getCSVStatistics exampleCsv "value") = BigNumber.Finite false 0 0.
Proof.
  assert (H : headerLacks exampleCsv "value") by (vm_compute; reflexivity).
  split; [exact H|].
  destruct (missing_column_zero_aggregate exampleCsv "value" H) as [E _].
  rewrite E. split; reflexivity.
Defined.

(** ** The decimal representation of bignumber.js *)

Import BigNumber.

Lemma fuelFor_enough (c : N) : c <> 0%N -> (c < 2 ^ N.of_nat (fuelFor c))%N.
Proof.
  intros Hc. unfold fuelFor.
  rewrite Nat2N.inj_succ, N2Nat.id.
  apply N.log2_spec. lia.
Qed.

Lemma div10_lt_pow2 (c : N) (fuel : nat) :
  (c < 2 ^ N.of_nat (S fuel))%N -> (c / 10 < 2 ^ N.of_nat fuel)%N.
Proof.
  rewrite Nat2N.inj_succ, N.pow_succ_r'. intros H.
  apply N.Div0.div_lt_upper_bound. lia.
Qed.

Lemma stripZeros_spec (fuel : nat) : forall (c : N) (e : Z),
  c <> 0%N -> (c < 2 ^ N.of_nat fuel)%N ->
  exists c' e',
    stripZeros fuel c e = (c', e')
    /\ c' <> 0%N /\ (c' mod 10 <> 0)%N /\ e <= e'
    /\ Z.of_N c = Z.of_N c' * 10 ^ (e' - e).
Proof.
  induction fuel as [|fuel IH]; intros c e Hc Hlt.
  - cbn in Hlt. lia.
  - cbn [stripZeros].
    destruct (N.eqb_spec (c mod 10) 0) as [Hm | Hm].
    + assert (Hq : c = (10 * (c / 10))%N).
      { pose proof (N.div_mod c 10 ltac:(lia)). lia. }
      destruct (IH (c / 10)%N (e + 1)) as (c' & e' & Hs & Hc' & Hm' & He & Hv).
      * lia.
      * apply div10_lt_pow2, Hlt.
      * exists c', e'. repeat split; try assumption; try lia.
        replace (e' - e) with (Z.succ (e' - (e + 1))) by lia.
        rewrite Z.pow_succ_r by lia.
        rewrite Hq at 1. rewrite N2Z.inj_mul, Hv. change (Z.of_N 10) with 10. ring.
    + exists c, e. repeat split; try assumption; try lia.
      rewrite Z.sub_diag. cbn. lia.
Qed.

Lemma countDigits_zero (fuel : nat) : countDigits fuel 0 = 0.
Proof. destruct fuel; reflexivity. Qed.

Lemma countDigits_spec (fuel : nat) : forall c : N,
  c <> 0%N -> (c < 2 ^ N.of_nat fuel)%N ->
  1 <= countDigits fuel c
  /\ 10 ^ (countDigits fuel c - 1) <= Z.of_N c < 10 ^ countDigits fuel c.
Proof.
  induction fuel as [|fuel IH]; intros c Hc Hlt.
  - cbn in Hlt. lia.
  - cbn [countDigits].
    destruct (N.eqb_spec c 0) as [|_]; [contradiction|].
    pose proof (N.div_mod c 10 ltac:(lia)) as Hdm.
    pose proof (N.mod_lt c 10 ltac:(lia)) as Hr.
    destruct (N.eq_dec (c / 10) 0) as [Hz | Hnz].
    + rewrite Hz, countDigits_zero. cbn. lia.
    + destruct (IH (c / 10)%N Hnz (div10_lt_pow2 _ _ Hlt)) as (Hd & Hlo & Hhi).
      set (d := countDigits fuel (c / 10)) in *.
      replace (1 + d - 1) with (Z.succ (d - 1)) by lia.
      replace (1 + d) with (Z.succ d) by lia.
      rewrite !Z.pow_succ_r by lia.
      generalize dependent (10 ^ (d - 1)). generalize dependent (10 ^ d).
      intros hi Hhi lo Hlo. split; [lia|].
      rewrite Hdm at 1 2. rewrite N2Z.inj_add, N2Z.inj_mul.
      change (Z.of_N 10) with 10.
      pose proof (N2Z.is_nonneg (c mod 10)) as H0.
      apply N2Z.inj_lt in Hr. change (Z.of_N 10) with 10 in Hr.
      generalize dependent (Z.of_N (c mod 10)).
      generalize dependent (Z.of_N (c / 10)). intros. lia.
Qed.

Lemma digits_spec (c : N) :
  c <> 0%N ->
  1 <= digits c /\ 10 ^ (digits c - 1) <= Z.of_N c < 10 ^ digits c.
Proof.
  intros Hc. apply countDigits_spec; [assumption|].
  apply fuelFor_enough, Hc.
Qed.

Lemma pow10_pos (k : Z) : 0 <= k -> 0 < 10 ^ k.
Proof. intros. apply Z.pow_pos_nonneg; lia. Qed.

Lemma pow10_Z (k : Z) : 0 <= k -> Z.of_N (pow10 k) = 10 ^ k.
Proof.
  intros Hk. unfold pow10. rewrite N2Z.inj_pow, Z2N.id by assumption.
  reflexivity.
Qed.

Lemma scaled_nonneg (K : Z) (c : N) (e : Z) : 0 <= scaled K c e.
Proof.
  unfold scaled. apply Z.mul_nonneg_nonneg; [apply N2Z.is_nonneg|].
  apply Z.pow_nonneg. lia.
Qed.

Lemma scaled_pos (K : Z) (c : N) (e : Z) :
  c <> 0%N -> K <= e -> 0 < scaled K c e.
Proof.
  intros Hc He. unfold scaled. apply Z.mul_pos_pos; [lia|].
  apply pow10_pos. lia.
Qed.

(** The exponent of the leading digit against a bound, read on the scaled
    value. *)
Lemma leadExponent_bound (K : Z) (c : N) (e B : Z) :
  c <> 0%N -> K <= e ->
  (B <= leadExponent c e <-> 10 ^ (B - K) <= scaled K c e).
Proof.
  intros Hc He. unfold leadExponent, scaled.
  destruct (digits_spec c Hc) as (Hd & Hlo & Hhi).
  set (d := digits c) in *.
  assert (Hp : 0 < 10 ^ (e - K)) by (apply pow10_pos; lia).
  assert (Hlow : 10 ^ (e + d - 1 - K) <= Z.of_N c * 10 ^ (e - K)).
  { replace (e + d - 1 - K) with ((d - 1) + (e - K)) by lia.
    rewrite Z.pow_add_r by lia. apply Z.mul_le_mono_nonneg_r; lia. }
  assert (Hupp : Z.of_N c * 10 ^ (e - K) < 10 ^ (e + d - K)).
  { replace (e + d - K) with (d + (e - K)) by lia.
    rewrite Z.pow_add_r by lia. apply Z.mul_lt_mono_pos_r; lia. }
  split; intros H.
  - destruct (Z.lt_ge_cases (B - K) 0) as [Hneg | Hnn].
    + rewrite Z.pow_neg_r by assumption. lia.
    + eapply Z.le_trans; [|exact Hlow].
      apply Z.pow_le_mono_r; lia.
  - destruct (Z.le_gt_cases B (e + d - 1)) as [|Hgt]; [assumption|exfalso].
    assert (10 ^ (e + d - K) <= 10 ^ (B - K)) by (apply Z.pow_le_mono_r; lia).
    lia.
Qed.

(** What [normalise] returns, by the size of the scaled value. *)
Lemma normalise_zero (neg : bool) (e : Z) : normalise neg 0 e = Finite neg 0 0.
Proof. reflexivity. Qed.

Lemma normalise_spec (K : Z) (neg : bool) (c : N) (e : Z) :
  c <> 0%N -> K <= e ->
  (hi K <= scaled K c e /\ normalise neg c e = Infinity neg)
  \/ (scaled K c e < lo K /\ normalise neg c e = Finite neg 0 0)
  \/ (lo K <= scaled K c e < hi K
      /\ exists c' e',
          normalise neg c e = Finite neg c' e'
          /\ c' <> 0%N /\ (c' mod 10 <> 0)%N
          /\ MIN_EXP <= leadExponent c' e' <= MAX_EXP
          /\ K <= e' /\ scaled K c' e' = scaled K c e).
Proof.
  intros Hc He. unfold normalise.
  destruct (N.eqb_spec c 0) as [|_]; [contradiction|].
  destruct (stripZeros_spec (fuelFor c) c e Hc (fuelFor_enough c Hc))
    as (c' & e' & -> & Hc' & Hm' & He' & Hv).
  assert (Hs : scaled K c' e' = scaled K c e).
  { unfold scaled. rewrite Hv.
    replace (e' - K) with ((e' - e) + (e - K)) by lia.
    rewrite Z.pow_add_r by lia. ring. }
  assert (HK : K <= e') by lia.
  pose proof (leadExponent_bound K c' e' (MAX_EXP + 1) Hc' HK) as Hover.
  pose proof (leadExponent_bound K c' e' MIN_EXP Hc' HK) as Hunder.
  fold (hi K) in Hover. fold (lo K) in Hunder. rewrite Hs in Hover, Hunder.
  destruct (Z.ltb_spec MAX_EXP (leadExponent c' e')) as [Ho | Ho].
  - left. split; [apply Hover; lia | reflexivity].
  - destruct (Z.ltb_spec (leadExponent c' e') MIN_EXP) as [Hu | Hu].
    + right; left. split; [|reflexivity].
      apply Z.nle_gt. intros F. apply Hunder in F. lia.
    + right; right. split.
      * split; [apply Hunder; assumption|].
        apply Z.nle_gt. intros F. apply Hover in F. lia.
      * exists c', e'. repeat split; try assumption; lia.
Qed.

Lemma normalise_wf (neg : bool) (c : N) (e : Z) : wf (normalise neg c e).
Proof.
  destruct (N.eq_dec c 0) as [-> | Hc]; [cbn; auto|].
  destruct (normalise_spec e neg c e Hc (Z.le_refl e))
    as [[_ ->] | [[_ ->] | [_ (c' & e' & -> & ? & ? & ? & _)]]]; cbn; auto.
Qed.

(** A well-formed number is between the two bounds. *)
Lemma wf_scaled_bounds (K : Z) (neg : bool) (c : N) (e : Z) :
  wf (Finite neg c e) -> c <> 0%N -> K <= e ->
  lo K <= scaled K c e < hi K.
Proof.
  intros [[? _] | (_ & _ & Hr)] Hc HK; [contradiction|].
  pose proof (leadExponent_bound K c e (MAX_EXP + 1) Hc HK) as Hover.
  pose proof (leadExponent_bound K c e MIN_EXP Hc HK) as Hunder.
  fold (hi K) in Hover. fold (lo K) in Hunder.
  split; [apply Hunder; lia|].
  apply Z.nle_gt. intros F. apply Hover in F. lia.
Qed.

(** Two coefficients without trailing zero that denote the same value are
    the same, with the same exponent. *)
Lemma scaled_inj_lt (K : Z) (c1 c2 : N) (e1 e2 : Z) :
  (c1 mod 10 <> 0)%N -> K <= e1 -> e1 < e2 ->
  scaled K c1 e1 <> scaled K c2 e2.
Proof.
  unfold scaled. intros Hm HK Hlt Heq.
  replace (e2 - K) with (Z.succ (e2 - e1 - 1) + (e1 - K)) in Heq by lia.
  rewrite Z.pow_add_r, Z.pow_succ_r in Heq by lia.
  assert (Hp : 0 < 10 ^ (e1 - K)) by (apply pow10_pos; lia).
  assert (Hc : Z.of_N c1 = 10 * (Z.of_N c2 * 10 ^ (e2 - e1 - 1))).
  { apply Z.mul_reg_r with (p := 10 ^ (e1 - K)); [lia|]. rewrite Heq. ring. }
  apply Hm. apply N2Z.inj. rewrite N2Z.inj_mod, Hc.
  change (Z.of_N 10) with 10. rewrite Z.mul_comm. apply Z.mod_mul. lia.
Qed.

Lemma scaled_inj (K : Z) (c1 c2 : N) (e1 e2 : Z) :
  (c1 mod 10 <> 0)%N -> (c2 mod 10 <> 0)%N -> K <= e1 -> K <= e2 ->
  scaled K c1 e1 = scaled K c2 e2 -> c1 = c2 /\ e1 = e2.
Proof.
  intros H1 H2 K1 K2 Heq.
  destruct (Z.lt_total e1 e2) as [Hlt | [-> | Hgt]].
  - exfalso. exact (scaled_inj_lt K c1 c2 e1 e2 H1 K1 Hlt Heq).
  - split; [|reflexivity]. unfold scaled in Heq.
    apply N2Z.inj. apply Z.mul_reg_r with (p := 10 ^ (e2 - K)); [|assumption].
    pose proof (pow10_pos (e2 - K)). lia.
  - exfalso. symmetry in Heq.
    exact (scaled_inj_lt K c2 c1 e2 e1 H2 K2 Hgt Heq).
Qed.

Lemma hi_pos (K : Z) : K <= 0 -> 0 < hi K.
Proof. intros. apply pow10_pos. unfold MAX_EXP. lia. Qed.

Lemma accepted_zero : accepted (Finite false 0 0).
Proof. repeat split. cbn. auto. Qed.

Lemma accepted_infinity : accepted (Infinity false).
Proof. repeat split. Qed.

Lemma plus_accepted (K : Z) (x y : t) :
  K <= 0 -> accepted x -> accepted y -> fits K x -> fits K y ->
  accepted (plus x y) /\ fits K (plus x y)
  /\ sem K (plus x y) = clamp K (addo (sem K x) (sem K y)).
Proof.
  intros HK (Wx & Nx & Sx) (Wy & Ny & Sy) Fx Fy.
  destruct x as [|a|a c1 e1]; [discriminate| |];
    destruct y as [|b|b c2 e2]; try discriminate;
    cbn in Sx, Sy; subst.
  - cbn. repeat split.
  - cbn. repeat split.
  - cbn. repeat split.
  - cbn in Fx, Fy. cbn [plus Bool.eqb].
    set (k := Z.min e1 e2).
    set (m := (c1 * pow10 (e1 - k) + c2 * pow10 (e2 - k))%N).
    assert (Hk : K <= k) by (unfold k; lia).
    assert (Hv : scaled K m k = scaled K c1 e1 + scaled K c2 e2).
    { unfold scaled, m.
      rewrite N2Z.inj_add, !N2Z.inj_mul, !pow10_Z by (unfold k; lia).
      rewrite Z.mul_add_distr_r, <- !Z.mul_assoc, <- !Z.pow_add_r
        by (unfold k; lia).
      replace (e1 - k + (k - K)) with (e1 - K) by lia.
      replace (e2 - k + (k - K)) with (e2 - K) by lia.
      reflexivity. }
    cbn [sem addo clamp]. rewrite <- Hv.
    pose proof (hi_pos K HK) as Hhi.
    destruct (N.eq_dec m 0) as [Hm | Hm].
    + rewrite Hm, normalise_zero. split; [apply accepted_zero|].
      split; [cbn; lia|].
      cbn [sem]. unfold scaled at 2. cbn [Z.of_N]. rewrite Z.mul_0_l.
      destruct (Z.leb_spec (hi K) 0); [lia|].
      unfold scaled. cbn [Z.of_N]. rewrite Z.mul_0_l. reflexivity.
    + destruct (normalise_spec K false m k Hm Hk)
        as [[Ho ->] | [[Hu ->] | [[Hl Hh] (c' & e' & -> & Hc' & Hm' & Hr & HK' & Hs)]]].
      * split; [apply accepted_infinity|]. split; [exact I|].
        cbn [sem]. destruct (Z.leb_spec (hi K) (scaled K m k)); [reflexivity|lia].
      * exfalso.
        assert (Hnz : c1 <> 0%N \/ c2 <> 0%N).
        { destruct (N.eq_dec c1 0) as [-> |]; [|auto].
          destruct (N.eq_dec c2 0) as [-> |]; [|auto].
          exfalso. apply Hm. reflexivity. }
        pose proof (scaled_nonneg K c1 e1). pose proof (scaled_nonneg K c2 e2).
        destruct Hnz as [H1 | H2].
        -- pose proof (wf_scaled_bounds K false c1 e1 Wx H1 Fx). lia.
        -- pose proof (wf_scaled_bounds K false c2 e2 Wy H2 Fy). lia.
      * split; [|split].
        -- repeat split. cbn. right. auto.
        -- exact HK'.
        -- cbn [sem]. rewrite Hs.
           destruct (Z.leb_spec (hi K) (scaled K m k)); [lia|reflexivity].
Qed.

Lemma sem_inj (K : Z) (x y : t) :
  accepted x -> accepted y -> fits K x -> fits K y ->
  sem K x = sem K y -> x = y.
Proof.
  intros (Wx & Nx & Sx) (Wy & Ny & Sy) Fx Fy Heq.
  destruct x as [|a|a c1 e1]; [discriminate| |];
    destruct y as [|b|b c2 e2]; try discriminate;
    cbn in Sx, Sy; subst; [reflexivity|].
  cbn in Fx, Fy, Heq. injection Heq as Heq.
  destruct Wx as [[-> ->] | (H1 & M1 & _)]; destruct Wy as [[-> ->] | (H2 & M2 & _)].
  - reflexivity.
  - exfalso. pose proof (scaled_pos K c2 e2 H2 Fy) as P.
    rewrite <- Heq in P. unfold scaled in P. cbn in P. lia.
  - exfalso. pose proof (scaled_pos K c1 e1 H1 Fx) as P.
    rewrite Heq in P. unfold scaled in P. cbn in P. lia.
  - destruct (scaled_inj K c1 c2 e1 e2 M1 M2 Fx Fy Heq) as [-> ->]. reflexivity.
Qed.

Lemma sem_nonneg (K : Z) (x : t) (v : Z) : sem K x = Some v -> 0 <= v.
Proof.
  destruct x; cbn; try discriminate.
  intros [= <-]. apply scaled_nonneg.
Qed.

Lemma clamp_addo (K : Z) (o1 o2 : option Z) :
  (forall v, o2 = Some v -> 0 <= v) ->
  clamp K (addo (clamp K o1) o2) = clamp K (addo o1 o2).
Proof.
  intros H2. destruct o1 as [u|]; [|reflexivity].
  cbn [clamp]. destruct (Z.leb_spec (hi K) u) as [Hu | Hu]; [|reflexivity].
  destruct o2 as [v|]; [|reflexivity].
  cbn. specialize (H2 v eq_refl).
  destruct (Z.leb_spec (hi K) (u + v)); [reflexivity|lia].
Qed.

Lemma addo_swap (a b c : option Z) : addo (addo a b) c = addo (addo a c) b.
Proof.
  destruct a, b, c; cbn; try reflexivity. f_equal. lia.
Qed.

(** Adding two accepted amounts to a total does not depend on their
    order. *)
Lemma plus_swap (a x y : t) :
  accepted a -> accepted x -> accepted y ->
  plus (plus a x) y = plus (plus a y) x.
Proof.
  intros Ha Hx Hy.
  set (K := Z.min 0 (Z.min (expOf a) (Z.min (expOf x) (expOf y)))).
  assert (HK : K <= 0) by (unfold K; lia).
  assert (Fa : fits K a) by (destruct a; cbn; unfold K; cbn; lia || exact I).
  assert (Fx : fits K x) by (destruct x; cbn; unfold K; cbn; lia || exact I).
  assert (Fy : fits K y) by (destruct y; cbn; unfold K; cbn; lia || exact I).
  destruct (plus_accepted K a x HK Ha Hx Fa Fx) as (Aax & Fax & Sax).
  destruct (plus_accepted K a y HK Ha Hy Fa Fy) as (Aay & Fay & Say).
  destruct (plus_accepted K _ y HK Aax Hy Fax Fy) as (A1 & F1 & S1).
  destruct (plus_accepted K _ x HK Aay Hx Fay Fx) as (A2 & F2 & S2).
  apply (sem_inj K); try assumption.
  rewrite S1, S2, Sax, Say.
  rewrite !clamp_addo by (intros v; apply sem_nonneg).
  rewrite addo_swap. reflexivity.
Qed.

Lemma plus_closed (x y : t) : accepted x -> accepted y -> accepted (plus x y).
Proof.
  intros Hx Hy.
  set (K := Z.min 0 (Z.min (expOf x) (expOf y))).
  assert (HK : K <= 0) by (unfold K; lia).
  assert (Fx : fits K x) by (destruct x; cbn; unfold K; cbn; lia || exact I).
  assert (Fy : fits K y) by (destruct y; cbn; unfold K; cbn; lia || exact I).
  apply (plus_accepted K x y HK Hx Hy Fx Fy).
Qed.

(** Adding zero leaves an accepted total as it is. *)
Lemma plus_zero_r (x : t) : accepted x -> plus x (Finite false 0 0) = x.
Proof.
  intros Hx.
  set (K := Z.min 0 (expOf x)).
  assert (HK : K <= 0) by (unfold K; lia).
  assert (Fx : fits K x) by (destruct x; cbn; unfold K; cbn; lia || exact I).
  assert (Fz : fits K (Finite false 0 0)) by (cbn; lia).
  destruct (plus_accepted K x _ HK Hx accepted_zero Fx Fz) as (A & F & S).
  apply (sem_inj K); try assumption.
  rewrite S. destruct Hx as (W & Nn & Sg).
  destruct x as [|a|a c e]; [discriminate|reflexivity|].
  cbn in Sg. subst a. cbn [sem addo]. unfold scaled at 2. cbn [Z.of_N].
  rewrite Z.mul_0_l, Z.add_0_r. cbn [clamp].
  destruct (N.eq_dec c 0) as [-> | Hc].
  - unfold scaled. cbn [Z.of_N]. rewrite Z.mul_0_l.
    pose proof (hi_pos K HK). destruct (Z.leb_spec (hi K) 0); [lia|reflexivity].
  - pose proof (wf_scaled_bounds K false c e W Hc Fx).
    destruct (Z.leb_spec (hi K) (scaled K c e)); [lia|reflexivity].
Qed.

Lemma fold_plus_accepted (l : list t) : forall a,
  Forall accepted l -> accepted a -> accepted (fold_left plus l a).
Proof.
  induction l as [|x l IH]; intros a Hl Ha; [exact Ha|].
  inversion Hl; subst. cbn. apply IH; [assumption|].
  apply plus_closed; assumption.
Qed.

(** The total of accepted amounts is the same in every order. *)
Lemma fold_plus_permutation (l l' : list t) :
  Permutation l l' ->
  Forall accepted l ->
  forall a, accepted a -> fold_left plus l a = fold_left plus l' a.
Proof.
  induction 1 as [| x l l' HP IH | x y l | l l' l'' HP1 IH1 HP2 IH2];
    intros Hl a Ha.
  - reflexivity.
  - inversion Hl; subst. cbn. apply IH; [assumption|].
    apply plus_closed; assumption.
  - inversion Hl as [|? ? Hy Hl']; subst. inversion Hl' as [|? ? Hx Hl'']; subst.
    cbn. f_equal. apply plus_swap; assumption.
  - rewrite IH1 by assumption. apply IH2; [|assumption].
    eapply Permutation_Forall; eassumption.
Qed.

(** ** Every parsed amount is well formed *)

Lemma infinityOrNaN_wf (s : string) (v : t) : infinityOrNaN s = Some v -> wf v.
Proof.
  unfold infinityOrNaN.
  repeat match goal with
         | |- context [if ?b then _ else _] => destruct b
         end; intros [= <-]; exact I.
Qed.

Lemma parseNumeric_wf (again : string -> option N -> t) (str : string) (b : option N) :
  (forall s base, wf (again s base)) -> wf (parseNumeric again str b).
Proof.
  intros Hagain. unfold parseNumeric.
  destruct (infinityOrNaN (stripWhitespaceOrPlus str)) as [v|] eqn:Hv.
  - exact (infinityOrNaN_wf _ _ Hv).
  - destruct (basePrefix (stripWhitespaceOrPlus str)) as [[[neg pb] rest]|];
      destruct b as [bb|];
      match goal with
      | |- context [if String.eqb ?a ?b then _ else _] =>
          destruct (String.eqb a b); [exact I | apply Hagain]
      end.
Qed.

Lemma construct_wf (fuel : nat) : forall v b, wf (construct fuel v b).
Proof.
  induction fuel as [|fuel IH]; intros v b; [exact I|].
  cbn [construct]. destruct b as [base|].
  - destruct (stripMinus v) as [neg str].
    destruct (checkDigits base str) as [str'|].
    + unfold convertBase.
      destruct (fractionLength str' =? 0)%N; apply normalise_wf.
    + apply parseNumeric_wf, IH.
  - destruct (parseDecimal v) as [l|].
    + apply normalise_wf.
    + apply parseNumeric_wf, IH.
Qed.

Lemma ofString_wf (v : string) : wf (ofString v).
Proof. apply construct_wf. Qed.

(** ** The rows [getCSVStatistics] accepts *)

Lemma collectRow_shape (amountIndex : Z) (amounts : list t) (invalid : Z) (line : string) :
  collectRow amountIndex (amounts, invalid) line
  = (amounts ++ rowAmounts amountIndex line, invalid + rowInvalid amountIndex line).
Proof.
  unfold rowAmounts, rowInvalid, collectRow.
  destruct (String.eqb (JS.trim line) ""); cbn [fst snd].
  - rewrite app_nil_r, Z.add_0_r. reflexivity.
  - destruct (JS.at_index (columnsOf line) amountIndex) as [v|]; cbn [fst snd].
    + destruct (negb (String.eqb v "")); cbn [fst snd].
      * destruct (negb (isNaN (ofString v)) && negb (isNegative (ofString v)))%bool;
          cbn [fst snd].
        -- rewrite Z.add_0_r. reflexivity.
        -- rewrite app_nil_r. reflexivity.
      * rewrite app_nil_r. reflexivity.
    + rewrite app_nil_r. reflexivity.
Qed.

Lemma fold_collectRow (amountIndex : Z) (rows : list string) :
  forall amounts invalid,
    fst (fold_left (collectRow amountIndex) rows (amounts, invalid))
    = amounts ++ flat_map (rowAmounts amountIndex) rows.
Proof.
  induction rows as [|line rows IH]; intros amounts invalid;
    cbn [fold_left flat_map fst].
  - rewrite app_nil_r. reflexivity.
  - rewrite collectRow_shape, IH, app_assoc. reflexivity.
Qed.

Lemma rowAmounts_accepted (amountIndex : Z) (line : string) :
  Forall accepted (rowAmounts amountIndex line).
Proof.
  unfold rowAmounts, collectRow.
  destruct (String.eqb (JS.trim line) ""); cbn [fst]; [constructor|].
  destruct (JS.at_index (columnsOf line) amountIndex) as [v|]; cbn [fst];
    [|constructor].
  destruct (negb (String.eqb v "")); cbn [fst]; [|constructor].
  destruct (isNaN (ofString v)) eqn:Hn; cbn [negb andb fst]; [constructor|].
  destruct (isNegative (ofString v)) eqn:Hs; cbn [negb fst]; [constructor|].
  repeat constructor; try assumption. apply ofString_wf.
Qed.

Lemma flat_map_accepted (amountIndex : Z) (rows : list string) :
  Forall accepted (flat_map (rowAmounts amountIndex) rows).
Proof.
  induction rows as [|line rows IH]; cbn; [constructor|].
  apply Forall_app. split; [apply rowAmounts_accepted | exact IH].
Qed.

(** The total of [getCSVStatistics] is the sum, in order, of the accepted
    amounts of the data rows. *)
Lemma getCSVStatistics_total (csv columnName header : string) (rows : list string) :
  nonBlankLines csv = header :: rows ->
  totalAmount (getCSVStatistics csv columnName)
  = if JS.indexOf (columnsOf header) columnName =? -1 then ofN 0
    else fold_left plus
           (flat_map (rowAmounts (JS.indexOf (columnsOf header) columnName)) rows)
           (ofN 0).
Proof.
  intros Hlines. unfold getCSVStatistics. rewrite Hlines.
  destruct (Z.ltb_spec (Z.of_nat (List.length (header :: rows))) 2) as [Hlen | Hlen].
  - destruct rows; [|cbn [List.length] in Hlen; lia].
    cbn. destruct (_ =? -1); reflexivity.
  - destruct (JS.indexOf (columnsOf header) columnName =? -1); [reflexivity|].
    pose proof (fold_collectRow (JS.indexOf (columnsOf header) columnName) rows [] 0) as Hf.
    destruct (fold_left _ rows ([], 0)) as [amounts invalid].
    cbn [fst app] in Hf. subst amounts.
    destruct (Z.eqb_spec (Z.of_nat (List.length
                (flat_map (rowAmounts (JS.indexOf (columnsOf header) columnName)) rows))) 0)
      as [Hz | Hz]; [|reflexivity].
    destruct (flat_map _ rows); [reflexivity | cbn [List.length] in Hz; lia].
Qed.

(** The same total for any CSV text with the same header whose data rows
    are a permutation. *)
Lemma total_same_for_permuted_text
    (csv csv' columnName header : string) (rows rows' : list string) :
  nonBlankLines csv = header :: rows ->
  nonBlankLines csv' = header :: rows' ->
  Permutation rows rows' ->
  totalAmount (getCSVStatistics csv columnName)
  = totalAmount (getCSVStatistics csv' columnName).
Proof.
  intros H H' HP.
  rewrite (getCSVStatistics_total _ _ _ _ H), (getCSVStatistics_total _ _ _ _ H').
  destruct (_ =? -1); [reflexivity|].
  apply fold_plus_permutation.
  - apply Permutation_flat_map, HP.
  - apply flat_map_accepted.
  - apply accepted_zero.
Qed.

(** ** The two aggregators agree on the total *)

Lemma processRow_total (amountIndex decimalPlaces : Z) (acc : Totals)
    (line : string) (index : nat) :
  exists acc' l,
    processRow amountIndex decimalPlaces acc line index = (Normal acc', l)
    /\ accTotalAmount acc'
       = fold_left plus (rowAmounts amountIndex line) (accTotalAmount acc).
Proof.
  unfold processRow, rowAmounts, collectRow.
  destruct (String.eqb (JS.trim line) ""); cbn [fst]; [do 2 eexists; split; reflexivity|].
  destruct (JS.at_index (columnsOf line) amountIndex) as [v|]; cbn [fst];
    [|do 2 eexists; split; reflexivity].
  destruct (String.eqb v ""); cbn [negb fst]; [do 2 eexists; split; reflexivity|].
  destruct (isNaN (ofString v)); cbn [negb andb fst];
    [do 2 eexists; split; reflexivity|].
  destruct (isNegative (ofString v)); cbn [negb fst];
    [do 2 eexists; split; reflexivity|].
  destruct (exceedsDecimalPlaces (ofString v) decimalPlaces);
    do 2 eexists; split; reflexivity.
Qed.

Lemma forEachRow_total (amountIndex decimalPlaces : Z) (rows : list string) :
  forall index acc,
  exists acc' l,
    forEachRow amountIndex decimalPlaces rows index acc = (Normal acc', l)
    /\ accTotalAmount acc'
       = fold_left plus (flat_map (rowAmounts amountIndex) rows) (accTotalAmount acc).
Proof.
  induction rows as [|line rows IH]; intros index acc; cbn [forEachRow flat_map].
  - do 2 eexists. split; reflexivity.
  - destruct (processRow_total amountIndex decimalPlaces acc line index)
      as (acc1 & l1 & -> & H1).
    destruct (IH (S index) acc1) as (acc2 & l2 & H2 & H3).
    unfold bind. rewrite H2. do 2 eexists. split; [reflexivity|].
    rewrite H3, H1, fold_left_app. reflexivity.
Qed.

(** On a text with a header that names the column and at least one data
    row, [csvTotalAmount] resolves with the total of [getCSVStatistics]. *)
Lemma csvTotalAmount_total (csv columnName header name : string)
    (rows : list string) (decimalPlaces : Z) :
  nonBlankLines csv = header :: rows ->
  rows <> [] ->
  JS.indexOf (columnsOf header) columnName <> -1 ->
  completion (csvTotalAmount (Some (mkFile name (Loaded (Some csv))))
                             columnName decimalPlaces)
  = Normal (Resolved (Some (totalAmount (getCSVStatistics csv columnName)))).
Proof.
  intros Hlines Hrows Hcol.
  rewrite (getCSVStatistics_total _ _ _ _ Hlines).
  apply Z.eqb_neq in Hcol. rewrite Hcol.
  unfold csvTotalAmount, onload. cbn [readAsText].
  destruct csv as [|ch csv0]; [discriminate|].
  cbv beta iota zeta. rewrite Hlines.
  replace (Z.of_nat (List.length (header :: rows)) <? 2) with false
    by (symmetry; apply Z.ltb_ge; destruct rows; [contradiction|cbn [List.length]; lia]).
  rewrite Hcol.
  destruct (forEachRow_total (JS.indexOf (columnsOf header) columnName)
              decimalPlaces rows 0%nat initialTotals) as (acc & l & -> & Ht).
  cbn [bind]. rewrite Ht.
  destruct (0 <? accInvalidRows acc); reflexivity.
Qed.

(** ** Lines of a text *)

Lemma split_noLineBreak (s : string) :
  noLineBreak s = true -> JS.split LF s = [s].
Proof.
  induction s as [|c r IH]; cbn; [reflexivity|].
  intros H. apply andb_prop in H. destruct H as [Hc Hr].
  apply negb_true_iff in Hc. rewrite Hc, (IH Hr). reflexivity.
Qed.

Lemma split_append (s rest : string) :
  noLineBreak s = true ->
  JS.split LF (s ++ String LF rest) = s :: JS.split LF rest.
Proof.
  induction s as [|c r IH]; cbn [append JS.split noLineBreak].
  - intros _. rewrite Ascii.eqb_refl. reflexivity.
  - intros H. apply andb_prop in H. destruct H as [Hc Hr].
    apply negb_true_iff in Hc. rewrite Hc, (IH Hr). reflexivity.
Qed.

Lemma split_joinLines (l : string) (ls : list string) :
  forallb noLineBreak (l :: ls) = true ->
  JS.split LF (joinLines (l :: ls)) = l :: ls.
Proof.
  revert l. induction ls as [|l' ls IH]; intros l H.
  - cbn in H. rewrite andb_true_r in H. apply split_noLineBreak, H.
  - cbn [forallb] in H. apply andb_prop in H. destruct H as [Hl H].
    change (joinLines (l :: l' :: ls))
      with (l ++ String LF (joinLines (l' :: ls)))%string.
    rewrite (split_append _ _ Hl), (IH l' H). reflexivity.
Qed.

Lemma filter_all {A} (f : A -> bool) (l : list A) :
  forallb f l = true -> filter f l = l.
Proof.
  induction l as [|x l IH]; cbn; [reflexivity|].
  intros H. apply andb_prop in H. destruct H as [-> H]. rewrite (IH H). reflexivity.
Qed.

Lemma forallb_isRow (ls : list string) :
  forallb isRow ls = true ->
  forallb noLineBreak ls = true
  /\ forallb (fun line => negb (String.eqb (JS.trim line) "")) ls = true.
Proof.
  induction ls as [|l ls IH]; cbn; [auto|].
  unfold isRow at 1. intros H. repeat (apply andb_prop in H; destruct H as [H ?]).
  destruct (IH ltac:(assumption)) as [-> ->].
  rewrite H. match goal with E : negb _ = true |- _ => rewrite E end. auto.
Qed.

Lemma nonBlankLines_joinLines (l : string) (ls : list string) :
  forallb isRow (l :: ls) = true -> nonBlankLines (joinLines (l :: ls)) = l :: ls.
Proof.
  intros H. apply forallb_isRow in H. destruct H as [H1 H2].
  unfold nonBlankLines. rewrite (split_joinLines _ _ H1).
  apply filter_all, H2.
Qed.

Lemma forallb_permutation {A} (f : A -> bool) (l l' : list A) :
  Permutation l l' -> forallb f l = true -> forallb f l' = true.
Proof.
  intros HP H. apply forallb_forall. intros x Hx.
  apply (proj1 (forallb_forall f l) H).
  apply Permutation_sym in HP. exact (Permutation_in x HP Hx).
Qed.

(** C7. For every header, every list of data rows and every permutation of
    that list, [getCSVStatistics] over the permuted text returns the same
    total as over the original one: the sum of the accepted amounts is
    exact, so the two values are one and the same decimal. *)
Theorem total_order_independent
    (header : string) (rows rows' : list string) (columnName : string) :
  forallb isRow (header :: rows) = true ->
  Permutation rows rows' ->
  totalAmount (getCSVStatistics (joinLines (header :: rows')) columnName)
  = totalAmount (getCSVStatistics (joinLines (header :: rows)) columnName).
Proof.
  intros H HP.
  assert (H' : forallb isRow (header :: rows') = true).
  { cbn [forallb] in *. apply andb_prop in H. destruct H as [-> H]. cbn.
    exact (forallb_permutation _ _ _ HP H). }
  symmetry.
  apply (total_same_for_permuted_text _ _ columnName header rows rows');
    [apply nonBlankLines_joinLines | apply nonBlankLines_joinLines | ];
    assumption.
Qed.

Lemma total_order_independent_witness :
  forallb isRow ["amount,note"; "10.1234567,a"; "0.0000001,b"; "20.5,c"] = true
  /\ totalAmount (getCSVStatistics
                    (joinLines ["amount,note"; "20.5,c"; "10.1234567,a"; "0.0000001,b"])
                    "amount")
     = totalAmount (getCSVStatistics
                      (joinLines ["amount,note"; "10.1234567,a"; "0.0000001,b"; "20.5,c"])
                      "amount").
Proof.
  split; [reflexivity|].
  apply (total_order_independent "amount,note"
           ["10.1234567,a"; "0.0000001,b"; "20.5,c"]
           ["20.5,c"; "10.1234567,a"; "0.0000001,b"] "amount").
  - reflexivity.
  - apply Permutation_sym.
    apply (Permutation_cons_app ["10.1234567,a"; "0.0000001,b"] [] "20.5,c").
    rewrite app_nil_r. apply Permutation_refl.
Defined.

(** ** Rows with excess precision, rows with a zero amount *)

Lemma ofString_empty : ofString "" = NaN.
Proof. reflexivity. Qed.



(** The whole of [csvTotalAmount] on a file with such a row. *)
Example excess_precision_file :
  csvTotalAmount
    (Some (mkFile "amounts.csv"
             (Loaded (Some (joinLines ["amount"; "1.123456789"; "2"])))))
    "amount" 7
  = (Normal (Resolved (Some (Finite false 3123456789 (-9)))),
     [ mkLog WARN "Amount exceeds decimal places limit" ctx;
       mkLog INFO "CSV total amount calculated successfully" ctx ]).
Proof. vm_compute. reflexivity. Qed.

Lemma wf_zero (neg : bool) (c : N) (e : Z) :
  wf (Finite neg c e) -> (c =? 0)%N = true -> c = 0%N /\ e = 0.
Proof.
  intros [[? ?] | (Hc & _)] Hz; [auto|].
  apply N.eqb_eq in Hz. contradiction.
Qed.

(** C10, as the code has it.  A row is rejected by both aggregators exactly
    when its amount cell is missing, is empty, is not a number or carries a
    minus sign; every other row is counted as valid and its amount is
    added.  A cell that parses to a zero without a minus sign is therefore
    accepted, and leaves the total as it was. *)
Theorem zero_amount_accepted (amountIndex : Z) (line : string) :
  JS.trim line <> "" ->
  let cell := JS.at_index (columnsOf line) amountIndex in
  (forall amountValue,
      cell = Some amountValue ->
      isZero (ofString amountValue) = true ->
      isNegative (ofString amountValue) = false ->
      ~ cellRejected cell
      /\ forall total, accepted total -> plus total (ofString amountValue) = total)
  /\ (~ cellRejected cell ->
      exists amountValue,
        cell = Some amountValue
        /\ (forall amounts invalid,
               collectRow amountIndex (amounts, invalid) line
               = (amounts ++ [ofString amountValue], invalid))
        /\ (forall decimalPlaces acc index,
               completion (processRow amountIndex decimalPlaces acc line index)
               = Normal {| accTotalAmount :=
                             plus (accTotalAmount acc) (ofString amountValue);
                           accValidRows := accValidRows acc + 1;
                           accInvalidRows := accInvalidRows acc;
                           accErrors := accErrors acc |}))
  /\ (cellRejected cell ->
      (forall amounts invalid,
          collectRow amountIndex (amounts, invalid) line = (amounts, invalid + 1))
      /\ (forall decimalPlaces acc index,
             exists what,
               processRow amountIndex decimalPlaces acc line index
               = (Normal (rejectRow acc index what), []))).
Proof.
  intros Hline cell. apply String.eqb_neq in Hline.
  assert (Hnan : forall v, isNaN (ofString v) = true <-> ofString v = NaN).
  { intros v. destruct (ofString v); cbn; split; congruence. }
  split; [|split].
  - intros amountValue Hcell Hzero Hneg. split.
    + rewrite Hcell. cbn [cellRejected]. intros [-> | [F | F]].
      * rewrite ofString_empty in Hzero. discriminate.
      * rewrite F in Hzero. discriminate.
      * congruence.
    + intros total Htotal.
      pose proof (ofString_wf amountValue) as W.
      destruct (ofString amountValue) as [| |neg c e]; try discriminate.
      cbn in Hneg, Hzero. subst neg.
      destruct (wf_zero _ _ _ W Hzero) as [-> ->].
      apply plus_zero_r, Htotal.
  - intros Hnot. unfold collectRow, processRow. fold cell. rewrite Hline.
    destruct cell as [v|]; cbn [cellRejected] in Hnot; [|exfalso; exact (Hnot I)].
    exists v. split; [reflexivity|].
    destruct (String.eqb_spec v "") as [-> | _]; [exfalso; apply Hnot; auto|].
    destruct (isNaN (ofString v)) eqn:En;
      [exfalso; apply Hnot; right; left; apply Hnan, En|].
    destruct (isNegative (ofString v)) eqn:Es;
      [exfalso; apply Hnot; right; right; reflexivity|].
    cbn [negb andb]. split; [reflexivity|].
    intros decimalPlaces acc index.
    destruct (exceedsDecimalPlaces (ofString v) decimalPlaces); reflexivity.
  - intros Hrej. unfold collectRow, processRow. fold cell. rewrite Hline.
    destruct cell as [v|]; cbn [cellRejected] in Hrej.
    + destruct (String.eqb_spec v "") as [-> | Hne]; cbn [negb].
      * split; [reflexivity | intros; eexists; reflexivity].
      * destruct Hrej as [-> | [Hr | Hr]]; [contradiction | |].
        -- apply Hnan in Hr. rewrite Hr. cbn [negb andb].
           split; [reflexivity | intros; eexists; reflexivity].
        -- rewrite Hr, andb_false_r.
           destruct (isNaN (ofString v));
             (split; [reflexivity | intros; eexists; reflexivity]).
    + split; [reflexivity | intros; eexists; reflexivity].
Qed.

Lemma zero_amount_accepted_witness :
  collectRow 0 ([], 0) "0.0,a" = ([ofString "0.0"], 0)
  /\ plus (ofString "10.5") (ofString "0.0") = ofString "10.5"
  /\ collectRow 0 ([], 0) "abc,c" = ([], 1).
Proof.
  destruct (zero_amount_accepted 0 "0.0,a") as (Hzero & Hacc & _); [discriminate|].
  destruct (zero_amount_accepted 0 "abc,c") as (_ & _ & Hrej); [discriminate|].
  destruct (Hzero "0.0" eq_refl eq_refl eq_refl) as [Hnot Hplus].
  destruct (Hacc Hnot) as (v & Hv & Hc & _).
  cbn in Hv. injection Hv as <-.
  split; [exact (Hc [] 0)|]. split.
  - apply Hplus. repeat split. cbn. right.
    repeat split; try discriminate; cbv; discriminate.
  - apply Hrej. cbn. right. left. reflexivity.
Defined.

(** C10, as stated, fails: the amount [-0] parses to zero, and its row is
    counted as invalid, by [getCSVStatistics] and by [csvTotalAmount]. *)
Lemma negative_zero_rejected :
  isZero (ofString "-0") = true
  /\ validRows (getCSVStatistics (joinLines ["amount"; "-0"]) "amount") = 0
  /\ invalidRows (getCSVStatistics (joinLines ["amount"; "-0"]) "amount") = 1
  /\ completion (processRow 0 7 initialTotals "-0" 0)
     = Normal {| accTotalAmount := Finite false 0 0;
                 accValidRows := 0;
                 accInvalidRows := 1;
                 accErrors := ["Row 2: Negative amount: -0"] |}.
Proof. repeat split; vm_compute; reflexivity. Qed.

(* ===================================================================== *)
(** * Further properties *)
(* ===================================================================== *)

(** ** Further properties of the role helpers *)

(** The role is one of the four of the catalogue. *)
Lemma isKnownRole_spec (role : RoleValue) :
  isKnownRole role = true <-> exists s, role = RoleString s /\ In s availableRoles.
Proof.
  unfold isKnownRole, availableRoles. split.
  - destruct role as [| |s]; cbn; try discriminate.
    intros H. exists s. split; [reflexivity|].
    repeat (apply orb_prop in H; destruct H as [H | H]);
      apply String.eqb_eq in H; subst; cbn; auto.
  - intros (s & -> & H). cbn in H |- *.
    repeat destruct H as [<- | H]; try reflexivity. contradiction.
Qed.

Lemma getRoleInfo_not_known (role : RoleValue) :
  isKnownRole role = false -> completion (getRoleInfo role) = Normal defaultRole.
Proof.
  unfold isKnownRole, getRoleInfo. intros H.
  repeat (apply orb_false_elim in H; destruct H as [H ?]).
  repeat match goal with E : roleIs _ _ = false |- _ => rewrite E; clear E end.
  reflexivity.
Qed.

Lemma validateRoleChangePermission_value (currentUserRole newRole : RoleValue) :
  validateRoleChangePermission currentUserRole newRole
  = (Normal (if roleIs currentUserRole "owner"
             then mkCheck true None
             else mkCheck false (Some reasonNoManageRoles)),
     logged (validateRoleChangePermission currentUserRole newRole)).
Proof.
  unfold validateRoleChangePermission, getRoleInfo.
  destruct (roleIs currentUserRole "owner");
    destruct (roleIs currentUserRole "business");
    destruct (roleIs currentUserRole "developer");
    destruct (roleIs currentUserRole "financial_controller");
    destruct (roleIs newRole "owner");
    destruct (roleIs newRole "business");
    destruct (roleIs newRole "developer");
    destruct (roleIs newRole "financial_controller");
    reflexivity.
Qed.

(** X1. A role change is allowed exactly when the acting role is [owner],
    whatever the target; every denial carries the reason of the
    [manage_roles] check, so the level comparison and the owner-only rule
    never decide. *)
Theorem only_owner_changes_roles (currentUserRole newRole : RoleValue) :
  completion (validateRoleChangePermission currentUserRole newRole)
  = Normal (if roleIs currentUserRole "owner"
            then mkCheck true None
            else mkCheck false (Some "Insufficient permissions to manage user roles")).
Proof.
  rewrite validateRoleChangePermission_value. reflexivity.
Qed.

(** X2. A role outside the catalogue (null, undefined, an unknown string)
    holds no permission: each of the three queries answers false, the last
    one for every list that is not empty. *)
Theorem unknown_role_is_denied (role : RoleValue) (permission : string)
    (permissions : list string) :
  isKnownRole role = false ->
  completion (hasPermission role permission) = Normal false
  /\ completion (hasAnyPermission role permissions) = Normal false
  /\ (permissions <> [] ->
      completion (hasAllPermissions role permissions) = Normal false).
Proof.
  intros H. apply getRoleInfo_not_known in H.
  unfold hasPermission, hasAnyPermission, hasAllPermissions.
  destruct (getRoleInfo role) as [c l]. cbn in H. subst c. cbn.
  repeat split.
  - f_equal. induction permissions; cbn; auto.
  - intros Hne. destruct permissions; [contradiction|reflexivity].
Qed.

Lemma unknown_role_is_denied_witness :
  completion (hasPermission (RoleString "auditor") "view_analytics") = Normal false
  /\ completion (hasAllPermissions RoleNull ["view_analytics"]) = Normal false.
Proof.
  destruct (unknown_role_is_denied (RoleString "auditor") "view_analytics" []
              eq_refl) as (H & _ & _).
  destruct (unknown_role_is_denied RoleNull "x" ["view_analytics"] eq_refl)
    as (_ & _ & H').
  split; [exact H | apply H'; discriminate].
Defined.

(** X3. [hasAnyPermission] holds exactly when [hasPermission] holds for
    some permission of the list, and [hasAllPermissions] exactly when it
    holds for each of them. *)
Theorem any_and_all_by_hasPermission (role : RoleValue) (permissions : list string) :
  (completion (hasAnyPermission role permissions) = Normal true
   <-> exists p, In p permissions
                 /\ completion (hasPermission role p) = Normal true)
  /\ (completion (hasAllPermissions role permissions) = Normal true
      <-> forall p, In p permissions
                    -> completion (hasPermission role p) = Normal true).
Proof.
  unfold hasPermission, hasAnyPermission, hasAllPermissions.
  destruct (getRoleInfo_normal role) as (info & l & ->). cbn.
  split; split.
  - intros [= H]. apply existsb_exists in H. destruct H as (p & Hp & Hi).
    exists p. split; [assumption | f_equal; assumption].
  - intros (p & Hp & [= Hi]). f_equal. apply existsb_exists. eauto.
  - intros [= H] p Hp. f_equal. exact (proj1 (forallb_forall _ _) H p Hp).
  - intros H. f_equal. apply forallb_forall. intros p Hp.
    specialize (H p Hp). injection H as H. exact H.
Qed.

(** X4. [compareRoleLevels] is antisymmetric; [owner] is at least as high as
    any role, a role outside the catalogue is at most as high as any role,
    and two roles of the catalogue compare equal only when they are the
    same role. *)
Theorem compareRoleLevels_order (role1 role2 : RoleValue) :
  exists n,
    completion (compareRoleLevels role1 role2) = Normal n
    /\ completion (compareRoleLevels role2 role1) = Normal (- n)
    /\ (roleIs role1 "owner" = true -> 0 <= n)
    /\ (isKnownRole role1 = false -> n <= 0)
    /\ (isKnownRole role1 = true -> isKnownRole role2 = true ->
        n = 0 -> role1 = role2).
Proof.
  unfold compareRoleLevels, isKnownRole, getRoleInfo.
  destruct role1 as [| |s1]; destruct role2 as [| |s2]; cbn [roleIs];
    repeat match goal with
           | |- context [String.eqb ?s ?lit] =>
               destruct (String.eqb_spec s lit); try subst s
           end;
    eexists; repeat split; cbn; intros; try congruence; try lia.
Qed.

Lemma getAvailableRoles_value :
  getAvailableRoles
  = (Normal [ ("owner", ownerInfo); ("business", businessInfo);
              ("developer", developerInfo);
              ("financial_controller", financialControllerInfo) ], []).
Proof. reflexivity. Qed.

Lemma validateRole_value (role : RoleValue) :
  exists result,
    validateRole role = (Normal result, [])
    /\ Validation.isValid result = isKnownRole role
    /\ (Validation.isValid result = false <-> exists e, Validation.errors result = [e]).
Proof.
  unfold validateRole, isKnownRole.
  destruct role as [| |s]; cbn [roleFalsy roleIs].
  - eexists. split; [reflexivity|]. cbn. split; [reflexivity|].
    split; [eauto | reflexivity].
  - eexists. split; [reflexivity|]. cbn. split; [reflexivity|].
    split; [eauto | reflexivity].
  - destruct (String.eqb_spec s "") as [-> | Hne].
    + eexists. split; [reflexivity|]. cbn. split; [reflexivity|].
      split; [eauto | reflexivity].
    + cbn [roleText]. unfold Validation.pushIf, Validation.ofErrors, JS.includes, validRoles.
      cbn [existsb].
      rewrite (String.eqb_sym "owner" s), (String.eqb_sym "business" s),
        (String.eqb_sym "developer" s), (String.eqb_sym "financial_controller" s),
        orb_false_r.
      rewrite <- !orb_assoc.
      destruct (String.eqb s "owner" || (String.eqb s "business"
                || (String.eqb s "developer" || String.eqb s "financial_controller")))%bool;
        eexists; (split; [reflexivity|]); cbn; (split; [reflexivity|]).
      * split; [discriminate | intros (e & F); discriminate].
      * split; [eauto | reflexivity].
Qed.

(** X5. [validateRole] accepts exactly the roles that [getAvailableRoles]
    lists, each of which has a catalogue entry of its own; a rejected role
    comes with one error. *)
Theorem validateRole_accepts_listed_roles (role : RoleValue) :
  exists result listed,
    completion (validateRole role) = Normal result
    /\ completion getAvailableRoles = Normal listed
    /\ (Validation.isValid result = true
        <-> exists s, role = RoleString s /\ In s (map fst listed))
    /\ (Validation.isValid result = false
        <-> exists e, Validation.errors result = [e])
    /\ Forall (fun entry =>
                 completion (getRoleInfo (RoleString (fst entry))) = Normal (snd entry)
                 /\ snd entry <> defaultRole) listed.
Proof.
  destruct (validateRole_value role) as (r & Hr & Hv & He).
  rewrite getAvailableRoles_value, Hr. cbn [completion fst map].
  do 2 eexists. split; [reflexivity|]. split; [reflexivity|].
  split; [|split; [exact He|]].
  - rewrite Hv. apply isKnownRole_spec.
  - repeat constructor; cbn; discriminate.
Qed.

(** X6. The display text of a role is never empty: a catalogue role has its
    own text, any other non-empty string is shown as it is, and an absent or
    empty role is shown as [Unknown]. *)
Theorem userRoleText_never_empty (role : RoleValue) :
  exists text,
    completion (userRoleText role) = Normal text
    /\ text <> ""
    /\ (isKnownRole role = false -> text = roleOrUnknown role).
Proof.
  unfold userRoleText, isKnownRole.
  destruct role as [| |s]; cbn [roleIs].
  - eexists. repeat split; discriminate.
  - eexists. repeat split; discriminate.
  - repeat match goal with
           | |- context [String.eqb s ?lit] =>
               destruct (String.eqb_spec s lit); try subst s
           end;
      try (eexists; repeat split; cbn; intros; first [discriminate | congruence]).
    cbn. destruct (String.eqb_spec s ""); eexists; repeat split;
      try discriminate; try assumption.
Qed.

(** X7. [updateUserRole] sends no request when the acting role is given and
    is not [owner], or when the new role is not of the catalogue: it throws,
    and the error it throws does not depend on the network. *)
Theorem updateUserRole_rejects_before_request (currentUserRole role : RoleValue) :
  requestAllowed currentUserRole role = false ->
  exists e,
    forall (Response : Type) (API_URL : string)
           (fetchApi : Request -> Eff Response)
           (invalidateQueries : list string -> Eff unit) (userId : string),
      completion (updateUserRole API_URL fetchApi invalidateQueries
                    userId role currentUserRole)
      = Thrown e.
Proof.
  unfold requestAllowed, updateUserRole. intros H.
  rewrite (validateRoleChangePermission_value currentUserRole role).
  destruct (validateRole_value role) as (r & -> & Hv & _).
  destruct (roleFalsy currentUserRole) eqn:Hf;
    [|destruct (roleIs currentUserRole "owner") eqn:Ho].
  - cbn [orb andb] in H. rewrite H in Hv.
    eexists. intros. cbn. rewrite Hv. reflexivity.
  - cbn [orb andb] in H. rewrite H in Hv.
    eexists. intros. cbn. rewrite Hv. reflexivity.
  - eexists. intros. cbn. reflexivity.
Qed.

Lemma updateUserRole_rejects_before_request_witness :
  exists e,
    forall (Response : Type) (API_URL : string)
           (fetchApi : Request -> Eff Response)
           (invalidateQueries : list string -> Eff unit) (userId : string),
      completion (updateUserRole API_URL fetchApi invalidateQueries
                    userId (RoleString "developer") (RoleString "business"))
      = Thrown e.
Proof.
  apply (updateUserRole_rejects_before_request
           (RoleString "business") (RoleString "developer")).
  reflexivity.
Defined.

(** When the two checks pass, the callback is the request and what follows
    it. *)
Lemma updateUserRole_request
    (Response : Type) (API_URL : string)
    (fetchApi : Request -> Eff Response)
    (invalidateQueries : list string -> Eff unit)
    (userId : string) (currentUserRole role : RoleValue) :
  requestAllowed currentUserRole role = true ->
  updateUserRole API_URL fetchApi invalidateQueries userId role currentUserRole
  = (logger_info "Updating user role" "UserRoleUpdate" ;;;
     result <- fetchApi {| url := API_URL ++ "/users/roles";
                           method := "PATCH";
                           user_id := userId;
                           roles := [role] |} ;;
     invalidateQueries ["users"] ;;;
     invalidateQueries ["profile"] ;;;
     logger_info "User role updated successfully" "UserRoleUpdate" ;;;
     ret result).
Proof.
  unfold requestAllowed. intros H.
  apply andb_prop in H. destruct H as [Hc Hk].
  assert (Hv : validateRole role = (Normal (Validation.mkResult true []), [])).
  { apply isKnownRole_spec in Hk. destruct Hk as (s & -> & Hs).
    cbn in Hs. repeat destruct Hs as [<- | Hs]; try reflexivity. contradiction. }
  assert (Hp : when (negb (roleFalsy currentUserRole))
                 (canChangeRole <- validateRoleChangePermission currentUserRole role ;;
                  when (negb (UpdateUserRole.isValid canChangeRole))
                    (throw (Error (match UpdateUserRole.reason canChangeRole with
                                   | Some r => r
                                   | None => EmptyString
                                   end))))
               = ret tt).
  { destruct (roleFalsy currentUserRole) eqn:Hf; [reflexivity|].
    cbn [orb] in Hc. cbn [negb when].
    apply isKnownRole_spec in Hk. destruct Hk as (s & -> & Hs).
    destruct currentUserRole as [| |c]; try discriminate.
    cbn in Hc. apply String.eqb_eq in Hc. subst c.
    cbn in Hs. repeat destruct Hs as [<- | Hs]; try reflexivity. contradiction. }
  unfold updateUserRole. rewrite Hp, Hv.
  rewrite bind_ret_unit. cbn [bind ret Validation.isValid negb when].
  destruct (logger_info "Updating user role" "UserRoleUpdate" ;;; _) as [c l].
  reflexivity.
Qed.

(** The timer never throws, and what it logs is what [timerAdds] says. *)
Lemma endTimer_logs (reading : Performance.Reading) (toFixed2 : Q -> string)
    (name : string) :
  exists duration entries,
    Performance.endTimer reading toFixed2 name = (Normal duration, entries)
    /\ timerAdds reading toFixed2 name entries.
Proof.
  unfold Performance.endTimer, timerAdds.
  destruct reading as [|duration].
  - do 2 eexists. split; reflexivity.
  - destruct (Qle_bool duration 1000) eqn:E; cbn [negb when].
    + do 2 eexists. split; [reflexivity|]. split; [reflexivity|].
      intros Hlt. apply Qle_bool_iff in E. exfalso.
      exact (Qlt_not_le _ _ Hlt E).
    + do 2 eexists. split; [reflexivity|]. split; [|reflexivity].
      intros Hle. apply Qle_bool_iff in Hle. congruence.
Qed.

(** A measured operation completes as the operation does, and logs what it
    logs, followed by what the timer adds. *)
Lemma measureAsync_spec {T : Type} (reading : Performance.Reading)
    (toFixed2 : Q -> string) (name : string) (fn : Eff T) :
  exists entries,
    completion (Performance.measureAsync reading toFixed2 name fn) = completion fn
    /\ logged (Performance.measureAsync reading toFixed2 name fn)
       = logged fn ++ entries
    /\ timerAdds reading toFixed2 name entries.
Proof.
  destruct (endTimer_logs reading toFixed2 name) as (duration & entries & He & Ht).
  exists entries. unfold Performance.measureAsync.
  destruct fn as [[result | error] l]; unfold bind, tryCatch, throw, ret;
    rewrite He; cbn; rewrite ?app_nil_r; repeat split; exact Ht.
Qed.

(** X8. When the acting role is omitted or is [owner] and the new role is
    of the catalogue, [mutationFn] completes as the request and what
    follows it complete (log, [PATCH] request, two invalidations, log,
    response), and its log is theirs followed by what the timer of
    [measureAsync] adds.  With [currentUserRole] omitted the permission
    check is skipped: every role of the catalogue, [owner] included, goes to
    the server. *)
Theorem updateUserRole_sends_request
    (Response : Type) (API_URL : string)
    (fetchApi : Request -> Eff Response)
    (invalidateQueries : list string -> Eff unit)
    (reading : Performance.Reading) (toFixed2 : Q -> string)
    (userId : string) (currentUserRole role : RoleValue) :
  requestAllowed currentUserRole role = true ->
  let request :=
    logger_info "Updating user role" "UserRoleUpdate" ;;;
    result <- fetchApi {| url := API_URL ++ "/users/roles";
                          method := "PATCH";
                          user_id := userId;
                          roles := [role] |} ;;
    invalidateQueries ["users"] ;;;
    invalidateQueries ["profile"] ;;;
    logger_info "User role updated successfully" "UserRoleUpdate" ;;;
    ret result in
  exists timer,
    completion (mutationFn API_URL fetchApi invalidateQueries reading toFixed2
                  userId role currentUserRole)
    = completion request
    /\ logged (mutationFn API_URL fetchApi invalidateQueries reading toFixed2
                 userId role currentUserRole)
       = logged request ++ timer
    /\ timerAdds reading toFixed2 "update-user-role" timer.
Proof.
  intros H request. unfold mutationFn.
  rewrite (updateUserRole_request Response API_URL fetchApi invalidateQueries
             userId currentUserRole role H).
  apply measureAsync_spec.
Qed.

Lemma updateUserRole_sends_request_witness :
  exists timer,
    completion (mutationFn "https://api" (fun r => ret (user_id r)) (fun _ => ret tt)
                  (Performance.Elapsed (1500 # 1)) (fun _ => "1500.00")
                  "u-1" (RoleString "owner") RoleUndefined)
    = Normal "u-1"
    /\ logged (mutationFn "https://api" (fun r => ret (user_id r)) (fun _ => ret tt)
                 (Performance.Elapsed (1500 # 1)) (fun _ => "1500.00")
                 "u-1" (RoleString "owner") RoleUndefined)
       = [ mkLog INFO "Updating user role" "UserRoleUpdate";
           mkLog INFO "User role updated successfully" "UserRoleUpdate" ] ++ timer
    /\ timerAdds (Performance.Elapsed (1500 # 1)) (fun _ => "1500.00")
                 "update-user-role" timer.
Proof.
  exact (updateUserRole_sends_request string "https://api"
           (fun r => ret (user_id r)) (fun _ => ret tt)
           (Performance.Elapsed (1500 # 1)) (fun _ => "1500.00")
           "u-1" RoleUndefined (RoleString "owner") eq_refl).
Defined.

(** ** The gating components *)

Lemma hasPermission_normal (role : RoleValue) (p : string) :
  exists b l, hasPermission role p = (Normal b, l).
Proof.
  unfold hasPermission. destruct (getRoleInfo_normal role) as (info & l & ->).
  do 2 eexists. reflexivity.
Qed.

Lemma hasAnyPermission_normal (role : RoleValue) (ps : list string) :
  exists b l, hasAnyPermission role ps = (Normal b, l).
Proof.
  unfold hasAnyPermission. destruct (getRoleInfo_normal role) as (info & l & ->).
  do 2 eexists. reflexivity.
Qed.

Lemma hasAnyPermission_nil (role : RoleValue) :
  exists l, hasAnyPermission role [] = (Normal false, l).
Proof.
  unfold hasAnyPermission. destruct (getRoleInfo_normal role) as (info & l & ->).
  eexists. reflexivity.
Qed.

(** X9. [ShowForRoles] never throws.  It shows its children exactly when
    the role is accepted, the required permission (if one is named) is held,
    and one of the required permissions (if a list is given) is held; a
    list that is given but empty therefore hides the children from every
    role. *)
Theorem showForRoles_decision (isRoleAccepted : bool) (userRole : RoleValue)
    (requiredPermission : option string)
    (requiredPermissions : option (list string)) (logAccess : bool) :
  (exists rendered,
      completion (ShowForRoles.ShowForRoles isRoleAccepted userRole
                    requiredPermission requiredPermissions logAccess)
      = Normal rendered
      /\ (rendered = ShowForRoles.Children
          <-> isRoleAccepted = true
              /\ (forall p, requiredPermission = Some p -> p <> "" ->
                            completion (hasPermission userRole p) = Normal true)
              /\ (forall ps, requiredPermissions = Some ps ->
                             completion (hasAnyPermission userRole ps) = Normal true)))
  /\ completion (ShowForRoles.ShowForRoles isRoleAccepted userRole
                   requiredPermission (Some []) logAccess)
     = Normal ShowForRoles.Fallback.
Proof.
  split.
  - unfold ShowForRoles.ShowForRoles.
    assert (H1 : exists b1 l1,
               (match requiredPermission with
                | Some p => if String.eqb p "" then ret true
                            else hasPermission userRole p
                | None => ret true
                end) = (Normal b1, l1)
               /\ (b1 = true <->
                   forall p, requiredPermission = Some p -> p <> "" ->
                             completion (hasPermission userRole p) = Normal true)).
    { destruct requiredPermission as [p|].
      - destruct (String.eqb_spec p "") as [-> | Hne].
        + do 2 eexists. split; [reflexivity|]. split; [|reflexivity].
          intros _ p [= <-] F. contradiction.
        + destruct (hasPermission_normal userRole p) as (b & l & E).
          rewrite E. do 2 eexists. split; [reflexivity|]. split.
          * intros -> q [= <-] _. rewrite E. reflexivity.
          * intros H. specialize (H p eq_refl Hne). rewrite E in H. cbn in H. congruence.
      - do 2 eexists. split; [reflexivity|]. split; [|reflexivity].
        intros _ p F. discriminate. }
    assert (H2 : exists b2 l2,
               (match requiredPermissions with
                | Some ps => hasAnyPermission userRole ps
                | None => ret true
                end) = (Normal b2, l2)
               /\ (b2 = true <->
                   forall ps, requiredPermissions = Some ps ->
                              completion (hasAnyPermission userRole ps) = Normal true)).
    { destruct requiredPermissions as [ps|].
      - destruct (hasAnyPermission_normal userRole ps) as (b & l & E).
        rewrite E. do 2 eexists. split; [reflexivity|]. split.
        + intros -> q [= <-]. rewrite E. reflexivity.
        + intros H. specialize (H ps eq_refl). rewrite E in H. cbn in H. congruence.
      - do 2 eexists. split; [reflexivity|]. split; [|reflexivity].
        intros _ ps F. discriminate. }
    destruct H1 as (b1 & l1 & -> & Hb1). destruct H2 as (b2 & l2 & -> & Hb2).
    cbn [bind].
    match goal with
    | |- context [when logAccess ?m] => destruct (when logAccess m) as [[[]|e] ll] eqn:Hl
    end.
    2:{ destruct logAccess; discriminate. }
    match goal with
    | |- context [when ?c ?m] => destruct (when c m) as [[[]|e] lw] eqn:Hw
    end.
    2:{ match type of Hw with when ?c _ = _ => destruct c end; discriminate. }
    cbn. eexists. split; [reflexivity|].
    rewrite <- Hb1, <- Hb2.
    destruct isRoleAccepted, b1, b2; cbn; split; intuition discriminate.
  - unfold ShowForRoles.ShowForRoles.
    destruct (hasAnyPermission_nil userRole) as (l2 & ->).
    destruct (match requiredPermission with
              | Some p => if String.eqb p "" then ret true
                          else hasPermission userRole p
              | None => ret true
              end) as [[b1|e] l1] eqn:E1.
    2:{ destruct requiredPermission as [p|]; [|discriminate].
        destruct (String.eqb p ""); [discriminate|].
        destruct (hasPermission_normal userRole p) as (b & l & E). congruence. }
    cbn [bind]. rewrite !andb_false_r. cbn [negb andb].
    destruct logAccess; destruct (JS.truthy requiredPermission); reflexivity.
Qed.

(** X10. [ShowForPermission] never shows its children: without a role it
    falls back, logging the denial, and with a role its first statement
    throws. *)
Theorem showForPermission_never_shows (userRole : RoleValue) (permission : string)
    (logAccess : bool) :
  completion (ShowForRoles.ShowForPermission userRole permission logAccess)
    <> Normal ShowForRoles.Children
  /\ (ShowForRoles.roleTruthy userRole = true ->
      exists e,
        completion (ShowForRoles.ShowForPermission userRole permission logAccess)
        = Thrown e)
  /\ (ShowForRoles.roleTruthy userRole = false ->
      completion (ShowForRoles.ShowForPermission userRole permission logAccess)
      = Normal ShowForRoles.Fallback
      /\ In (mkLog WARN "Access denied due to missing permission" "AccessControl")
            (logged (ShowForRoles.ShowForPermission userRole permission logAccess))).
Proof.
  unfold ShowForRoles.ShowForPermission.
  destruct (ShowForRoles.roleTruthy userRole); destruct logAccess; cbn;
    repeat split; try discriminate; eauto; intros; try discriminate; auto.
Qed.

(** ** Further properties of the transition tables *)

Lemma ownProperty_In (table : list (string * list string)) (key : string)
    (targets : list string) :
  ownProperty table key = Some targets -> In (key, targets) table.
Proof.
  induction table as [|[k v] rest IH]; cbn; [discriminate|].
  destruct (String.eqb_spec k key) as [-> | _].
  - intros [= ->]. left. reflexivity.
  - intros H. right. exact (IH H).
Qed.

Lemma ownProperty_None (table : list (string * list string)) (key : string) :
  ~ In key (map fst table) -> ownProperty table key = None.
Proof.
  induction table as [|[k v] rest IH]; cbn; [reflexivity|].
  intros H. destruct (String.eqb_spec k key) as [-> | _].
  - exfalso. apply H. left. reflexivity.
  - apply IH. intros F. apply H. right. exact F.
Qed.

Lemma includes_In (arr : list string) (x : string) :
  JS.includes arr x = true <-> In x arr.
Proof.
  unfold JS.includes. rewrite existsb_exists. split.
  - intros (y & Hy & E). apply String.eqb_eq in E. subst. exact Hy.
  - intros H. exists x. split; [exact H | apply String.eqb_refl].
Qed.

Lemma transitionAllowed_true (table : list (string * list string))
    (currentStatus newStatus : string) :
  transitionAllowed table currentStatus newStatus = Normal true ->
  exists targets, In (currentStatus, targets) table /\ In newStatus targets.
Proof.
  unfold transitionAllowed.
  destruct (ownProperty table currentStatus) as [targets|] eqn:E.
  - intros [= H]. exists targets. split; [exact (ownProperty_In _ _ _ E)|].
    apply includes_In, H.
  - destruct (JS.includes objectPrototypeKeys currentStatus); discriminate.
Qed.

(** X11. A current status that is not a state of the disbursement table is
    refused whatever the next status, by both validators; if it names a
    member that every object inherits, the validators throw instead of
    answering. *)
Theorem unknown_status_has_no_transition (currentStatus newStatus : string) :
  ~ In currentStatus (map fst disbursementTransitions) ->
  validateDisbursementStatusTransition currentStatus newStatus
  = (if JS.includes objectPrototypeKeys currentStatus
     then Thrown (TypeError "allowedTransitions.includes is not a function")
     else Normal false)
  /\ validatePaymentStatusTransition currentStatus newStatus
     = validateDisbursementStatusTransition currentStatus newStatus.
Proof.
  intros H.
  assert (HP : ~ In currentStatus (map fst paymentTransitions)).
  { intros F. apply H. cbn in F |- *. intuition. }
  unfold validateDisbursementStatusTransition, validatePaymentStatusTransition,
    transitionAllowed.
  rewrite (ownProperty_None _ _ H), (ownProperty_None _ _ HP).
  split; reflexivity.
Qed.

Lemma unknown_status_has_no_transition_witness :
  validateDisbursementStatusTransition "archived" "completed" = Normal false
  /\ validatePaymentStatusTransition "constructor" "completed"
     = Thrown (TypeError "allowedTransitions.includes is not a function").
Proof.
  split.
  - apply (unknown_status_has_no_transition "archived" "completed").
    cbn. intuition discriminate.
  - destruct (unknown_status_has_no_transition "constructor" "completed") as [H1 H2].
    + cbn. intuition discriminate.
    + rewrite H2. exact H1.
Defined.

Lemma tableWellFormed_spec (table : list (string * list string))
    (currentStatus newStatus : string) :
  tableWellFormed table = true ->
  transitionAllowed table currentStatus newStatus = Normal true ->
  currentStatus <> newStatus
  /\ In newStatus (map fst table)
  /\ newStatus <> initialState table.
Proof.
  intros Hwf H.
  destruct (transitionAllowed_true _ _ _ H) as (targets & Hin & Ht).
  unfold tableWellFormed in Hwf.
  pose proof (proj1 (forallb_forall _ _) Hwf _ Hin) as He. cbn [fst snd] in He.
  pose proof (proj1 (forallb_forall _ _) He _ Ht) as Hx.
  apply andb_prop in Hx. destruct Hx as [Hx H3].
  apply andb_prop in Hx. destruct Hx as [H1 H2].
  apply negb_true_iff, String.eqb_neq in H1.
  apply negb_true_iff, String.eqb_neq in H3.
  apply includes_In in H2. repeat split; auto.
Qed.

(** X12. In both machines an allowed transition changes the status, leads
    to a state of the same table, and never leads back to the first state
    ([draft] for a disbursement, [pending] for a payment). *)
Theorem allowed_transition_shape (table : list (string * list string))
    (currentStatus newStatus : string) :
  In table [disbursementTransitions; paymentTransitions] ->
  transitionAllowed table currentStatus newStatus = Normal true ->
  currentStatus <> newStatus
  /\ In newStatus (map fst table)
  /\ newStatus <> initialState table.
Proof.
  intros [<- | [<- | []]]; apply tableWellFormed_spec; reflexivity.
Qed.

Lemma allowed_transition_shape_witness :
  "pending" <> "processing"
  /\ In "processing" (map fst paymentTransitions)
  /\ "processing" <> initialState paymentTransitions.
Proof.
  apply (allowed_transition_shape paymentTransitions "pending" "processing").
  - right. left. reflexivity.
  - reflexivity.
Defined.

(** X13. Cancelling: a disbursement can be canceled from every state that
    is not terminal; a payment can be canceled while pending, failed or in
    retry, and not while it is being processed. *)
Theorem cancellation_edges (currentStatus : string) :
  (validateDisbursementStatusTransition currentStatus "canceled" = Normal true
   <-> In currentStatus ["draft"; "pending"; "processing"; "failed"; "retry"])
  /\ (validatePaymentStatusTransition currentStatus "canceled" = Normal true
      <-> In currentStatus ["pending"; "failed"; "retry"]).
Proof.
  split; split.
  - intros H. destruct (transitionAllowed_true _ _ _ H) as (ts & Hin & Ht).
    cbn in Hin.
    repeat destruct Hin as [[= <- <-] | Hin]; cbn in Ht |- *;
      try tauto; try (intuition discriminate).
  - intros H. cbn in H. repeat destruct H as [<- | H]; try reflexivity. contradiction.
  - intros H. destruct (transitionAllowed_true _ _ _ H) as (ts & Hin & Ht).
    cbn in Hin.
    repeat destruct Hin as [[= <- <-] | Hin]; cbn in Ht |- *;
      try tauto; try (intuition discriminate).
  - intros H. cbn in H. repeat destruct H as [<- | H]; try reflexivity. contradiction.
Qed.

(** ** Further properties of the record formatters *)

Lemma formatDisbursement_normal (Date_getTime : string -> option Z)
    (Array_sort : StatusHistory.Sort)
    (d : FormatDisbursements.Api.ApiDisbursement) :
  FormatDisbursements.hasRequiredFields d = true ->
  exists m l, FormatDisbursements.formatDisbursement Date_getTime Array_sort d = (Normal m, l).
Proof.
  unfold FormatDisbursements.hasRequiredFields. intros H.
  repeat (apply andb_prop in H; destruct H as [H ?]).
  unfold FormatDisbursements.formatDisbursement,
         FormatDisbursements.formatDisbursement_body.
  repeat match goal with
         | E : negb ?b = true |- _ => apply negb_true_iff in E; rewrite E; clear E
         | E : ?b = true |- _ => rewrite E; clear E
         end.
  cbn [negb orb]. rewrite !when_false, !bind_ret_unit.
  match goal with
  | |- context [when (negb ?c) _] => destruct c
  end;
    cbn [negb]; rewrite ?when_false, ?bind_ret_unit;
    match goal with
    | |- context [when (?a && ?b)%bool _] => destruct (a && b)%bool
    end; do 2 eexists; reflexivity.
Qed.

Lemma formatDisbursement_thrown (Date_getTime : string -> option Z)
    (Array_sort : StatusHistory.Sort)
    (d : FormatDisbursements.Api.ApiDisbursement) :
  FormatDisbursements.hasRequiredFields d = false ->
  exists e msg,
    FormatDisbursements.formatDisbursement Date_getTime Array_sort d
    = (Thrown e,
       [ mkLog WARN msg FormatDisbursements.ctx;
         mkLog ERROR "Failed to format disbursement" FormatDisbursements.ctx ])
    /\ In e [ Error "Disbursement ID is required";
              Error "Disbursement name is required";
              Error "Disbursement asset information is required";
              Error "Disbursement wallet information is required" ]
    /\ (JS.truthy (FormatDisbursements.Api.id d) = false ->
        e = Error "Disbursement ID is required").
Proof.
  unfold FormatDisbursements.hasRequiredFields,
         FormatDisbursements.formatDisbursement,
         FormatDisbursements.formatDisbursement_body.
  destruct (JS.truthy (FormatDisbursements.Api.id d));
    destruct (FormatDisbursements.nameMissing (FormatDisbursements.Api.name d));
    destruct (JS.truthy (FormatDisbursements.opt (FormatDisbursements.Api.asset d)
                           FormatDisbursements.Api.asset_id));
    destruct (JS.truthy (FormatDisbursements.opt (FormatDisbursements.Api.asset d)
                           FormatDisbursements.Api.asset_code));
    destruct (JS.truthy (FormatDisbursements.opt (FormatDisbursements.Api.wallet d)
                           FormatDisbursements.Api.wallet_id));
    destruct (JS.truthy (FormatDisbursements.opt (FormatDisbursements.Api.wallet d)
                           FormatDisbursements.Api.wallet_name));
    cbn [negb andb orb]; intros H; try discriminate H;
    do 2 eexists; (split; [reflexivity|]); (split; [cbn; auto 6|]);
    intros F; first [discriminate F | reflexivity].
Qed.

Lemma nameMissing_blank (n : option string) :
  FormatDisbursements.nameMissing n = nameBlank n.
Proof.
  destruct n as [s|]; [|reflexivity]. cbn.
  destruct (String.eqb_spec s "") as [-> | _]; reflexivity.
Qed.

Lemma firstMissing_none (d : FormatDisbursements.Api.ApiDisbursement) :
  firstMissing d = None <-> FormatDisbursements.hasRequiredFields d = true.
Proof.
  unfold firstMissing, FormatDisbursements.hasRequiredFields, bothPresent,
    FormatDisbursements.opt.
  rewrite nameMissing_blank.
  destruct (JS.truthy (FormatDisbursements.Api.id d)); cbn [negb andb];
    [|split; discriminate].
  destruct (nameBlank (FormatDisbursements.Api.name d)); cbn [negb andb];
    [split; discriminate|].
  destruct (FormatDisbursements.Api.asset d) as [a|]; cbn [negb andb];
    [|split; discriminate].
  destruct (JS.truthy (FormatDisbursements.Api.asset_id a)); cbn [negb andb];
    [|split; discriminate].
  destruct (JS.truthy (FormatDisbursements.Api.asset_code a)); cbn [negb andb];
    [|split; discriminate].
  destruct (FormatDisbursements.Api.wallet d) as [w|]; cbn [negb andb];
    [|split; discriminate].
  destruct (JS.truthy (FormatDisbursements.Api.wallet_id w)); cbn [negb andb];
    [|split; discriminate].
  destruct (JS.truthy (FormatDisbursements.Api.wallet_name w)); cbn [negb andb];
    split; try discriminate; reflexivity.
Qed.

(** X14. [formatDisbursement] checks the required fields in the order id,
    name, asset, wallet.  A raw disbursement that lacks one is never
    normalized: the error thrown is the one of the first field it lacks,
    after one warning and one error in the log; a raw disbursement that
    lacks none is normalized. *)
Theorem formatDisbursement_missing_field (Date_getTime : string -> option Z)
    (Array_sort : StatusHistory.Sort)
    (d : FormatDisbursements.Api.ApiDisbursement) :
  match firstMissing d with
  | Some msg =>
      completion (FormatDisbursements.formatDisbursement Date_getTime Array_sort d)
      = Thrown (Error msg)
      /\ map level (logged (FormatDisbursements.formatDisbursement
                              Date_getTime Array_sort d))
         = [WARN; ERROR]
  | None =>
      exists m,
        completion (FormatDisbursements.formatDisbursement Date_getTime Array_sort d)
        = Normal m
  end.
Proof.
  destruct (firstMissing d) as [msg|] eqn:E.
  - revert E.
    unfold firstMissing, bothPresent, FormatDisbursements.formatDisbursement,
      FormatDisbursements.formatDisbursement_body, FormatDisbursements.opt.
    rewrite nameMissing_blank.
    destruct (JS.truthy (FormatDisbursements.Api.id d)); cbn [negb];
      [|intros [= <-]; split; reflexivity].
    destruct (nameBlank (FormatDisbursements.Api.name d));
      [intros [= <-]; split; reflexivity|].
    destruct (FormatDisbursements.Api.asset d) as [a|];
      [|intros [= <-]; split; reflexivity].
    destruct (JS.truthy (FormatDisbursements.Api.asset_id a)); cbn [negb andb];
      [|intros [= <-]; split; reflexivity].
    destruct (JS.truthy (FormatDisbursements.Api.asset_code a)); cbn [negb andb];
      [|intros [= <-]; split; reflexivity].
    destruct (FormatDisbursements.Api.wallet d) as [w|];
      [|intros [= <-]; split; reflexivity].
    destruct (JS.truthy (FormatDisbursements.Api.wallet_id w)); cbn [negb andb];
      [|intros [= <-]; split; reflexivity].
    destruct (JS.truthy (FormatDisbursements.Api.wallet_name w)); cbn [negb andb];
      [discriminate | intros [= <-]; split; reflexivity].
  - apply firstMissing_none in E.
    destruct (formatDisbursement_normal Date_getTime Array_sort d E) as (m & l & ->).
    exists m. reflexivity.
Qed.

(** A record without asset and without wallet fails on the asset; a record
    with a blank name and nothing else fails on the name. *)
Example formatDisbursement_first_failure :
  completion (FormatDisbursements.formatDisbursement (fun _ => None)
                (@StatusHistory.sort)
                (FormatDisbursements.Api.mkDisbursement
                   (Some "d-1") (Some "March payroll") None None None None None None
                   None None None None None None None None None None None None None))
  = Thrown (Error "Disbursement asset information is required")
  /\ completion (FormatDisbursements.formatDisbursement (fun _ => None)
                   (@StatusHistory.sort)
                   (FormatDisbursements.Api.mkDisbursement
                      (Some "d-1") (Some "   ") None None None None None None None
                      None None None None None None None None None None None None))
     = Thrown (Error "Disbursement name is required").
Proof. split; reflexivity. Qed.

(** *** The batch formatter *)

Lemma mapM_cases {A B} (f : A -> Eff B) (arr : list A) :
  (exists ys, completion (mapM f arr) = Normal ys
              /\ Forall2 (fun x y => completion (f x) = Normal y) arr ys)
  \/ (exists good bad rest e,
         arr = good ++ bad :: rest
         /\ Forall (fun x => exists y, completion (f x) = Normal y) good
         /\ completion (f bad) = Thrown e
         /\ completion (mapM f arr) = Thrown e).
Proof.
  induction arr as [|x arr IH]; cbn [mapM].
  - left. exists []. split; [reflexivity | constructor].
  - destruct (f x) as [[y|e] l] eqn:Hx.
    + destruct IH as [(ys & Hys & HF) | (good & bad & rest & e & -> & Hg & Hb & He)].
      * left. exists (y :: ys). destruct (mapM f arr) as [c l']. cbn in Hys. subst c.
        split; [reflexivity|]. constructor; [rewrite Hx; reflexivity | exact HF].
      * right. exists (x :: good), bad, rest, e.
        destruct (mapM f (good ++ bad :: rest)) as [c l']. cbn in He. subst c.
        repeat split; try assumption; try reflexivity.
        constructor; [exists y; rewrite Hx; reflexivity | exact Hg].
    + right. exists [], x, arr, e. rewrite Hx. repeat split. constructor.
Qed.

Lemma Forall2_In_left {A B} (P : A -> B -> Prop) (l : list A) (l' : list B) (x : A) :
  Forall2 P l l' -> In x l -> exists y, P x y.
Proof.
  induction 1 as [|a b l l' Hab _ IH]; cbn; [contradiction|].
  intros [<- | H]; [exists b; exact Hab | exact (IH H)].
Qed.

(** X15. [formatDisbursements] is all or nothing: it returns the normalized
    records, one per input and in order, or, if some record cannot be
    normalized, it throws the error of the first such record and returns
    nothing of the records before it. *)
Theorem formatDisbursements_all_or_nothing (Date_getTime : string -> option Z)
    (Array_sort : StatusHistory.Sort)
    (disbursements : list FormatDisbursements.Api.ApiDisbursement) :
  (forallb FormatDisbursements.hasRequiredFields disbursements = true
   /\ exists formatted,
       completion (FormatDisbursements.formatDisbursements Date_getTime Array_sort disbursements)
       = Normal formatted
       /\ Forall2 (fun d m =>
                     completion (FormatDisbursements.formatDisbursement Date_getTime Array_sort d)
                     = Normal m)
                  disbursements formatted)
  \/ (exists good bad rest e,
         disbursements = good ++ bad :: rest
         /\ forallb FormatDisbursements.hasRequiredFields good = true
         /\ FormatDisbursements.hasRequiredFields bad = false
         /\ completion (FormatDisbursements.formatDisbursement Date_getTime Array_sort bad)
            = Thrown e
         /\ completion (FormatDisbursements.formatDisbursements Date_getTime Array_sort disbursements)
            = Thrown e).
Proof.
  assert (Hvalid : forall d y,
             completion (FormatDisbursements.formatDisbursement Date_getTime Array_sort d) = Normal y ->
             FormatDisbursements.hasRequiredFields d = true).
  { intros d y H. destruct (FormatDisbursements.hasRequiredFields d) eqn:E; [reflexivity|].
    destruct (formatDisbursement_thrown Date_getTime Array_sort d E) as (e & msg & Hd & _).
    rewrite Hd in H. discriminate. }
  assert (Hinvalid : forall d e,
             completion (FormatDisbursements.formatDisbursement Date_getTime Array_sort d) = Thrown e ->
             FormatDisbursements.hasRequiredFields d = false).
  { intros d e H. destruct (FormatDisbursements.hasRequiredFields d) eqn:E; [|reflexivity].
    destruct (formatDisbursement_normal Date_getTime Array_sort d E) as (m & l & Hd).
    rewrite Hd in H. discriminate. }
  unfold FormatDisbursements.formatDisbursements.
  destruct (mapM_cases (FormatDisbursements.formatDisbursement Date_getTime Array_sort) disbursements)
    as [(ys & Hys & HF) | (good & bad & rest & e & Hd & Hg & Hb & He)].
  - left. split.
    + apply forallb_forall. intros d Hin.
      destruct (Forall2_In_left _ _ _ _ HF Hin) as (m & Hm).
      exact (Hvalid d m Hm).
    + exists ys. destruct (mapM _ disbursements) as [c l]. cbn in Hys. subst c.
      split; [reflexivity | exact HF].
  - right. exists good, bad, rest, e. split; [exact Hd|]. split; [|split; [|split]].
    + apply forallb_forall. intros d Hin.
      destruct (proj1 (Forall_forall _ _) Hg d Hin) as (m & Hm).
      exact (Hvalid d m Hm).
    + exact (Hinvalid bad e Hb).
    + exact Hb.
    + destruct (mapM _ disbursements) as [c l]. cbn in He. subst c. reflexivity.
Qed.

(** *** The status history *)


Section SortFacts.

Context {A : Type}.
Variable compareFn : A -> A -> option Z.



(** The comparator has the sign of a difference of keys on the elements
    that satisfy [G]. *)
Variable key : A -> Z.
Variable G : A -> Prop.
Hypothesis compareFn_key :
  forall x y, G x -> G y ->
              exists v, compareFn x y = Some v /\ Z.sgn v = Z.sgn (key x - key y).



End SortFacts.






(** *** The payment formatter, when it succeeds *)

Lemma truthy_holdsText (field : option string) :
  JS.truthy field = true <-> holdsText field.
Proof.
  unfold holdsText. destruct field as [s|]; cbn.
  - rewrite negb_true_iff, String.eqb_neq. split.
    + intros H. exists s. split; [reflexivity | exact H].
    + intros (t & [= <-] & H). exact H.
  - split; [discriminate | intros (t & F & _); discriminate].
Qed.

Lemma amountInvalid_false (a : option Q) :
  FormatPaymentDetails.amountInvalid a = false
  <-> exists q, a = Some q /\ (0 < q)%Q.
Proof.
  destruct a as [q|]; cbn.
  - rewrite orb_false_iff. split.
    + intros [_ H]. exists q. split; [reflexivity|].
      apply Qnot_le_lt. intros F. apply Qle_bool_iff in F. congruence.
    + intros (q' & [= <-] & H). split.
      * destruct (Qeq_bool q 0) eqn:E; [|reflexivity].
        apply Qeq_bool_iff in E. rewrite E in H. exfalso. exact (Qlt_irrefl 0 H).
      * destruct (Qle_bool q 0) eqn:E; [|reflexivity].
        apply Qle_bool_iff in E. exfalso. exact (Qlt_not_le _ _ H E).
  - split; [discriminate | intros (q & F & _); discriminate].
Qed.

(** X17. [formatPaymentDetails] returns a model exactly when the record has
    an id, an amount above 0 and an asset code.  The model repeats the
    amount, names the payment [Direct Payment] with an empty disbursement
    id when the record has no disbursement, and gives every entry of the
    status history a message. *)
Theorem formatPaymentDetails_succeeds_iff (Date_getTime : string -> option Z)
    (Array_sort : StatusHistory.Sort)
    (p : FormatPaymentDetails.Api.ApiPayment) :
  ((exists m, completion (FormatPaymentDetails.formatPaymentDetails
                            Date_getTime Array_sort p)
              = Normal m)
   <-> paymentIsValid p)
  /\ (forall m,
         completion (FormatPaymentDetails.formatPaymentDetails Date_getTime Array_sort p)
         = Normal m ->
         FormatPaymentDetails.totalAmount m = FormatPaymentDetails.Api.amount p
         /\ (FormatPaymentDetails.Api.disbursement p = None ->
             FormatPaymentDetails.disbursementName m = "Direct Payment"
             /\ FormatPaymentDetails.disbursementId m = "")
         /\ Forall (fun entry => FormatPaymentDetails.message entry <> "")
                   (FormatPaymentDetails.statusHistory m)).
Proof.
  assert (Hvalid : paymentIsValid p
                   <-> JS.truthy (FormatPaymentDetails.Api.id p) = true
                       /\ FormatPaymentDetails.amountInvalid
                            (FormatPaymentDetails.Api.amount p) = false
                       /\ JS.truthy (FormatPaymentDetails.opt
                                       (FormatPaymentDetails.Api.asset p)
                                       FormatPaymentDetails.Api.asset_code) = true).
  { unfold paymentIsValid. rewrite <- truthy_holdsText, <- amountInvalid_false.
    unfold FormatPaymentDetails.opt.
    destruct (FormatPaymentDetails.Api.asset p) as [a|].
    - split.
      + intros (H1 & H2 & a' & [= <-] & H3). apply truthy_holdsText in H3. auto.
      + intros (H1 & H2 & H3). split; [exact H1|]. split; [exact H2|].
        exists a. split; [reflexivity|]. apply truthy_holdsText, H3.
    - split.
      + intros (_ & _ & a & F & _). discriminate.
      + intros (_ & _ & F). discriminate. }
  rewrite Hvalid. clear Hvalid.
  unfold FormatPaymentDetails.formatPaymentDetails,
    FormatPaymentDetails.formatPaymentDetails_body.
  destruct (JS.truthy (FormatPaymentDetails.Api.id p));
    destruct (FormatPaymentDetails.amountInvalid (FormatPaymentDetails.Api.amount p));
    destruct (JS.truthy (FormatPaymentDetails.opt (FormatPaymentDetails.Api.asset p)
                           FormatPaymentDetails.Api.asset_code));
    cbn; split;
    try (split; [intros (m & F); discriminate F
                | intros (F1 & F2 & F3); discriminate]);
    try (intros m F; discriminate F).
  - split; [auto | eauto].
  - intros m [= <-]. cbn. split; [reflexivity|]. split.
    + intros ->. cbn. split; reflexivity.
    + unfold FormatPaymentDetails.formatStatusHistory.
      destruct (FormatPaymentDetails.Api.status_history p) as [entries|]; [|constructor].
      apply Forall_map. apply Forall_forall. intros e _.
      unfold JS.orString.
      destruct (FormatPaymentDetails.Api.history_status_message e) as [s|];
        [|discriminate].
      destruct (String.eqb_spec s ""); [discriminate | assumption].
Qed.

(** ** Further properties of the CSV helpers *)

(** X18. [validateCSVStructure] accepts a text exactly when it has a
    non-blank line and the first such line, the header, names every
    required column; the missing columns are the required ones the header
    lacks, and the available ones are those of the header.  A text without
    any non-blank line is rejected even when nothing is required. *)
Theorem validateCSVStructure_spec (csv : string) (requiredColumns : list string) :
  let result := validateCSVStructure csv requiredColumns in
  (CsvTotalAmount.isValid result = true
   <-> nonBlankLines csv <> []
       /\ forall col, In col requiredColumns -> ~ headerLacks csv col)
  /\ (forall col, In col (missingColumns result)
                  <-> In col requiredColumns /\ headerLacks csv col)
  /\ availableColumns result
     = match nonBlankLines csv with
       | header :: _ => columnsOf header
       | [] => []
       end.
Proof.
  unfold validateCSVStructure, headerLacks.
  destruct (nonBlankLines csv) as [|header rest]; cbn zeta.
  - cbn. split; [|split; [|reflexivity]].
    + split; [discriminate | intros [F _]; contradiction].
    + intros col. tauto.
  - cbn [CsvTotalAmount.isValid availableColumns missingColumns].
    set (columns := columnsOf header).
    assert (Hf : forall col,
               In col (filter (fun c => negb (JS.includes columns c)) requiredColumns)
               <-> In col requiredColumns /\ JS.includes columns col = false).
    { intros col. rewrite filter_In, negb_true_iff. reflexivity. }
    split; [split|split; [exact Hf | reflexivity]].
    + intros H. split; [discriminate|].
      intros col Hc F. apply Nat.eqb_eq, length_zero_iff_nil in H.
      assert (Hin : In col (filter (fun c => negb (JS.includes columns c))
                              requiredColumns)) by (apply Hf; auto).
      rewrite H in Hin. contradiction.
    + intros [_ H]. apply Nat.eqb_eq, length_zero_iff_nil.
      remember (filter (fun c => negb (JS.includes columns c)) requiredColumns)
        as missing eqn:E.
      destruct missing as [|c l]; [reflexivity|].
      assert (Hc : In c (c :: l)) by (left; reflexivity).
      apply Hf in Hc. destruct Hc as [H1 H2].
      exfalso. exact (H c H1 H2).
Qed.

(** The header decides, not a later line. *)
Example validateCSVStructure_reads_header :
  validateCSVStructure (joinLines ["id,amount"; "amount,id,note"]) ["note"]
  = mkStructure false ["note"] ["id"; "amount"].
Proof. reflexivity. Qed.

Lemma indexOf_included (arr : list string) (x : string) :
  JS.includes arr x = true -> JS.indexOf arr x <> -1.
Proof.
  induction arr as [|y ys IH]; cbn; [discriminate|].
  destruct (String.eqb y x); cbn; [lia|].
  intros H. specialize (IH H).
  destruct (Z.ltb_spec (JS.indexOf ys x) 0); [|lia].
  assert (Hge : forall l, -1 <= JS.indexOf l x).
  { clear. induction l as [|z l IHl]; cbn; [lia|].
    destruct (String.eqb z x); [lia|].
    destruct (Z.ltb_spec (JS.indexOf l x) 0); lia. }
  specialize (Hge ys). lia.
Qed.

(** X19. A column that [validateCSVStructure] finds is a column that
    [csvTotalAmount] finds: if the text passes the check for the column and
    has a data row, [csvTotalAmount] resolves with a total and not with
    [null], and the total is the one [getCSVStatistics] returns. *)
Theorem validated_column_is_summed (csv columnName name : string) (decimalPlaces : Z) :
  CsvTotalAmount.isValid (validateCSVStructure csv [columnName]) = true ->
  0 < dataRowCount csv ->
  completion (csvTotalAmount (Some (mkFile name (Loaded (Some csv))))
                             columnName decimalPlaces)
  = Normal (Resolved (Some (totalAmount (getCSVStatistics csv columnName)))).
Proof.
  unfold validateCSVStructure, dataRowCount.
  destruct (nonBlankLines csv) as [|header rows] eqn:Hlines; cbn zeta;
    [discriminate|].
  cbn [CsvTotalAmount.isValid filter tl]. intros Hv Hrows.
  apply (csvTotalAmount_total csv columnName header name rows decimalPlaces Hlines).
  - destruct rows; [cbn in Hrows; lia | discriminate].
  - apply indexOf_included.
    destruct (JS.includes (columnsOf header) columnName); [reflexivity|discriminate].
Qed.

Lemma validated_column_is_summed_witness :
  completion (csvTotalAmount (Some (mkFile "amounts.csv" (Loaded (Some exampleCsv))))
                             "amount" 7)
  = Normal (Resolved (Some (totalAmount (getCSVStatistics exampleCsv "amount")))).
Proof.
  apply (validated_column_is_summed exampleCsv "amount" "amounts.csv" 7).
  - reflexivity.
  - reflexivity.
Defined.

(** *** Counting the rows *)

Lemma nonBlankLines_nonblank (csv : string) :
  Forall (fun line => String.eqb (JS.trim line) "" = false) (nonBlankLines csv).
Proof.
  apply Forall_forall. intros line H. unfold nonBlankLines in H.
  apply filter_In in H. destruct H as [_ H]. apply negb_true_iff in H. exact H.
Qed.

Lemma collectRow_counts (amountIndex : Z) (line : string) :
  String.eqb (JS.trim line) "" = false ->
  Z.of_nat (List.length (rowAmounts amountIndex line)) + rowInvalid amountIndex line = 1
  /\ 0 <= rowInvalid amountIndex line.
Proof.
  intros H. unfold rowAmounts, rowInvalid, collectRow. rewrite H.
  destruct (JS.at_index (columnsOf line) amountIndex) as [v|]; [|cbn; lia].
  destruct (negb (String.eqb v "")); [|cbn; lia].
  destruct (negb (isNaN (ofString v)) && negb (isNegative (ofString v)))%bool;
    cbn; lia.
Qed.

Lemma fold_collectRow_counts (amountIndex : Z) (rows : list string) :
  Forall (fun line => String.eqb (JS.trim line) "" = false) rows ->
  forall amounts invalid,
    0 <= invalid ->
    let result := fold_left (collectRow amountIndex) rows (amounts, invalid) in
    Z.of_nat (List.length (fst result)) + snd result
    = Z.of_nat (List.length amounts) + invalid + Z.of_nat (List.length rows)
    /\ 0 <= snd result.
Proof.
  induction 1 as [|line rows Hl _ IH]; intros amounts invalid Hi; cbn zeta.
  - cbn. lia.
  - cbn [fold_left]. rewrite collectRow_shape.
    destruct (collectRow_counts amountIndex line Hl) as [Hc Hn].
    destruct (IH (amounts ++ rowAmounts amountIndex line)
                 (invalid + rowInvalid amountIndex line) ltac:(lia)) as [H1 H2].
    cbn zeta in H1, H2. split; [|exact H2].
    rewrite H1, length_app. cbn [List.length]. lia.
Qed.

(** X20. [getCSVStatistics] accounts for every data row: the valid and the
    invalid rows add up to [rowCount], which is the number of non-blank
    lines behind the header. *)
Theorem statistics_count_every_row (csv columnName : string) :
  let s := getCSVStatistics csv columnName in
  validRows s + invalidRows s = rowCount s
  /\ rowCount s = dataRowCount csv
  /\ 0 <= validRows s /\ 0 <= invalidRows s.
Proof.
  unfold getCSVStatistics, dataRowCount.
  pose proof (nonBlankLines_nonblank csv) as Hnb.
  destruct (nonBlankLines csv) as [|header rows]; [cbn; lia|].
  destruct (Z.ltb_spec (Z.of_nat (List.length (header :: rows))) 2) as [Hlen | Hlen].
  - destruct rows; [cbn; lia | cbn [List.length] in Hlen; lia].
  - cbn [tl]. destruct (_ =? -1); [cbn; lia|].
    inversion Hnb as [|? ? _ Hrows]; subst.
    pose proof (fold_collectRow_counts (JS.indexOf (columnsOf header) columnName)
                  rows Hrows [] 0 ltac:(lia)) as [H1 H2].
    cbn zeta in H1, H2.
    destruct (fold_left _ rows ([], 0)) as [amounts invalid].
    cbn [fst snd List.length] in H1, H2.
    destruct (Z.of_nat (List.length amounts) =? 0) eqn:E; cbn; [|lia].
    apply Z.eqb_eq in E. lia.
Qed.

(** *** The fields of the statistics *)

(** Either no row is valid and the four amounts are zero, or the fields are
    computed from the accepted amounts. *)
Lemma getCSVStatistics_shape (csv columnName : string) :
  let s := getCSVStatistics csv columnName in
  let amounts := acceptedAmounts csv columnName in
  (validRows s = 0
   /\ totalAmount s = ofN 0 /\ averageAmount s = ofN 0
   /\ minAmount s = ofN 0 /\ maxAmount s = ofN 0)
  \/ (amounts <> []
      /\ validRows s = Z.of_nat (List.length amounts)
      /\ totalAmount s = fold_left plus amounts (ofN 0)
      /\ averageAmount s
         = dividedBy (totalAmount s) (ofN (N.of_nat (List.length amounts)))
      /\ minAmount s = minimum amounts
      /\ maxAmount s = maximum amounts).
Proof.
  unfold getCSVStatistics, acceptedAmounts.
  destruct (nonBlankLines csv) as [|header rows]; [left; cbn; auto|].
  destruct (Z.of_nat (List.length (header :: rows)) <? 2); [left; cbn; auto|].
  destruct (JS.indexOf (columnsOf header) columnName =? -1); [left; cbn; auto|].
  pose proof (fold_collectRow (JS.indexOf (columnsOf header) columnName) rows [] 0) as Hf.
  destruct (fold_left _ rows ([], 0)) as [amounts invalid].
  cbn [fst app] in Hf. subst amounts.
  destruct (Z.eqb_spec (Z.of_nat (List.length
              (flat_map (rowAmounts (JS.indexOf (columnsOf header) columnName)) rows))) 0)
    as [Hz | Hz]; [left; cbn; auto|].
  right. cbn zeta. cbn [validRows totalAmount averageAmount minAmount maxAmount].
  repeat split. intros E. rewrite E in Hz. cbn in Hz. lia.
Qed.

Lemma acceptedAmounts_accepted (csv columnName : string) :
  Forall accepted (acceptedAmounts csv columnName).
Proof.
  unfold acceptedAmounts. destruct (nonBlankLines csv); [constructor|].
  apply flat_map_accepted.
Qed.

(** [maximum] and [minimum] return one of their arguments. *)
Lemma maxOrMin_In (want : comparison) (args : list t) :
  args <> [] -> In (maxOrMin want args) args.
Proof.
  destruct args as [|first rest]; [contradiction|]. intros _. cbn [maxOrMin].
  revert first. induction rest as [|y rest IH]; intros first; cbn [fold_left].
  - left. reflexivity.
  - match goal with
    | |- In (fold_left ?f rest ?acc) _ =>
        assert (Hacc : acc = first \/ acc = y)
    end.
    { destruct (isNaN y); [right; reflexivity|].
      destruct (compare first y) as [k|]; [|left; reflexivity].
      destruct (match k, want with Lt, Lt | Gt, Gt => true | _, _ => false end);
        [right; reflexivity|].
      destruct (_ && _)%bool; [right | left]; reflexivity. }
    destruct Hacc as [-> | ->].
    + destruct (IH first) as [H | H]; [left; exact H | right; right; exact H].
    + destruct (IH y) as [H | H]; [right; left; exact H | right; right; exact H].
Qed.

Lemma normalise_sign (neg : bool) (c : N) (e : Z) :
  isNaN (normalise neg c e) = false /\ isNegative (normalise neg c e) = neg.
Proof.
  unfold normalise. destruct (c =? 0)%N; [split; reflexivity|].
  destruct (stripZeros (fuelFor c) c e) as [c' e'].
  destruct (MAX_EXP <? _); [split; reflexivity|].
  destruct (_ <? MIN_EXP); split; reflexivity.
Qed.

(** The number of an array's elements is a finite number that is not
    zero. *)
Lemma ofN_count (n : N) :
  (0 < n < 2 ^ 32)%N -> exists c e, ofN n = Finite false c e /\ c <> 0%N.
Proof.
  intros [Hpos Hlt]. unfold ofN.
  destruct (normalise_spec 0 false n 0 ltac:(lia) ltac:(lia))
    as [[Hover _] | [[Hunder _] | [_ (c' & e' & -> & Hc & _)]]].
  - exfalso.
    assert (Hs : scaled 0 n 0 = Z.of_N n)
      by (unfold scaled; rewrite Z.sub_diag, Z.pow_0_r, Z.mul_1_r; reflexivity).
    assert (Hh : 10 ^ 10 <= hi 0)
      by (unfold hi; apply Z.pow_le_mono_r; unfold MAX_EXP; lia).
    assert (H2 : Z.of_N n < Z.of_N (2 ^ 32)) by (apply N2Z.inj_lt; exact Hlt).
    assert (H3 : Z.of_N (2 ^ 32) < 10 ^ 10) by (vm_compute; reflexivity).
    rewrite Hs in Hover. clear Hs.
    generalize dependent (hi 0). intros h Hover Hh.
    generalize dependent (10 ^ 10). intros. lia.
  - exfalso. pose proof (scaled_nonneg 0 n 0) as H0.
    assert (Hl : lo 0 = 0)
      by (unfold lo; apply Z.pow_neg_r; unfold MIN_EXP; lia).
    rewrite Hl in Hunder. lia.
  - exists c', e'. split; [reflexivity | exact Hc].
Qed.

Lemma dividedBy_count_accepted (x : t) (n : N) :
  accepted x -> (0 < n < 2 ^ 32)%N -> accepted (dividedBy x (ofN n)).
Proof.
  intros (Wx & Nx & Sx) Hn.
  destruct (ofN_count n Hn) as (c & e & -> & Hc).
  destruct x as [|a|a c1 e1]; [discriminate| |]; cbn in Sx; subst a.
  - repeat split.
  - cbn [dividedBy]. apply N.eqb_neq in Hc. rewrite Hc. cbn [xorb].
    split; [apply normalise_wf | apply normalise_sign].
Qed.

(** X21. No field of the statistics is [NaN] or negative, whatever the
    text: the total, the average, the minimum and the maximum are
    well-formed numbers that are at least zero, or infinity.  (The number
    of valid rows is the length of an array, so below [2^32].) *)
Theorem statistics_never_nan_or_negative (csv columnName : string) :
  let s := getCSVStatistics csv columnName in
  validRows s < 2 ^ 32 ->
  accepted (totalAmount s) /\ accepted (averageAmount s)
  /\ accepted (minAmount s) /\ accepted (maxAmount s).
Proof.
  cbn zeta. intros Hlen.
  pose proof (acceptedAmounts_accepted csv columnName) as Hacc.
  destruct (getCSVStatistics_shape csv columnName)
    as [(_ & -> & -> & -> & ->) | (Hne & Hv & Ht & -> & -> & ->)].
  - split; [|split; [|split]]; exact accepted_zero.
  - rewrite Hv in Hlen. rewrite Ht.
    assert (Htotal : accepted (fold_left plus (acceptedAmounts csv columnName) (ofN 0)))
      by (apply fold_plus_accepted; [exact Hacc | exact accepted_zero]).
    rewrite Forall_forall in Hacc.
    split; [exact Htotal | split; [|split]].
    + apply dividedBy_count_accepted; [exact Htotal|].
      destruct (acceptedAmounts csv columnName); [contradiction|].
      cbn [List.length] in *. split; [lia|].
      apply N2Z.inj_lt. rewrite nat_N_Z. exact Hlen.
    + apply Hacc, maxOrMin_In, Hne.
    + apply Hacc, maxOrMin_In, Hne.
Qed.

Lemma statistics_never_nan_or_negative_witness :
  accepted (averageAmount (getCSVStatistics exampleCsv "amount")).
Proof.
  destruct (statistics_never_nan_or_negative exampleCsv "amount") as (_ & H & _).
  - vm_compute. reflexivity.
  - exact H.
Defined.

(** *** The order of [compare] on accepted values *)

Lemma scaled_split (K k : Z) (c : N) (e : Z) :
  K <= k <= e -> scaled K c e = Z.of_N (c * pow10 (e - k)) * 10 ^ (k - K).
Proof.
  intros H. unfold scaled. rewrite N2Z.inj_mul, pow10_Z by lia.
  rewrite <- Z.mul_assoc, <- Z.pow_add_r by lia.
  do 2 f_equal. lia.
Qed.

(** [compare] on accepted values is the comparison of the values, infinity
    above every number. *)
Lemma compare_sem (K : Z) (x y : t) :
  accepted x -> accepted y -> fits K x -> fits K y ->
  compare x y
  = Some match sem K x, sem K y with
         | Some u, Some v => (u ?= v)
         | Some _, None => Lt
         | None, Some _ => Gt
         | None, None => Eq
         end.
Proof.
  intros (Wx & Nx & Sx) (Wy & Ny & Sy) Fx Fy.
  destruct x as [|a|a c1 e1]; [discriminate| |]; cbn in Sx; subst a;
    (destruct y as [|b|b c2 e2]; [discriminate| |]); cbn in Sy; subst b;
    try reflexivity.
  cbn [compare sem fits] in *.
  destruct (N.eqb_spec c1 0) as [-> | H1]; destruct (N.eqb_spec c2 0) as [-> | H2];
    cbn [andb negb Bool.eqb].
  - reflexivity.
  - f_equal. symmetry. apply Z.compare_lt_iff.
    pose proof (scaled_pos K c2 e2 H2 Fy) as Hp.
    replace (scaled K 0 e1) with 0 by reflexivity. exact Hp.
  - f_equal. symmetry. apply Z.compare_gt_iff.
    pose proof (scaled_pos K c1 e1 H1 Fx) as Hp.
    replace (scaled K 0 e2) with 0 by reflexivity. exact Hp.
  - f_equal. unfold compareMagnitude.
    rewrite (scaled_split K (Z.min e1 e2) c1 e1) by lia.
    rewrite (scaled_split K (Z.min e1 e2) c2 e2) by lia.
    rewrite <- Zmult_compare_compat_r by (apply Z.lt_gt, pow10_pos; lia).
    symmetry. apply N2Z.inj_compare.
Qed.

(** A unit fine enough for three values. *)
Lemma fits_common (a x y : t) :
  let K := Z.min (expOf a) (Z.min (expOf x) (expOf y)) in
  fits K a /\ fits K x /\ fits K y.
Proof. destruct a, x, y; cbn; repeat split; lia. Qed.

Lemma atMost_refl (x : t) : accepted x -> atMost x x.
Proof.
  intros Hx. destruct (fits_common x x x) as (F & _).
  right. rewrite (compare_sem _ x x Hx Hx F F).
  destruct (sem _ x); [rewrite Z.compare_refl|]; reflexivity.
Qed.

Lemma atMost_trans (a x y : t) :
  accepted a -> accepted x -> accepted y ->
  atMost a x -> atMost x y -> atMost a y.
Proof.
  intros Ha Hx Hy. destruct (fits_common a x y) as (Fa & Fx & Fy).
  unfold atMost.
  rewrite (compare_sem _ a x Ha Hx Fa Fx), (compare_sem _ x y Hx Hy Fx Fy),
    (compare_sem _ a y Ha Hy Fa Fy).
  destruct (sem _ a) as [u|], (sem _ x) as [v|], (sem _ y) as [w|];
    intros [H1 | H1] [H2 | H2]; try discriminate; auto;
    injection H1 as H1; injection H2 as H2;
    destruct (Z.compare_spec u v); try discriminate;
    destruct (Z.compare_spec v w); try discriminate;
    destruct (Z.compare_spec u w); auto; lia.
Qed.

(** How two accepted values compare, and what that says of the two
    orders. *)
Lemma compare_cases (x y : t) :
  accepted x -> accepted y ->
  (compare x y = Some Lt /\ atMost x y)
  \/ (compare x y = Some Eq /\ atMost x y /\ atMost y x)
  \/ (compare x y = Some Gt /\ atMost y x).
Proof.
  intros Hx Hy. destruct (fits_common x x y) as (_ & Fx & Fy).
  unfold atMost.
  rewrite (compare_sem _ x y Hx Hy Fx Fy), (compare_sem _ y x Hy Hx Fy Fx).
  pose proof (eq_refl (Some Eq)) as HE.
  pose proof (eq_refl (Some Lt)) as HL.
  pose proof (eq_refl (Some Gt)) as HG.
  destruct (sem _ x) as [u|], (sem _ y) as [v|]; try tauto.
  rewrite (Z.compare_antisym u v).
  destruct (u ?= v); cbn [CompOpp]; tauto.
Qed.

Lemma accepted_sign (x : t) :
  accepted x -> isNaN x = false /\ signIs x true = false /\ signIs x false = true.
Proof.
  intros (_ & Hn & Hs). destruct x as [|a|a c e]; [discriminate| |];
    cbn in Hs; subst a; repeat split.
Qed.

(** The loop of [maximum]: the result is above everything seen. *)
Lemma maximum_bounds (rest : list t) : forall first,
  Forall accepted (first :: rest) ->
  forall a, In a (first :: rest) -> atMost a (maximum (first :: rest)).
Proof.
  unfold maximum. cbn [maxOrMin].
  assert (Hgen : forall (seen : list t) (first : t),
             Forall accepted rest -> accepted first ->
             Forall accepted seen ->
             (forall a, In a seen -> atMost a first) ->
             forall a, In a (seen ++ rest) ->
                       atMost a (fold_left
                         (fun x y =>
                            if isNaN y then y
                            else match compare x y with
                                 | Some k =>
                                     if match k with Lt => true | _ => false end
                                     then y
                                     else if match k with Eq => true | _ => false end
                                             && signIs x true
                                     then y else x
                                 | None => x
                                 end) rest first)).
  { induction rest as [|y rest IH]; intros seen first Hrest Hfirst Hseen Hb a Ha;
      cbn [fold_left].
    - rewrite app_nil_r in Ha. apply Hb, Ha.
    - inversion Hrest as [|? ? Hy Hrest']; subst.
      destruct (accepted_sign y Hy) as (Ny & _).
      destruct (accepted_sign first Hfirst) as (_ & Sf & _).
      rewrite Ny, Sf.
      replace (seen ++ y :: rest) with ((seen ++ [y]) ++ rest) in Ha
        by (rewrite <- app_assoc; reflexivity).
      assert (Hseen' : Forall accepted (seen ++ [y]))
        by (apply Forall_app; split; [exact Hseen | apply Forall_cons; [exact Hy | apply Forall_nil]]).
      destruct (compare_cases first y Hfirst Hy)
        as [[-> Hle] | [[-> [Hle Hge]] | [-> Hge]]]; cbn [andb].
      + apply (IH (seen ++ [y]) y); try assumption.
        intros b Hb'. apply in_app_or in Hb'. destruct Hb' as [Hb' | [<- | []]].
        * rewrite Forall_forall in Hseen.
          apply (atMost_trans b first y); auto.
        * apply atMost_refl, Hy.
      + apply (IH (seen ++ [y]) first); try assumption.
        intros b Hb'. apply in_app_or in Hb'. destruct Hb' as [Hb' | [<- | []]];
          [apply Hb, Hb' | exact Hge].
      + apply (IH (seen ++ [y]) first); try assumption.
        intros b Hb'. apply in_app_or in Hb'. destruct Hb' as [Hb' | [<- | []]];
          [apply Hb, Hb' | exact Hge]. }
  intros first Hall a Ha. inversion Hall as [|? ? Hf Hr]; subst.
  apply (Hgen [first] first Hr Hf); [apply Forall_cons; [exact Hf | apply Forall_nil] | | exact Ha].
  intros b [<- | []]. apply atMost_refl, Hf.
Qed.

(** The loop of [minimum]: the result is below everything seen. *)
Lemma minimum_bounds (rest : list t) : forall first,
  Forall accepted (first :: rest) ->
  forall a, In a (first :: rest) -> atMost (minimum (first :: rest)) a.
Proof.
  unfold minimum. cbn [maxOrMin].
  assert (Hgen : forall (seen : list t) (first : t),
             Forall accepted rest -> accepted first ->
             Forall accepted seen ->
             (forall a, In a seen -> atMost first a) ->
             forall a, In a (seen ++ rest) ->
                       atMost (fold_left
                         (fun x y =>
                            if isNaN y then y
                            else match compare x y with
                                 | Some k =>
                                     if match k with Gt => true | _ => false end
                                     then y
                                     else if match k with Eq => true | _ => false end
                                             && signIs x false
                                     then y else x
                                 | None => x
                                 end) rest first) a).
  { induction rest as [|y rest IH]; intros seen first Hrest Hfirst Hseen Hb a Ha;
      cbn [fold_left].
    - rewrite app_nil_r in Ha. apply Hb, Ha.
    - inversion Hrest as [|? ? Hy Hrest']; subst.
      destruct (accepted_sign y Hy) as (Ny & _).
      destruct (accepted_sign first Hfirst) as (_ & _ & Sf).
      rewrite Ny, Sf.
      replace (seen ++ y :: rest) with ((seen ++ [y]) ++ rest) in Ha
        by (rewrite <- app_assoc; reflexivity).
      assert (Hseen' : Forall accepted (seen ++ [y]))
        by (apply Forall_app; split; [exact Hseen | apply Forall_cons; [exact Hy | apply Forall_nil]]).
      destruct (compare_cases first y Hfirst Hy)
        as [[-> Hle] | [[-> [Hle Hge]] | [-> Hge]]]; cbn [andb].
      + apply (IH (seen ++ [y]) first); try assumption.
        intros b Hb'. apply in_app_or in Hb'. destruct Hb' as [Hb' | [<- | []]];
          [apply Hb, Hb' | exact Hle].
      + apply (IH (seen ++ [y]) y); try assumption.
        intros b Hb'. apply in_app_or in Hb'. destruct Hb' as [Hb' | [<- | []]].
        * rewrite Forall_forall in Hseen.
          apply (atMost_trans y first b); auto.
        * apply atMost_refl, Hy.
      + apply (IH (seen ++ [y]) y); try assumption.
        intros b Hb'. apply in_app_or in Hb'. destruct Hb' as [Hb' | [<- | []]].
        * rewrite Forall_forall in Hseen.
          apply (atMost_trans y first b); auto.
        * apply atMost_refl, Hy. }
  intros first Hall a Ha. inversion Hall as [|? ? Hf Hr]; subst.
  apply (Hgen [first] first Hr Hf); [apply Forall_cons; [exact Hf | apply Forall_nil] | | exact Ha].
  intros b [<- | []]. apply atMost_refl, Hf.
Qed.

(** X22. When a row is valid, the minimum and the maximum of the statistics
    are amounts of the text, and every accepted amount lies between them in
    the order of the library's [compare]. *)
Theorem statistics_min_max (csv columnName : string) :
  let s := getCSVStatistics csv columnName in
  let amounts := acceptedAmounts csv columnName in
  0 < validRows s ->
  In (minAmount s) amounts /\ In (maxAmount s) amounts
  /\ forall a, In a amounts -> atMost (minAmount s) a /\ atMost a (maxAmount s).
Proof.
  cbn zeta. intros Hv.
  pose proof (acceptedAmounts_accepted csv columnName) as Hacc.
  destruct (getCSVStatistics_shape csv columnName)
    as [(Hz & _) | (Hne & _ & _ & _ & -> & ->)]; [lia|].
  destruct (acceptedAmounts csv columnName) as [|first rest]; [contradiction|].
  repeat split.
  - apply maxOrMin_In. discriminate.
  - apply maxOrMin_In. discriminate.
  - apply minimum_bounds; assumption.
  - apply maximum_bounds; assumption.
Qed.

Lemma statistics_min_max_witness :
  atMost (minAmount (getCSVStatistics exampleCsv "amount"))
         (maxAmount (getCSVStatistics exampleCsv "amount")).
Proof.
  destruct (statistics_min_max exampleCsv "amount") as (_ & Hmax & Hb).
  - vm_compute. reflexivity.
  - destruct (Hb _ Hmax) as [H _]. exact H.
Defined.

(** *** How [csvTotalAmount] settles *)

(** X23. [csvTotalAmount] rejects only when the reader fails, with the
    reader's error.  On a loaded file it resolves; it resolves with [null]
    exactly when the text has fewer than two non-blank lines or its header
    lacks the column, and a total it resolves with is never [NaN] nor
    negative. *)
Theorem csvTotalAmount_settles (file : File) (columnName : string) (decimalPlaces : Z) :
  match readAsText file with
  | Failed error =>
      csvTotalAmount (Some file) columnName decimalPlaces
      = (Normal (Rejected error), [mkLog ERROR "Failed to read CSV file" ctx])
  | Loaded result =>
      exists r,
        completion (csvTotalAmount (Some file) columnName decimalPlaces)
        = Normal (Resolved r)
        /\ (r = None
            <-> match loadedLines result with
                | header :: _ :: _ => JS.includes (columnsOf header) columnName = false
                | _ => True
                end)
        /\ (forall total, r = Some total -> accepted total)
  end.
Proof.
  unfold csvTotalAmount. destruct (readAsText file) as [result | error];
    [|reflexivity].
  assert (Hnull : forall l : list string,
             match l with
             | header :: _ :: _ => JS.includes (columnsOf header) columnName = false
             | _ => True
             end ->
             exists r : option t,
               Normal (Resolved (@None t)) = Normal (Resolved r)
               /\ (r = None <-> match l with
                                | header :: _ :: _ =>
                                    JS.includes (columnsOf header) columnName = false
                                | _ => True
                                end)
               /\ (forall total, r = Some total -> accepted total)).
  { intros l Hl. exists None. split; [reflexivity|]. split; [tauto | discriminate]. }
  destruct result as [[|ch text]|]; cbn [loadedLines].
  - apply (Hnull (nonBlankLines "")). vm_compute. exact I.
  - unfold onload. cbv beta iota zeta.
    set (csv := String ch text).
    destruct (nonBlankLines csv) as [|header [|row rows]] eqn:Hlines.
    + apply (Hnull []). exact I.
    + apply (Hnull [header]). exact I.
    + replace (Z.of_nat (List.length (header :: row :: rows)) <? 2) with false
        by (symmetry; apply Z.ltb_ge; cbn [List.length]; lia).
      destruct (Z.eqb_spec (JS.indexOf (columnsOf header) columnName) (-1))
        as [Hidx | Hidx].
      * apply (Hnull (header :: row :: rows)).
        destruct (JS.includes (columnsOf header) columnName) eqn:E; [|reflexivity].
        apply indexOf_included in E. contradiction.
      * destruct (forEachRow_total (JS.indexOf (columnsOf header) columnName)
                    decimalPlaces (row :: rows) 0%nat initialTotals)
          as (acc & l & -> & Ht).
        exists (Some (accTotalAmount acc)). split; [|split].
        -- cbn [bind]. destruct (0 <? accInvalidRows acc); reflexivity.
        -- split; [discriminate|]. intros E.
           apply indexOf_not_included in E. contradiction.
        -- intros total [= <-]. rewrite Ht.
           apply fold_plus_accepted; [apply flat_map_accepted | exact accepted_zero].
  - apply (Hnull []). exact I.
Qed.

(** *** The two row loops agree *)

Lemma processRow_counts (amountIndex decimalPlaces : Z) (acc : Totals)
    (line : string) (index : nat) :
  exists acc' l,
    processRow amountIndex decimalPlaces acc line index = (Normal acc', l)
    /\ accInvalidRows acc' = accInvalidRows acc + rowInvalid amountIndex line
    /\ accValidRows acc'
       = accValidRows acc + Z.of_nat (List.length (rowAmounts amountIndex line))
    /\ Z.of_nat (List.length (accErrors acc'))
       = Z.of_nat (List.length (accErrors acc)) + rowInvalid amountIndex line
    /\ Forall (eq precisionWarning) l.
Proof.
  unfold processRow, rowAmounts, rowInvalid, collectRow.
  assert (Hrej : forall what,
             Z.of_nat (List.length (accErrors (rejectRow acc index what)))
             = Z.of_nat (List.length (accErrors acc)) + 1).
  { intros what. cbn [rejectRow accErrors]. rewrite length_app. cbn [List.length]. lia. }
  destruct (String.eqb (JS.trim line) ""); cbn [fst snd].
  { do 2 eexists. split; [reflexivity|]. cbn [List.length].
    repeat split; try lia. constructor. }
  destruct (JS.at_index (columnsOf line) amountIndex) as [v|]; cbn [fst snd].
  2: { do 2 eexists. split; [reflexivity|]. rewrite Hrej. cbn.
       repeat split; try lia. constructor. }
  destruct (String.eqb v ""); cbn [negb fst snd].
  { do 2 eexists. split; [reflexivity|]. rewrite Hrej. cbn.
    repeat split; try lia. constructor. }
  destruct (isNaN (ofString v)); cbn [negb andb fst snd].
  { do 2 eexists. split; [reflexivity|]. rewrite Hrej. cbn.
    repeat split; try lia. constructor. }
  destruct (isNegative (ofString v)); cbn [negb fst snd].
  { do 2 eexists. split; [reflexivity|]. rewrite Hrej. cbn.
    repeat split; try lia. constructor. }
  destruct (exceedsDecimalPlaces (ofString v) decimalPlaces);
    do 2 eexists; (split; [reflexivity|]); cbn;
    repeat split; try lia; repeat constructor.
Qed.

Lemma forEachRow_counts (amountIndex decimalPlaces : Z) (rows : list string) :
  forall index acc amounts invalid,
  exists acc' l,
    forEachRow amountIndex decimalPlaces rows index acc = (Normal acc', l)
    /\ accInvalidRows acc' - accInvalidRows acc
       = snd (fold_left (collectRow amountIndex) rows (amounts, invalid)) - invalid
    /\ accValidRows acc' - accValidRows acc
       = Z.of_nat (List.length
                    (fst (fold_left (collectRow amountIndex) rows (amounts, invalid))))
         - Z.of_nat (List.length amounts)
    /\ Z.of_nat (List.length (accErrors acc')) - Z.of_nat (List.length (accErrors acc))
       = accInvalidRows acc' - accInvalidRows acc
    /\ Forall (eq precisionWarning) l.
Proof.
  induction rows as [|line rows IH]; intros index acc amounts invalid;
    cbn [forEachRow fold_left].
  - do 2 eexists. split; [reflexivity|]. cbn [fst snd].
    repeat split; try lia. constructor.
  - destruct (processRow_counts amountIndex decimalPlaces acc line index)
      as (acc1 & l1 & -> & Hi1 & Hv1 & He1 & Hl1).
    rewrite collectRow_shape.
    destruct (IH (S index) acc1 (amounts ++ rowAmounts amountIndex line)
                 (invalid + rowInvalid amountIndex line))
      as (acc2 & l2 & H2 & Hi2 & Hv2 & He2 & Hl2).
    unfold bind. rewrite H2. do 2 eexists. split; [reflexivity|].
    rewrite length_app in Hv2.
    repeat split; try lia.
    apply Forall_app. split; assumption.
Qed.

(** X24. The two row loops reject the same rows: on a text whose header
    names the column and that has a data row, [csvTotalAmount] logs its
    closing warning about errors exactly when [getCSVStatistics] counts an
    invalid row. *)
Theorem errors_warning_iff_invalid_rows (csv columnName name : string)
    (decimalPlaces : Z) :
  ~ headerLacks csv columnName ->
  0 < dataRowCount csv ->
  In errorsWarning
     (logged (csvTotalAmount (Some (mkFile name (Loaded (Some csv))))
                             columnName decimalPlaces))
  <-> 0 < invalidRows (getCSVStatistics csv columnName).
Proof.
  unfold headerLacks, dataRowCount, getCSVStatistics, csvTotalAmount, onload.
  cbn [readAsText].
  destruct csv as [|ch text]; [intros H; exfalso; apply H; vm_compute; exact I|].
  cbv beta iota zeta.
  destruct (nonBlankLines (String ch text)) as [|header rows];
    [intros H; exfalso; apply H; exact I|].
  cbn [tl]. intros Hcol Hrows.
  replace (Z.of_nat (List.length (header :: rows)) <? 2) with false
    by (symmetry; apply Z.ltb_ge; cbn [List.length] in *; lia).
  destruct (Z.eqb_spec (JS.indexOf (columnsOf header) columnName) (-1)) as [Hidx | Hidx].
  { exfalso. apply Hcol.
    destruct (JS.includes (columnsOf header) columnName) eqn:E; [|reflexivity].
    apply indexOf_included in E. contradiction. }
  destruct (forEachRow_counts (JS.indexOf (columnsOf header) columnName)
              decimalPlaces rows 0%nat initialTotals [] 0)
    as (acc & l & -> & Hi & _ & _ & Hl).
  cbn [initialTotals accInvalidRows] in Hi.
  destruct (fold_left _ rows ([], 0)) as [amounts invalid]. cbn [snd] in Hi.
  assert (Hinv : accInvalidRows acc = invalid) by lia.
  assert (Hstat : invalidRows
                    (if Z.of_nat (List.length amounts) =? 0
                     then emptyStatistics (Z.of_nat (List.length rows)) invalid
                     else
                       {| rowCount := Z.of_nat (List.length rows);
                          totalAmount := fold_left (fun sum amount => plus sum amount)
                                           amounts (ofN 0);
                          averageAmount :=
                            dividedBy (fold_left (fun sum amount => plus sum amount)
                                         amounts (ofN 0))
                              (ofN (N.of_nat (List.length amounts)));
                          minAmount := minimum amounts;
                          maxAmount := maximum amounts;
                          validRows := Z.of_nat (List.length amounts);
                          invalidRows := invalid |}) = invalid)
    by (destruct (_ =? 0); reflexivity).
  rewrite Hstat. clear Hstat.
  assert (Hnot : ~ In errorsWarning l).
  { intros F. rewrite Forall_forall in Hl. apply Hl in F. discriminate. }
  unfold logged, bind, tryCatch, when, logger_info, logger_warn, logger_log, ret.
  rewrite Hinv.
  destruct (Z.ltb_spec 0 invalid) as [Hpos | Hpos]; cbn [fst snd app].
  - split; [intros _; exact Hpos|]. intros _.
    apply in_or_app. right. right. left. reflexivity.
  - split; [|lia]. intros F. exfalso.
    apply in_app_or in F. destruct F as [F | [F | F]];
      [exact (Hnot F) | discriminate | ].
    cbn in F. exact F.
Qed.

Lemma errors_warning_iff_invalid_rows_witness :
  In errorsWarning
     (logged (csvTotalAmount (Some (mkFile "amounts.csv" (Loaded (Some exampleCsv))))
                             "amount" 7)).
Proof.
  apply (errors_warning_iff_invalid_rows exampleCsv "amount" "amounts.csv" 7).
  - intros F. vm_compute in F. discriminate.
  - vm_compute. reflexivity.
  - vm_compute. reflexivity.
Defined.

(** ** Wallet and asset validators *)

Import Validation WalletValidate.

Lemma allChars_hasChar (f : ascii -> bool) (c : ascii) (s : string) :
  JS.allChars f s = true -> f c = false -> JS.hasChar c s = false.
Proof.
  intros Hall Hc. induction s as [|d r IH]; [reflexivity|].
  cbn in Hall |- *. apply andb_true_iff in Hall. destruct Hall as [Hd Hr].
  rewrite (IH Hr), orb_false_r.
  destruct (Ascii.eqb_spec d c) as [-> | _]; [congruence | reflexivity].
Qed.

(** What the regular expression of an address implies for the other
    checks. *)
Lemma WALLET_ADDRESS_REGEX_implies (address : string) :
  WALLET_ADDRESS_REGEX address = true ->
  JS.isPrefix WALLET_ADDRESS_PREFIX address = true
  /\ Nat.eqb (String.length address) WALLET_ADDRESS_LENGTH = true
  /\ JS.hasChar "0" address = false /\ JS.hasChar "1" address = false
  /\ JS.hasChar "8" address = false /\ JS.hasChar "9" address = false.
Proof.
  destruct address as [|c rest]; [discriminate|].
  unfold WALLET_ADDRESS_REGEX. rewrite !andb_true_iff.
  intros [[Hg Hlen] Hall].
  apply Ascii.eqb_eq in Hg. subst c.
  split; [reflexivity|]. split; [exact Hlen|].
  repeat split; cbn [JS.hasChar];
    rewrite (allChars_hasChar _ _ rest Hall); reflexivity.
Qed.

Lemma ofErrors_pushIf_valid (c : bool) (msg : string) (errs : list string) :
  isValid (ofErrors (pushIf c msg errs))
  = (negb c && isValid (ofErrors errs))%bool.
Proof.
  unfold ofErrors, pushIf. cbn [isValid]. destruct c; [|reflexivity].
  rewrite length_app. cbn. rewrite Nat.add_comm. reflexivity.
Qed.

Lemma validateWalletAddress_value (address : string) :
  exists result,
    validateWalletAddress address = (Normal result, [])
    /\ isValid result
       = (WALLET_ADDRESS_REGEX address
          && negb (JS.hasChar "O" address || JS.hasChar "I" address))%bool
    /\ (isValid result = true -> errors result = []).
Proof.
  unfold validateWalletAddress.
  destruct address as [|c rest]; [eexists; repeat split; discriminate|].
  cbn [String.eqb tryCatch ret]. eexists. split; [reflexivity|]. split.
  - unfold walletAddressErrors. cbv zeta.
    rewrite !ofErrors_pushIf_valid. cbn [ofErrors isValid List.length Nat.eqb].
    destruct (WALLET_ADDRESS_REGEX (String c rest)) eqn:R.
    + destruct (WALLET_ADDRESS_REGEX_implies _ R) as (-> & -> & -> & -> & -> & ->).
      cbn. rewrite andb_true_r. reflexivity.
    + cbn [negb andb]. rewrite !andb_false_r. reflexivity.
  - unfold ofErrors. cbn [isValid errors]. intros H. apply Nat.eqb_eq in H.
    apply length_zero_iff_nil in H. exact H.
Qed.

(** X25. The two address validators disagree.  [isValidWalletAddress]
    answers what the regular expression answers; [validateWalletAddress]
    also rejects an address with an [O] or an [I], which the expression
    admits.  The checks of the prefix, of the length and of the digits
    0, 1, 8 and 9 never decide: the expression covers them. *)
Theorem wallet_validators_compare (address : string) :
  exists accepted' result,
    completion (isValidWalletAddress address) = Normal accepted'
    /\ validateWalletAddress address = (Normal result, [])
    /\ accepted' = WALLET_ADDRESS_REGEX address
    /\ isValid result
       = (accepted' && negb (JS.hasChar "O" address || JS.hasChar "I" address))%bool.
Proof.
  destruct (validateWalletAddress_value address) as (result & Hr & Hv & _).
  exists (WALLET_ADDRESS_REGEX address), result.
  split; [|split; [exact Hr | split; [reflexivity | exact Hv]]].
  unfold isValidWalletAddress.
  destruct address as [|c rest]; [reflexivity|].
  cbn [String.eqb].
  destruct (WALLET_ADDRESS_REGEX (String c rest)) eqn:R.
  - destruct (WALLET_ADDRESS_REGEX_implies _ R) as (-> & -> & _). reflexivity.
  - destruct (negb (JS.isPrefix WALLET_ADDRESS_PREFIX (String c rest)));
      [reflexivity|].
    destruct (negb (Nat.eqb (String.length (String c rest)) WALLET_ADDRESS_LENGTH));
      reflexivity.
Qed.

(** An address of the right form with an [O] in it. *)
Example address_with_O :
  let address := "GOOOOOOOOOOOOOOOOOOOOOOOOOOOOOOOOOOOOOOOOOOOOOOOOOOOOOOO" in
  completion (isValidWalletAddress address) = Normal true
  /\ option_map isValid
       (match completion (validateWalletAddress address) with
        | Normal r => Some r
        | Thrown _ => None
        end) = Some false.
Proof. split; vm_compute; reflexivity. Qed.

(** X26. [validateAssetIssuer] accepts what [validateWalletAddress]
    accepts, and reports the errors of the address check, each behind
    the words [Issuer: ], for an issuer that is not the empty string. *)
Theorem validateAssetIssuer_follows_address (issuer : string) :
  exists address result,
    validateWalletAddress issuer = (Normal address, [])
    /\ validateAssetIssuer issuer = (Normal result, [])
    /\ isValid result = isValid address
    /\ errors result
       = if String.eqb issuer ""
         then ["Asset issuer is required and must be a string"]
         else map (fun error => ("Issuer: " ++ error)%string) (errors address).
Proof.
  destruct (validateWalletAddress_value issuer) as (address & Ha & _ & He).
  exists address. unfold validateAssetIssuer.
  destruct issuer as [|c rest].
  - cbv in Ha. injection Ha as <-. eexists. repeat split.
  - cbn [String.eqb]. rewrite Ha. cbn [bind tryCatch ret app].
    destruct (isValid address) eqn:V; cbn [negb].
    + rewrite (He eq_refl). eexists. repeat split.
    + eexists. split; [reflexivity|]. split; [reflexivity|].
      split; [|reflexivity].
      unfold ofErrors. cbn [isValid]. rewrite length_map.
      destruct (errors address) as [|e es] eqn:E; [|reflexivity].
      exfalso.
      assert (Hvalid : isValid address = true).
      { unfold validateWalletAddress in Ha. cbn [String.eqb tryCatch ret] in Ha.
        injection Ha as <-. unfold ofErrors in *. cbn [isValid errors] in *.
        rewrite E. reflexivity. }
      congruence.
Qed.

Lemma upperChar_assetCodeChar (c : ascii) :
  isAssetCodeChar c = true -> JS.upperChar c = c.
Proof.
  destruct c as [[] [] [] [] [] [] [] []]; vm_compute; intros; congruence.
Qed.

Lemma toUpperCase_assetCode (s : string) :
  JS.allChars isAssetCodeChar s = true -> JS.toUpperCase s = s.
Proof.
  induction s as [|c r IH]; [reflexivity|]. cbn [JS.allChars].
  intros H. apply andb_true_iff in H. destruct H as [Hc Hr].
  unfold JS.toUpperCase in *. cbn [JS.mapString].
  rewrite (upperChar_assetCodeChar c Hc), (IH Hr). reflexivity.
Qed.

(** X27. [validateAssetCode] accepts a code exactly when the code without
    the white space around it has 1 to 12 characters, all of them capital
    letters, digits, hyphens or underscores, and is neither [XLM] nor
    [NATIVE].  It never throws and logs nothing. *)
Theorem validateAssetCode_accepts_iff (assetCode : string) :
  exists result,
    validateAssetCode assetCode = (Normal result, [])
    /\ (isValid result = true
        <-> (1 <= String.length (JS.trim assetCode) <= 12)%nat
            /\ JS.allChars isAssetCodeChar (JS.trim assetCode) = true
            /\ JS.trim assetCode <> "XLM" /\ JS.trim assetCode <> "NATIVE").
Proof.
  unfold validateAssetCode.
  destruct assetCode as [|c rest].
  - eexists. split; [reflexivity|]. cbn. split; [discriminate|]. lia.
  - cbn [String.eqb tryCatch ret]. eexists. split; [reflexivity|].
    unfold assetCodeErrors. cbv zeta.
    set (t := JS.trim (String c rest)).
    rewrite !ofErrors_pushIf_valid. cbn [ofErrors isValid List.length Nat.eqb].
    rewrite andb_true_r, !andb_true_iff, !negb_true_iff, negb_false_iff.
    unfold validChars. rewrite andb_true_iff, negb_true_iff.
    rewrite Nat.eqb_neq, Nat.ltb_ge, String.eqb_neq.
    split.
    + intros (Hres & (Hne & Hall) & Hle & Hlen).
      rewrite (toUpperCase_assetCode t Hall) in Hres.
      unfold reservedCodes in Hres. cbn [JS.includes existsb] in Hres.
      rewrite !orb_false_iff in Hres. destruct Hres as (H1 & H2 & _).
      apply String.eqb_neq in H1, H2.
      repeat split; try lia; try assumption; intros E; congruence.
    + intros (Hlen & Hall & H1 & H2).
      repeat split; try lia; try assumption.
      * rewrite (toUpperCase_assetCode t Hall).
        unfold reservedCodes. cbn [JS.includes existsb].
        rewrite !orb_false_iff. repeat split; apply String.eqb_neq; congruence.
      * intros E. rewrite E in Hlen. cbn in Hlen. lia.
Qed.

(** A code in lower case is turned down twice, and white space around a
    code is not held against it. *)
Example asset_code_examples :
  option_map errors
    (match completion (validateAssetCode "xlm") with
     | Normal r => Some r | Thrown _ => None end)
  = Some [ "Asset code contains invalid characters (only uppercase letters, numbers, hyphens, and underscores allowed)";
           "Asset code 'xlm' is reserved" ]
  /\ completion (validateAssetCode " USDC ") = Normal (mkResult true []).
Proof. split; vm_compute; reflexivity. Qed.

(** X28. [validateWalletName] accepts a name exactly when the name without
    the white space around it has 2 to 50 characters and none of the nine
    characters it forbids; a name of white space alone is told both that
    it is empty and that it is too short. *)
Theorem validateWalletName_accepts_iff (name : string) :
  exists result,
    validateWalletName name = (Normal result, [])
    /\ (isValid result = true
        <-> (2 <= String.length (JS.trim name) <= 50)%nat
            /\ JS.someChar isInvalidNameChar (JS.trim name) = false)
    /\ (name <> "" -> JS.trim name = "" ->
        errors result = [ "Wallet name cannot be empty";
                          "Wallet name must be at least 2 characters long" ]).
Proof.
  unfold validateWalletName.
  destruct name as [|c rest].
  - eexists. split; [reflexivity|]. cbn. split; [|congruence].
    split; [discriminate|]. lia.
  - cbn [String.eqb tryCatch ret]. eexists. split; [reflexivity|].
    unfold walletNameErrors. cbv zeta.
    set (t := JS.trim (String c rest)). split.
    + rewrite !ofErrors_pushIf_valid. cbn [ofErrors isValid List.length Nat.eqb].
      rewrite andb_true_r, !andb_true_iff, !negb_true_iff.
      rewrite Nat.eqb_neq, !Nat.ltb_ge. split.
      * intros (Hc & Hle & Hge & Hz). repeat split; try lia; assumption.
      * intros ((Hge & Hle) & Hc). repeat split; try lia; assumption.
    + intros _ E. rewrite E. reflexivity.
Qed.

(** ** The display tables cover the transition tables *)

Import StatusInfo.

Ltac each_edge H :=
  cbn in H;
  repeat match type of H with
         | _ \/ _ => destruct H as [H | H]
         end;
  try contradiction.

(** X29. Every status an allowed transition starts from or arrives at has
    an entry of its own in the display table of the same kind, so the
    fallback text for an unknown status is never shown for it. *)
Theorem transition_statuses_have_info (currentStatus newStatus : string) :
  (validateDisbursementStatusTransition currentStatus newStatus = Normal true ->
   exists from to,
     getDisbursementStatusInfo currentStatus = Entry from
     /\ getDisbursementStatusInfo newStatus = Entry to
     /\ description from <> "Unknown disbursement status"
     /\ description to <> "Unknown disbursement status")
  /\ (validatePaymentStatusTransition currentStatus newStatus = Normal true ->
      exists from to,
        getPaymentStatusInfo currentStatus = Entry from
        /\ getPaymentStatusInfo newStatus = Entry to
        /\ description from <> "Unknown payment status"
        /\ description to <> "Unknown payment status").
Proof.
  split; intros H;
    destruct (transitionAllowed_true _ _ _ H) as (targets & Hin & Ht);
    each_edge Hin; injection Hin as <- <-; each_edge Ht; subst newStatus;
    do 2 eexists; (split; [reflexivity|]); (split; [reflexivity|]);
    split; discriminate.
Qed.

Lemma transition_statuses_have_info_witness :
  exists from to,
    getPaymentStatusInfo "failed" = Entry from
    /\ getPaymentStatusInfo "retry" = Entry to
    /\ description from <> "Unknown payment status"
    /\ description to <> "Unknown payment status".
Proof.
  apply (transition_statuses_have_info "failed" "retry"). reflexivity.
Defined.
